(** * Mutual-fund allocation tracker: a Rocq model of [2.py]

    The development follows the Python source: [PortfolioDataValidator]
    (period labels, table structure), then [PortfolioManager] (the JSON
    store, the spreadsheet import, the period-over-period comparison).

    Conventions of the embedding.
    - A Python [str] is a Rocq [string]; a character is a code point below
      256, so that [str.isspace], [str.lower] and the classes [\s] and [\d]
      of [re] are the tables of the Latin-1 range.
    - A Python [float] is a binary64 [PrimFloat.float]; the integer literal
      [0] that the import stores for a missing number is the float zero (it
      is equal to it in Python and behaves like it in every operation used).
    - Exceptions are values of [exn]; a computation that may raise returns a
      [result]; the methods of the manager run in a state monad over the
      manager's dictionary, the storage file and the standard output.
    - The storage file holds a [str]: the text [json.dump] writes, which
      [json.load] reads. [Json] and [PyFloat] model CPython's encoder,
      decoder and float conversions. *)

From Stdlib Require Import String Ascii List ZArith Bool Lia.
From Stdlib Require Import PrimFloat SpecFloat FloatOps DecimalString.
From stdpp Require Import gmap strings sorting.
Import ListNotations.

Local Open Scope string_scope.
Local Open Scope list_scope.
Local Open Scope nat_scope.

(** ** Python strings *)

Module PyStr.

(** [c.isspace()], which is also the class [\s] of a [str] pattern. *)
Definition isspace (c : ascii) : bool :=
  let n := nat_of_ascii c in
  ((9 <=? n) && (n <=? 13)) || ((28 <=? n) && (n <=? 32))
  || (n =? 133) || (n =? 160).

(** The class [\d] of a [str] pattern: decimal digits. *)
Definition isdigit (c : ascii) : bool :=
  let n := nat_of_ascii c in (48 <=? n) && (n <=? 57).

Definition digit_val (c : ascii) : Z := Z.of_nat (nat_of_ascii c) - 48.

(** [c.lower()] on one code point. *)
Definition lower_char (c : ascii) : ascii :=
  let n := nat_of_ascii c in
  if ((65 <=? n) && (n <=? 90))
     || ((192 <=? n) && (n <=? 222) && negb (n =? 215))
  then ascii_of_nat (n + 32) else c.

(** [s.lower()] *)
Fixpoint lower (s : string) : string :=
  match s with
  | EmptyString => EmptyString
  | String c s' => String (lower_char c) (lower s')
  end.

(** [s.lstrip()] *)
Fixpoint lstrip (s : string) : string :=
  match s with
  | EmptyString => EmptyString
  | String c s' => if isspace c then lstrip s' else s
  end.

(** [s.rstrip()] *)
Fixpoint rstrip (s : string) : string :=
  match s with
  | EmptyString => EmptyString
  | String c s' =>
      match rstrip s' with
      | EmptyString => if isspace c then EmptyString else String c EmptyString
      | r => String c r
      end
  end.

(** [s.strip()] *)
Definition strip (s : string) : string := rstrip (lstrip s).

(** [s.startswith(p)], returning what follows the prefix. *)
Fixpoint strip_prefix (p s : string) : option string :=
  match p, s with
  | EmptyString, _ => Some s
  | String c p', String d s' =>
      if Ascii.eqb c d then strip_prefix p' s' else None
  | String _ _, EmptyString => None
  end.

(** [p in s]: [p] occurs in [s] as a contiguous run. *)
Fixpoint contains (p s : string) : bool :=
  match strip_prefix p s with
  | Some _ => true
  | None =>
      match s with
      | EmptyString => false
      | String _ s' => contains p s'
      end
  end.

(** Truth value of a string: non-empty. *)
Definition truthy (s : string) : bool :=
  match s with EmptyString => false | String _ _ => true end.

Fixpoint all (f : ascii -> bool) (s : string) : bool :=
  match s with
  | EmptyString => true
  | String c s' => f c && all f s'
  end.

End PyStr.

(** ** Exceptions and results *)

(** The exception classes that occur; all derive from [Exception]. The
    argument is the message the exception was built with. *)
Inductive exn : Type :=
| ValueError (msg : string)
| KeyError (msg : string)
| IndexError (msg : string)
| FileNotFoundError (msg : string)
| OSError (msg : string)
| JSONDecodeError (msg : string)
| OtherError (cls msg : string).

Inductive result (A : Type) : Type :=
| Ok (a : A)
| Raise (e : exn).
Arguments Ok {A} a.
Arguments Raise {A} e.

(** [str(e)]: the message, except that [KeyError] shows the [repr] of its
    argument. *)
Definition str_exn (e : exn) : string :=
  match e with
  | ValueError m | IndexError m | FileNotFoundError m | OSError m
  | JSONDecodeError m | OtherError _ m => m
  | KeyError m => "'" +:+ m +:+ "'"
  end.

(** [isinstance(e, json.JSONDecodeError)] *)
Definition is_JSONDecodeError (e : exn) : bool :=
  match e with JSONDecodeError _ => true | _ => false end.

(** ** [datetime.strptime(s, '%B %Y')]

    CPython's [_strptime] turns the format into the regular expression
    [(?P<B>january|...|december)\s+(?P<Y>\d\d\d\d)], compiled with
    [IGNORECASE], matches it at the start of the data, rejects data left
    over after the match, and builds the date, whose year must be at least
    [MINYEAR = 1]. The pattern lists the month names longest first; no
    month name begins another, so at most one alternative matches and the
    order of the table is used here. The messages of the three errors are
    shortened (the originals quote the data). *)

Module Strptime.
Import PyStr.

(** [LocaleTime.f_month] of the C locale (the program never sets one). *)
Definition f_month : list string :=
  [ "january"; "february"; "march"; "april"; "may"; "june"; "july";
    "august"; "september"; "october"; "november"; "december" ].

(** A lower-case literal of the pattern against the data, ignoring case. *)
Fixpoint match_literal (p s : string) : option string :=
  match p, s with
  | EmptyString, _ => Some s
  | String c p', String d s' =>
      if Ascii.eqb c (lower_char d) then match_literal p' s' else None
  | String _ _, EmptyString => None
  end.

(** [\s+\d\d\d\d]: the greedy [\s+] takes every leading blank; giving
    one back cannot help, since a blank is not a digit. *)
Definition match_tail (r : string) : option (Z * string) :=
  match r with
  | String c r' =>
      if isspace c then
        match lstrip r' with
        | String d1 (String d2 (String d3 (String d4 rest))) =>
            if isdigit d1 && isdigit d2 && isdigit d3 && isdigit d4
            then Some (1000 * digit_val d1 + 100 * digit_val d2
                       + 10 * digit_val d3 + digit_val d4, rest)%Z
            else None
        | _ => None
        end
      else None
  | EmptyString => None
  end.

(** The alternatives of the month group, tried in turn; the result is
    the month number, the year and the unmatched rest of the data. *)
Fixpoint match_from (months : list string) (idx : nat) (s : string)
  : option (nat * Z * string) :=
  match months with
  | [] => None
  | m :: months' =>
      match match_literal m s with
      | Some r =>
          match match_tail r with
          | Some (y, rest) => Some (idx, y, rest)
          | None => match_from months' (S idx) s
          end
      | None => match_from months' (S idx) s
      end
  end.

Definition regex_match (s : string) : option (nat * Z * string) :=
  match_from f_month 1 s.

(** The parsed date: year, month, day. *)
Definition strptime (s : string) : result (Z * nat * nat) :=
  match regex_match s with
  | None => Raise (ValueError "time data does not match format '%B %Y'")
  | Some (month, year, rest) =>
      if truthy rest then Raise (ValueError "unconverted data remains")
      else if (year <? 1)%Z then Raise (ValueError "year 0 is out of range")
      else Ok (year, month, 1)
  end.

End Strptime.

(** ** [PortfolioDataValidator] *)

(** [try: datetime.strptime(month_year, '%B %Y'); return True]
    [except ValueError: return False]; every failure of [strptime] on a
    string is a [ValueError]. *)
Definition validate_month_year (month_year : string) : bool :=
  match Strptime.strptime month_year with
  | Ok _ => true
  | Raise _ => false
  end.

(** The six labels: the list bound to the selected columns (line 63) and
    the set [validate_excel_structure] asks for (line 19). *)
Definition required_columns : list string :=
  [ "Name"; "ISIN"; "Industry"; "Quantity"; "MarketValue"; "PercentNAV" ].

(** ** Tables ([pandas.DataFrame])

    A cell of a sheet read by [pd.read_excel] is missing ([NaN]), a number
    or a text. A frame has its column labels and its rows, each as long as
    the labels. *)
Inductive cell : Type :=
| NaN
| Num (x : float)
| Text (s : string).

Record DataFrame : Type := {
  columns : list string;
  rows : list (list cell)
}.

(** [pd.notna(c)] *)
Definition notna (c : cell) : bool :=
  match c with
  | NaN => false
  | Num x => negb (PrimFloat.is_nan x)
  | Text _ => true
  end.

(** [df.iloc[start:, cols]]: the row slice is clipped, a column position
    outside the frame raises. *)
Definition iloc (start : nat) (cols : list nat) (df : DataFrame)
  : result DataFrame :=
  if forallb (fun i => i <? length (columns df)) cols then
    Ok {| columns := map (fun i => nth i (columns df) "") cols;
          rows := map (fun r => map (fun i => nth i r NaN) cols)
                      (skipn start (rows df)) |}
  else Raise (IndexError "positional indexers are out-of-bounds").

(** [df.columns = labels] *)
Definition set_columns (labels : list string) (df : DataFrame)
  : result DataFrame :=
  if length labels =? length (columns df) then
    Ok {| columns := labels; rows := rows df |}
  else Raise (ValueError "Length mismatch").

(** [all(col in df.columns for col in required_columns)] *)
Definition validate_excel_structure (df : DataFrame) : bool :=
  forallb (fun col => existsb (String.eqb col) (columns df)) required_columns.

(** [df.dropna(how='all')] *)
Definition dropna_all (df : DataFrame) : DataFrame :=
  {| columns := columns df; rows := List.filter (existsb notna) (rows df) |}.

(** [row[label]], for a label of the frame. *)
Fixpoint loc (labels : list string) (row : list cell) (label : string) : cell :=
  match labels, row with
  | l :: labels', c :: row' =>
      if String.eqb label l then c else loc labels' row' label
  | _, _ => NaN
  end.

(** The row with the cell under [label] replaced. *)
Fixpoint set_loc (labels : list string) (row : list cell) (label : string)
  (v : cell) : list cell :=
  match labels, row with
  | l :: labels', c :: row' =>
      if String.eqb label l then v :: row'
      else c :: set_loc labels' row' label v
  | _, _ => row
  end.

(** [df[label] = f(df[label])], cell by cell. *)
Definition map_column (f : cell -> cell) (label : string) (df : DataFrame)
  : DataFrame :=
  {| columns := columns df;
     rows := map (fun r => set_loc (columns df) r label
                             (f (loc (columns df) r label))) (rows df) |}.

(** ** Stored records *)

Record fund_details : Type := {
  Name : string;
  ISIN : string;
  Industry : string
}.

Record month_metrics : Type := {
  Quantity : float;
  MarketValueInLakhs : float;
  PctToNAV : float
}.

Record entry : Type := {
  MutualFundDetails : fund_details;
  MonthData : month_metrics
}.

(** The three metrics by their key in ["MonthData"]. *)
Definition metrics : list (string * (month_metrics -> float)) :=
  [ ("Quantity", Quantity);
    ("MarketValueInLakhs", MarketValueInLakhs);
    ("%ToNAV", PctToNAV) ].

(** ** Python dictionaries with string keys, in insertion order *)

(** [d[k] = v] *)
Fixpoint dict_set {V : Type} (d : list (string * V)) (k : string) (v : V)
  : list (string * V) :=
  match d with
  | [] => [(k, v)]
  | (k', v') :: d' =>
      if String.eqb k k' then (k, v) :: d' else (k', v') :: dict_set d' k v
  end.

(** [d.get(k)] *)
Fixpoint dict_get {V : Type} (d : list (string * V)) (k : string) : option V :=
  match d with
  | [] => None
  | (k', v) :: d' => if String.eqb k k' then Some v else dict_get d' k
  end.

(** [{key(x): x for x in l}] *)
Definition dict_by {A : Type} (key : A -> string) (l : list A)
  : list (string * A) :=
  fold_left (fun d x => dict_set d (key x) x) l [].

(** ** Results of a comparison *)

Record change : Type := {
  StartValue : float;
  EndValue : float;
  PercentageChange : option float
}.

Record change_result : Type := {
  FundDetails : fund_details;
  Changes : list (string * change);
  Status : string
}.

(** The entry of ["Changes"] for one metric. *)
Definition change_of (start_value end_value : float) : change :=
  {| StartValue := start_value;
     EndValue := end_value;
     PercentageChange :=
       if negb (start_value =? 0)%float
       then Some ((end_value - start_value) / start_value * 100)%float
       else None |}.

Definition set_status (r : change_result) (s : string) : change_result :=
  {| FundDetails := FundDetails r; Changes := Changes r; Status := s |}.

Definition set_change (r : change_result) (key : string) (c : change)
  : change_result :=
  {| FundDetails := FundDetails r;
     Changes := dict_set (Changes r) key c;
     Status := Status r |}.

(** The body of the loop over [end_data.items()]. *)
Definition analyse_item (start_data : list (string * entry))
  (fund_name : string) (results : list change_result)
  (item : string * entry) : list change_result :=
  let '(isin, end_item) := item in
  if PyStr.contains fund_name (PyStr.lower (Name (MutualFundDetails end_item)))
  then
    let result := {| FundDetails := MutualFundDetails end_item;
                     Changes := [];
                     Status := "Existing" |} in
    match dict_get start_data isin with
    | None => results ++ [set_status result "New Addition"]
    | Some start_item =>
        results ++
        [fold_left
           (fun r '(key, get) =>
              set_change r key (change_of (get (MonthData start_item))
                                          (get (MonthData end_item))))
           metrics result]
    end
  else results.

(** Lines 112 to 144: the lookups and the loop. *)
Definition calculate_changes (fund_name : string) (start_items end_items : list entry)
  : list change_result :=
  let start_data := dict_by (fun item => ISIN (MutualFundDetails item)) start_items in
  let end_data := dict_by (fun item => ISIN (MutualFundDetails item)) end_items in
  let fund_name := PyStr.lower fund_name in
  fold_left (analyse_item start_data fund_name) end_data [].

(** A record as the import stores it: a non-blank identifier and three
    numbers (not NaN). *)
Definition well_formed_entry (e : entry) : bool :=
  PyStr.truthy (PyStr.strip (ISIN (MutualFundDetails e)))
  && negb (PrimFloat.is_nan (Quantity (MonthData e)))
  && negb (PrimFloat.is_nan (MarketValueInLakhs (MonthData e)))
  && negb (PrimFloat.is_nan (PctToNAV (MonthData e))).

Definition well_formed_snapshot (d : gmap string (list entry)) : Prop :=
  map_Forall (fun _ items => forallb well_formed_entry items = true) d.

(** ** Period labels in words *)

Definition month_names : list string :=
  [ "January"; "February"; "March"; "April"; "May"; "June"; "July";
    "August"; "September"; "October"; "November"; "December" ].

Definition four_digits (y : string) : bool :=
  (String.length y =? 4) && PyStr.all PyStr.isdigit y.

(** The label read to the letter: a month name as written in
    [month_names], one space, four digits. *)
Definition exact_period_label (s : string) : bool :=
  existsb
    (fun m =>
       match PyStr.strip_prefix m s with
       | Some (String " " y) => four_digits y
       | _ => false
       end)
    month_names.

(** What [strptime] accepts: a month name in any letter case, one or more
    blanks, four digits other than 0000. *)
Definition accepted_label (s : string) : Prop :=
  exists m ws y : string,
    In (PyStr.lower m) Strptime.f_month
    /\ ws <> "" /\ PyStr.all PyStr.isspace ws = true
    /\ four_digits y = true /\ y <> "0000"
    /\ s = m +:+ ws +:+ y.

(** The year four digits denote. *)
Definition year_of (d1 d2 d3 d4 : ascii) : Z :=
  (1000 * PyStr.digit_val d1 + 100 * PyStr.digit_val d2
   + 10 * PyStr.digit_val d3 + PyStr.digit_val d4)%Z.

(** ** Words of the comparison *)

(** A record of a month's list survives the lookup when no later record of
    the list carries its identifier (the last write wins). *)
Definition last_write_wins (items : list entry) (h : entry) : Prop :=
  exists before after,
    items = before ++ h :: after
    /\ forall x, In x after ->
                 ISIN (MutualFundDetails x) <> ISIN (MutualFundDetails h).

Definition same_ignoring_case (a b : string) : Prop :=
  PyStr.lower a = PyStr.lower b.

(** The name holds the query as a contiguous run, letter case apart. *)
Definition contains_ignoring_case (query name : string) : Prop :=
  exists before middle after,
    name = before +:+ middle +:+ after /\ same_ignoring_case middle query.

(** The percent change of a metric, [None] when there is no baseline. *)
Definition percent_change (start_value end_value : float) : option float :=
  if (start_value =? 0)%float then None
  else Some ((end_value - start_value) / start_value * 100)%float.

(** The three change records of a holding found in both months. *)
Definition expected_changes (start_item end_item : entry)
  : list (string * change) :=
  map (fun '(key, get) =>
         (key, {| StartValue := get (MonthData start_item);
                  EndValue := get (MonthData end_item);
                  PercentageChange :=
                    percent_change (get (MonthData start_item))
                                   (get (MonthData end_item)) |}))
      metrics.

(** The last element of a list with a given key. *)
Fixpoint find_last {A : Type} (key : A -> string) (k : string) (l : list A)
  : option A :=
  match l with
  | [] => None
  | x :: l' =>
      match find_last key k l' with
      | Some v => Some v
      | None => if String.eqb (key x) k then Some x else None
      end
  end.

(** What the loop reports for a holding of the end month whose name passes
    the test. *)
Definition report (start_items : list entry) (end_item : entry) : change_result :=
  match find_last (fun item => ISIN (MutualFundDetails item))
                  (ISIN (MutualFundDetails end_item)) start_items with
  | None =>
      {| FundDetails := MutualFundDetails end_item;
         Changes := [];
         Status := "New Addition" |}
  | Some start_item =>
      {| FundDetails := MutualFundDetails end_item;
         Changes := expected_changes start_item end_item;
         Status := "Existing" |}
  end.

(** ** Messages *)

Definition invalid_label_message : string :=
  "Invalid month-year format. Use 'Month YYYY' format (e.g., 'January 2024')".

Definition invalid_month_message : string :=
  "Invalid month format. Use 'Month YYYY' format".

Definition months_not_found_message : string :=
  "One or both months not found in the data".

(** ** The environment of a run *)

(** What the file system answers: whether a path exists, what
    [pd.read_excel] makes of it, whether the storage file can be opened
    for reading, and whether writing it succeeds (the [open], the
    [json.dump] and the closing of the file). When writing fails,
    [fails_after_open] tells where: at the [open], which leaves the file
    as it was, or after it, when [open(..., 'w')] has emptied the file and
    only a part of the text may have reached it. *)
Record World : Type := {
  path_exists : string -> bool;
  read_excel : string -> result DataFrame;
  can_read : bool;
  can_write : bool;
  fails_after_open : bool
}.

Definition nl : string := String (ascii_of_nat 10) EmptyString.

(** The manager's dictionary, the text of the storage file ([None] while
    the file does not exist) and the lines printed so far. The dictionary
    is a finite map: it has the keys and values of the Python [dict] and
    compares like it ([==] on dictionaries ignores the order of the keys),
    but the order in which the months were first imported, which
    [json.dump] follows when it writes them, is not kept. Nothing below
    depends on the order of the months in the file. *)
Record State (text : Type) : Type := {
  data : gmap string (list entry);
  storage : option text;
  stdout : list string
}.
Arguments data {text} _.
Arguments storage {text} _.
Arguments stdout {text} _.

(** ** Sample data

    A sheet in the layout of the template, a dictionary with two months,
    and stand-ins for the library functions, used by the examples. *)

Definition sample_parse_numeric (s : string) : option float :=
  if String.eqb s "7" then Some 7%float else None.

Definition sample_str_of_float (x : float) : string := "0.0".

Definition sample_format (x : float) : string := "0.00".

Definition sample_dumps (d : gmap string (list entry))
  : gmap string (list entry) := d.

Definition sample_loads (t : gmap string (list entry))
  : option (gmap string (list entry)) := Some t.

Definition sample_torn (t : gmap string (list entry))
  : gmap string (list entry) := ∅.

Definition sheet_row (name isin industry quantity value pct : cell)
  : list cell :=
  [ NaN; NaN; name; isin; industry; quantity; value; pct ].

Definition heading_rows : list (list cell) := repeat (repeat NaN 8) 6.

Definition sample_sheet : DataFrame :=
  {| columns := [ "c0"; "c1"; "c2"; "c3"; "c4"; "c5"; "c6"; "c7" ];
     rows := heading_rows ++
       [ sheet_row (Text "Alpha Growth Fund ") (Text " INF001 ") (Text "Equity")
                   (Num 120%float) (Num 66%float) (Text "n/a");
         repeat NaN 8;
         sheet_row (Text "No Identifier Fund") (Text "   ") (Text "Debt")
                   (Num 1%float) (Num 1%float) (Num 1%float);
         sheet_row (Text "Beta Bond Fund") (Text "INF002") (Text "Debt")
                   (Text "7") NaN (Num 0.5%float) ] |}.

(** A sheet with seven columns: the column of PercentNAV is missing. *)
Definition short_sheet : DataFrame :=
  {| columns := [ "c0"; "c1"; "c2"; "c3"; "c4"; "c5"; "c6" ];
     rows := repeat (repeat NaN 7) 8 |}.

Definition sample_entry (name isin industry : string) (quantity value pct : float)
  : entry :=
  {| MutualFundDetails := {| Name := name; ISIN := isin; Industry := industry |};
     MonthData := {| Quantity := quantity; MarketValueInLakhs := value;
                     PctToNAV := pct |} |}.

Definition alpha_may : entry :=
  sample_entry "Alpha Growth Fund" "INF001" "Equity" 100 50 1.
Definition alpha_june : entry :=
  sample_entry "Alpha Growth Fund" "INF001" "Equity" 120 66 1.5.
Definition beta_june : entry :=
  sample_entry "Beta Bond Fund" "INF002" "Debt" 7 0 0.5.

Definition sample_data : gmap string (list entry) :=
  <["May 2024" := [alpha_may]]>
    (<["June 2024" := [alpha_june; beta_june]]> ∅).

Definition sample_state : State (gmap string (list entry)) :=
  {| data := sample_data; storage := None; stdout := [] |}.

(** A file system where the sheet is found and the storage file is
    writable, and one where the storage file cannot be written. *)
Definition sample_world : World :=
  {| path_exists := fun _ => true;
     read_excel := fun _ => Ok sample_sheet;
     can_read := true;
     can_write := true;
     fails_after_open := false |}.

Definition read_only_world : World :=
  {| path_exists := fun _ => true;
     read_excel := fun _ => Ok sample_sheet;
     can_read := true;
     can_write := false;
     fails_after_open := false |}.

(** ** Python floats as text

    [float.__repr__] writes the shortest decimal that [float] reads back
    as the same number and, among the decimals of that length, the one
    nearest to it (halfway cases go to the even digit); [float] of a
    decimal is the nearest binary64, halfway cases to the even mantissa.
    Both are CPython's [dtoa.c], modelled here by what they compute: the
    rounding is the one of the Standard Library's [SpecFloat]. *)

Module PyFloat.

Definition prec : Z := 53.
Definition emax : Z := 1024.

(** The binary64 nearest to [digits * 10 ^ exp10], with the given sign:
    beyond the largest float it is an infinity, below the smallest a zero. *)
Definition of_decimal (negative : bool) (digits exp10 : Z) : float :=
  SF2Prim
    (if (digits <=? 0)%Z then S754_zero negative
     else if (0 <=? exp10)%Z then
       binary_normalize prec emax (cond_Zopp negative (digits * 10 ^ exp10)) 0
                        negative
     else
       let '(m, e, l) :=
         SFdiv_core_binary prec emax digits 0 (10 ^ (- exp10)) 0 in
       binary_round_aux prec emax negative m e l).

(** The decimal digits of a natural number. *)
Definition decimal (n : Z) : string :=
  NilZero.string_of_uint (N.to_uint (Z.to_N n)).

(** [m * 2 ^ e] as a fraction of integers. *)
Definition fraction (m : positive) (e : Z) : Z * Z :=
  if (0 <=? e)%Z then (Zpos m * 2 ^ e, 1)%Z else (Zpos m, 2 ^ (- e))%Z.

(** The [k] with [10 ^ k <= num / den < 10 ^ (k + 1)]. *)
Definition decimal_exponent (num den : Z) : Z :=
  if (den <=? num)%Z
  then Z.of_nat (String.length (decimal (num / den))) - 1
  else - Z.of_nat (String.length (decimal ((den - 1) / num))).

(** [num / den] cut after [n] significant digits: the integer below it in
    units of [10 ^ E], and whether the integer above is nearer (at equal
    distance: whether the one below is odd). *)
Definition cut (num den k n : Z) : Z * bool * Z :=
  let E := (k + 1 - n)%Z in
  let N' := (if 0 <=? E then num else num * 10 ^ (- E))%Z in
  let D' := (if 0 <=? E then den * 10 ^ E else den)%Z in
  let lo := (N' / D')%Z in
  let up := match (2 * (N' mod D') ?= D')%Z with
            | Lt => false
            | Gt => true
            | Eq => Z.odd lo
            end in
  (lo, up, E).

(** The decimal of [n] significant digits that reads back as [x], if there
    is one: of the two decimals around [x] the one that does, the nearer
    one when both do. *)
Definition candidate (x : float) (num den k n : Z) : option (Z * Z) :=
  let '(lo, up, E) := cut num den k n in
  let lo_ok := (of_decimal false lo E =? x)%float in
  let hi_ok := (of_decimal false (lo + 1) E =? x)%float in
  if lo_ok && hi_ok then Some (if up then lo + 1 else lo, E)%Z
  else if lo_ok then Some (lo, E)
  else if hi_ok then Some ((lo + 1)%Z, E)
  else None.

(** The first length that has a candidate; seventeen digits always have
    one, and the nearest decimal of seventeen digits closes the search. *)
Fixpoint shortest (x : float) (num den k : Z) (lengths : list Z) : Z * Z :=
  match lengths with
  | [] => let '(lo, up, E) := cut num den k 17 in
          (if up then lo + 1 else lo, E)%Z
  | n :: lengths' =>
      match candidate x num den k n with
      | Some c => c
      | None => shortest x num den k lengths'
      end
  end.

(** Zeros at the end of the digits move into the exponent. *)
Fixpoint strip_zeros (fuel : nat) (D E : Z) : Z * Z :=
  match fuel with
  | O => (D, E)
  | S fuel' =>
      if (D mod 10 =? 0)%Z then strip_zeros fuel' (D / 10)%Z (E + 1)%Z
      else (D, E)
  end.

Definition zeros (n : Z) : string :=
  string_of_list_ascii (repeat "0"%char (Z.to_nat n)).

(** The exponent of the scientific notation: a sign and at least two
    digits. *)
Definition exponent (e : Z) : string :=
  (if (e <? 0)%Z then "-" else "+")
  +:+ (if (Z.abs e <? 10)%Z then "0" else "") +:+ decimal (Z.abs e).

(** The digits [ds], read as [0.ds * 10 ^ decpt], in the notation of
    [repr]: scientific when [decpt <= -4] or [decpt > 16], with a point
    and at least one digit after it otherwise. *)
Definition format_repr (ds : string) (decpt : Z) : string :=
  let n := Z.of_nat (String.length ds) in
  if ((decpt <=? -4) || (16 <? decpt))%Z then
    String.substring 0 1 ds
    +:+ (if (1 <? n)%Z
         then "." +:+ String.substring 1 (String.length ds - 1) ds
         else "")
    +:+ "e" +:+ exponent (decpt - 1)
  else if (decpt <=? 0)%Z then "0." +:+ zeros (- decpt) +:+ ds
  else if (decpt <? n)%Z then
    String.substring 0 (Z.to_nat decpt) ds +:+ "."
    +:+ String.substring (Z.to_nat decpt) (String.length ds - Z.to_nat decpt) ds
  else ds +:+ zeros (decpt - n) +:+ ".0".

(** [float.__repr__(x)] *)
Definition repr (x : float) : string :=
  match Prim2SF x with
  | S754_nan => "nan"
  | S754_infinity s => if s then "-inf" else "inf"
  | S754_zero s => if s then "-0.0" else "0.0"
  | S754_finite s m e =>
      let '(num, den) := fraction m e in
      let k := decimal_exponent num den in
      let '(D, E) :=
        shortest (abs x) num den k
          [1; 2; 3; 4; 5; 6; 7; 8; 9; 10; 11; 12; 13; 14; 15; 16; 17]%Z in
      let '(D, E) := strip_zeros 17 D E in
      let ds := decimal D in
      (if s then "-" else "")
      +:+ format_repr ds (Z.of_nat (String.length ds) + E)
  end.

End PyFloat.

(** ** The [json] module

    [json.dump(obj, file, indent=4, ensure_ascii=False)] and
    [json.load(file)], as CPython's [json.encoder], [json.decoder] and
    [json.scanner] compute them. A file opened in text mode holds a [str].
    Not modelled: the limit on the depth of nesting (the recursion limit)
    and on the number of digits of an integer. *)

Module Json.

(** A JSON text as it is read: the members of an object in the order of
    the text, a number as an integer or as a float by its spelling. *)
#[local] Unset Elimination Schemes.
Inductive json : Type :=
| JNull
| JBool (b : bool)
| JInt (n : Z)
| JFloat (x : float)
| JString (s : string)
| JArray (items : list json)
| JObject (members : list (string * json)).
#[local] Set Elimination Schemes.

Definition quote : ascii := ascii_of_nat 34.
Definition backslash : ascii := ascii_of_nat 92.
Definition newline : ascii := ascii_of_nat 10.

(** *** Encoding *)

Definition hex_digit (n : nat) : ascii :=
  nth n (list_ascii_of_string "0123456789abcdef") "0"%char.

(** One character of a string ([ESCAPE_DCT]): the quote, the backslash and
    the control characters are escaped, everything else is written as it
    is ([ensure_ascii=False]). *)
Definition escape_char (c : ascii) : string :=
  let n := nat_of_ascii c in
  if n =? 34 then String backslash (String quote "")
  else if n =? 92 then String backslash (String backslash "")
  else if n =? 10 then String backslash "n"
  else if n =? 13 then String backslash "r"
  else if n =? 9 then String backslash "t"
  else if n =? 12 then String backslash "f"
  else if n =? 8 then String backslash "b"
  else if n <? 32 then
    String backslash
      ("u00" +:+ String (hex_digit (n / 16)) (String (hex_digit (n mod 16)) ""))
  else String c "".

Fixpoint escape (s : string) : string :=
  match s with
  | EmptyString => EmptyString
  | String c s' => escape_char c +:+ escape s'
  end.

(** [encode_basestring] *)
Definition encode_string (s : string) : string :=
  String quote (escape s +:+ String quote "").

(** [floatstr] *)
Definition encode_float (x : float) : string :=
  match Prim2SF x with
  | S754_nan => "NaN"
  | S754_infinity s => if s then "-Infinity" else "Infinity"
  | _ => PyFloat.repr x
  end.

(** [int.__repr__] *)
Definition encode_int (n : Z) : string :=
  (if (n <? 0)%Z then "-" else "") +:+ PyFloat.decimal (Z.abs n).

(** A line break and the indentation of a nesting level. *)
Definition newline_indent (level : nat) : string :=
  String newline (string_of_list_ascii (repeat " "%char (4 * level))).

Fixpoint join (separator : string) (chunks : list string) : string :=
  match chunks with
  | [] => ""
  | [chunk] => chunk
  | chunk :: chunks' => chunk +:+ separator +:+ join separator chunks'
  end.

(** [_iterencode] with [indent=4]: the item separator is [","] followed by
    the line break, the key separator [": "]. *)
Fixpoint encode (level : nat) (j : json) : string :=
  match j with
  | JNull => "null"
  | JBool b => if b then "true" else "false"
  | JInt n => encode_int n
  | JFloat x => encode_float x
  | JString s => encode_string s
  | JArray [] => "[]"
  | JArray items =>
      "[" +:+ newline_indent (S level)
      +:+ join ("," +:+ newline_indent (S level))
               (map (encode (S level)) items)
      +:+ newline_indent level +:+ "]"
  | JObject [] => "{}"
  | JObject members =>
      "{" +:+ newline_indent (S level)
      +:+ join ("," +:+ newline_indent (S level))
               (map (fun kv => encode_string (fst kv) +:+ ": "
                               +:+ encode (S level) (snd kv)) members)
      +:+ newline_indent level +:+ "}"
  end.

(** *** Decoding *)

(** [WHITESPACE]: blank, tab, line feed, carriage return. *)
Definition is_ws (c : ascii) : bool :=
  let n := nat_of_ascii c in
  (n =? 32) || (n =? 9) || (n =? 10) || (n =? 13).

Fixpoint skip_ws (s : string) : string :=
  match s with
  | EmptyString => EmptyString
  | String c s' => if is_ws c then skip_ws s' else s
  end.

Definition is_digit (c : ascii) : bool :=
  let n := nat_of_ascii c in (48 <=? n) && (n <=? 57).

(** The digits at the start of a text, and what follows them. *)
Fixpoint span_digits (s : string) : string * string :=
  match s with
  | EmptyString => (EmptyString, EmptyString)
  | String c s' =>
      if is_digit c
      then let '(ds, rest) := span_digits s' in (String c ds, rest)
      else (EmptyString, s)
  end.

(** The number written by a run of digits. *)
Definition digits_value (ds : string) : Z :=
  fold_left (fun n c => (10 * n + (Z.of_nat (nat_of_ascii c) - 48))%Z)
            (list_ascii_of_string ds) 0%Z.

Definition hex_value (c : ascii) : option nat :=
  let n := nat_of_ascii c in
  if (48 <=? n) && (n <=? 57) then Some (n - 48)
  else if (97 <=? n) && (n <=? 102) then Some (n - 87)
  else if (65 <=? n) && (n <=? 70) then Some (n - 55)
  else None.

(** [\uXXXX]: the code point of four hexadecimal digits; a code point
    from 256 on has no character in the alphabet of the model. *)
Definition decode_uXXXX (h1 h2 h3 h4 : ascii) : option ascii :=
  match hex_value h1, hex_value h2, hex_value h3, hex_value h4 with
  | Some a, Some b, Some c, Some d =>
      let n := ((a * 16 + b) * 16 + c) * 16 + d in
      if n <? 256 then Some (ascii_of_nat n) else None
  | _, _, _, _ => None
  end.

(** [BACKSLASH]: the character of a one-letter escape. *)
Definition unescape (c : ascii) : option ascii :=
  let n := nat_of_ascii c in
  if n =? 34 then Some quote
  else if n =? 92 then Some backslash
  else if n =? 47 then Some "/"%char
  else if n =? 98 then Some (ascii_of_nat 8)
  else if n =? 102 then Some (ascii_of_nat 12)
  else if n =? 110 then Some (ascii_of_nat 10)
  else if n =? 114 then Some (ascii_of_nat 13)
  else if n =? 116 then Some (ascii_of_nat 9)
  else None.

(** [scanstring] from behind the opening quote, in strict mode: the
    string and what follows its closing quote. *)
Fixpoint scan_string (s : string) : option (string * string) :=
  match s with
  | EmptyString => None
  | String c rest =>
      if Ascii.eqb c quote then Some (EmptyString, rest)
      else if Ascii.eqb c backslash then
        match rest with
        | EmptyString => None
        | String e rest' =>
            if Ascii.eqb e "u"%char then
              match rest' with
              | String h1 (String h2 (String h3 (String h4 rest''))) =>
                  match decode_uXXXX h1 h2 h3 h4, scan_string rest'' with
                  | Some ch, Some (k, r) => Some (String ch k, r)
                  | _, _ => None
                  end
              | _ => None
              end
            else
              match unescape e, scan_string rest' with
              | Some ch, Some (k, r) => Some (String ch k, r)
              | _, _ => None
              end
        end
      else if nat_of_ascii c <? 32 then None
      else
        match scan_string rest with
        | Some (k, r) => Some (String c k, r)
        | None => None
        end
  end.

(** The integer part of a number: [0], or a digit from 1 to 9 followed by
    digits. *)
Definition scan_integer (s : string) : option (string * string) :=
  match s with
  | String c s' =>
      if Ascii.eqb c "0"%char then Some ("0", s')
      else if is_digit c then Some (span_digits s)
      else None
  | EmptyString => None
  end.

(** The fraction: a point followed by at least one digit. *)
Definition scan_fraction (s : string) : option (string * string) :=
  match s with
  | String "."%char s' =>
      match span_digits s' with
      | (EmptyString, _) => None
      | (ds, rest) => Some (ds, rest)
      end
  | _ => None
  end.

(** The digits of an exponent and their value. *)
Definition exponent_value (negative : bool) (s : string)
  : option (Z * string) :=
  match span_digits s with
  | (EmptyString, _) => None
  | (ds, rest) =>
      Some (if negative then (- digits_value ds)%Z else digits_value ds, rest)
  end.

(** The exponent: [e] or [E], a sign or none, at least one digit. *)
Definition scan_exponent (s : string) : option (Z * string) :=
  match s with
  | String c s' =>
      if Ascii.eqb c "e"%char || Ascii.eqb c "E"%char then
        match s' with
        | String "-"%char t => exponent_value true t
        | String "+"%char t => exponent_value false t
        | _ => exponent_value false s'
        end
      else None
  | EmptyString => None
  end.

(** A part of the number that may be missing. *)
Definition optional {A : Type} (scan : string -> option (A * string))
  (s : string) : option A * string :=
  match scan s with
  | Some (a, rest) => (Some a, rest)
  | None => (None, s)
  end.

(** The value of the matched text: an integer when it has neither
    fraction nor exponent ([int]), a float otherwise ([float]). *)
Definition number_of (negative : bool) (int_digits : string)
  (frac_digits : option string) (exp : option Z) : json :=
  match frac_digits, exp with
  | None, None =>
      JInt (if negative then - digits_value int_digits
            else digits_value int_digits)%Z
  | _, _ =>
      let ds := default "" frac_digits in
      JFloat (PyFloat.of_decimal negative
                (digits_value (int_digits +:+ ds))
                (default 0%Z exp - Z.of_nat (String.length ds)))
  end.

Definition scan_unsigned (negative : bool) (s : string)
  : option (json * string) :=
  match scan_integer s with
  | None => None
  | Some (int_digits, s2) =>
      let '(frac_digits, s3) := optional scan_fraction s2 in
      let '(exp, s4) := optional scan_exponent s3 in
      Some (number_of negative int_digits frac_digits exp, s4)
  end.

(** [_match_number]: a sign or none, the integer part, and the fraction
    and the exponent if they are there. *)
Definition scan_number (s : string) : option (json * string) :=
  match s with
  | String "-"%char t => scan_unsigned true t
  | _ => scan_unsigned false s
  end.

(** The constants the scanner knows besides the numbers. *)
Definition constants : list (string * json) :=
  [ ("null", JNull); ("true", JBool true); ("false", JBool false);
    ("NaN", JFloat nan); ("Infinity", JFloat infinity);
    ("-Infinity", JFloat neg_infinity) ].

Fixpoint scan_constant (table : list (string * json)) (s : string)
  : option (json * string) :=
  match table with
  | [] => None
  | (word, value) :: table' =>
      match PyStr.strip_prefix word s with
      | Some rest => Some (value, rest)
      | None => scan_constant table' s
      end
  end.

(** [scan_once], [JSONArray] and [JSONObject]. Each call uses one unit of
    [fuel]; a text never needs more than its length. *)
Fixpoint scan_once (fuel : nat) (s : string) : option (json * string) :=
  match fuel with
  | O => None
  | S fuel' =>
      match s with
      | String c rest =>
          if Ascii.eqb c quote then
            match scan_string rest with
            | Some (k, r) => Some (JString k, r)
            | None => None
            end
          else if Ascii.eqb c "{"%char then
            match skip_ws rest with
            | String "}"%char r => Some (JObject [], r)
            | rest' =>
                match scan_members fuel' rest' with
                | Some (members, r) => Some (JObject members, r)
                | None => None
                end
            end
          else if Ascii.eqb c "["%char then
            match skip_ws rest with
            | String "]"%char r => Some (JArray [], r)
            | rest' =>
                match scan_items fuel' rest' with
                | Some (items, r) => Some (JArray items, r)
                | None => None
                end
            end
          else
            match scan_constant constants s with
            | Some found => Some found
            | None => scan_number s
            end
      | EmptyString => None
      end
  end
with scan_items (fuel : nat) (s : string) : option (list json * string) :=
  match fuel with
  | O => None
  | S fuel' =>
      match scan_once fuel' s with
      | None => None
      | Some (item, r) =>
          match skip_ws r with
          | String "]"%char r' => Some ([item], r')
          | String ","%char r' =>
              match scan_items fuel' (skip_ws r') with
              | Some (items, r'') => Some (item :: items, r'')
              | None => None
              end
          | _ => None
          end
      end
  end
with scan_members (fuel : nat) (s : string)
  : option (list (string * json) * string) :=
  match fuel with
  | O => None
  | S fuel' =>
      match s with
      | String c s' =>
          if Ascii.eqb c quote then
            match scan_string s' with
            | None => None
            | Some (key, r) =>
                match skip_ws r with
                | String ":"%char r1 =>
                    match scan_once fuel' (skip_ws r1) with
                    | None => None
                    | Some (value, r2) =>
                        match skip_ws r2 with
                        | String "}"%char r3 => Some ([(key, value)], r3)
                        | String ","%char r3 =>
                            match scan_members fuel' (skip_ws r3) with
                            | Some (members, r4) =>
                                Some ((key, value) :: members, r4)
                            | None => None
                            end
                        | _ => None
                        end
                    end
                | _ => None
                end
            end
          else None
      | EmptyString => None
      end
  end.

(** [JSONDecoder.decode]: one value, blanks around it, nothing else. *)
Definition decode (s : string) : option json :=
  match scan_once (S (String.length s)) (skip_ws s) with
  | Some (j, rest) =>
      match skip_ws rest with
      | EmptyString => Some j
      | String _ _ => None
      end
  | None => None
  end.

(** *** The manager's dictionary as JSON *)

(** The value the encoder sees in a record: two nested dictionaries, keys
    in the order the import builds them. A missing number, which the import
    stores as the integer [0] and [json.dump] writes as [0], is the float
    zero here and is written [0.0]; both texts are read back as zero. *)
Definition json_of_entry (e : entry) : json :=
  JObject
    [ ("MutualFundDetails",
       JObject [ ("Name", JString (Name (MutualFundDetails e)));
                 ("ISIN", JString (ISIN (MutualFundDetails e)));
                 ("Industry", JString (Industry (MutualFundDetails e))) ]);
      ("MonthData",
       JObject [ ("Quantity", JFloat (Quantity (MonthData e)));
                 ("MarketValueInLakhs",
                  JFloat (MarketValueInLakhs (MonthData e)));
                 ("%ToNAV", JFloat (PctToNAV (MonthData e))) ]) ].

(** The months are written in the order of [map_to_list]: the dictionary
    of the model keeps no insertion order, so the order of the months in
    the text is not the one of the Python run. *)
Definition json_of_data (d : gmap string (list entry)) : json :=
  JObject (map (fun kv => (fst kv, JArray (map json_of_entry (snd kv))))
               (map_to_list d)).

(** The text [json.dump(self.data, file, indent=4, ensure_ascii=False)]
    writes. *)
Definition dumps (d : gmap string (list entry)) : string :=
  encode 0 (json_of_data d).

(** The Python dictionary of an object: a key that occurs again takes the
    later value. *)
Definition object_dict (members : list (string * json))
  : list (string * json) :=
  fold_left (fun d kv => dict_set d (fst kv) (snd kv)) members [].

Definition string_of_json (j : json) : option string :=
  match j with JString s => Some s | _ => None end.

(** A number as a float; an integer is the float of its value. *)
Definition float_of_json (j : json) : option float :=
  match j with
  | JFloat x => Some x
  | JInt n => Some (PyFloat.of_decimal (n <? 0)%Z (Z.abs n) 0)
  | _ => None
  end.

Definition field {A : Type} (read : json -> option A) (key : string)
  (j : json) : option A :=
  match j with
  | JObject members =>
      match dict_get (object_dict members) key with
      | Some v => read v
      | None => None
      end
  | _ => None
  end.

Definition entry_of_json (j : json) : option entry :=
  match field Some "MutualFundDetails" j, field Some "MonthData" j with
  | Some details, Some numbers =>
      match field string_of_json "Name" details,
            field string_of_json "ISIN" details,
            field string_of_json "Industry" details,
            field float_of_json "Quantity" numbers,
            field float_of_json "MarketValueInLakhs" numbers,
            field float_of_json "%ToNAV" numbers with
      | Some name, Some isin, Some industry, Some quantity, Some value, Some pct =>
          Some {| MutualFundDetails :=
                    {| Name := name; ISIN := isin; Industry := industry |};
                  MonthData :=
                    {| Quantity := quantity; MarketValueInLakhs := value;
                       PctToNAV := pct |} |}
      | _, _, _, _, _, _ => None
      end
  | _, _ => None
  end.

Fixpoint entries_of_json (items : list json) : option (list entry) :=
  match items with
  | [] => Some []
  | j :: items' =>
      match entry_of_json j, entries_of_json items' with
      | Some e, Some es => Some (e :: es)
      | _, _ => None
      end
  end.

Fixpoint months_of_json (members : list (string * json))
  : option (gmap string (list entry)) :=
  match members with
  | [] => Some ∅
  | (month, JArray items) :: members' =>
      match entries_of_json items, months_of_json members' with
      | Some es, Some d => Some (<[month := es]> d)
      | _, _ => None
      end
  | _ :: _ => None
  end.

(** The decoded value as the manager's dictionary. [json.load] returns
    whatever the text holds; a value that is no dictionary of record lists
    is outside the typed dictionary of the model and counts as unreadable
    here. *)
Definition data_of_json (j : json) : option (gmap string (list entry)) :=
  match j with
  | JObject members => months_of_json (object_dict members)
  | _ => None
  end.

(** What [json.load(file)] returns for the text of the file. *)
Definition loads (t : string) : option (gmap string (list entry)) :=
  match decode t with
  | Some j => data_of_json j
  | None => None
  end.

(** A text written with apostrophes where the JSON text has quotes, for
    the examples. *)
Fixpoint with_quotes (s : string) : string :=
  match s with
  | EmptyString => EmptyString
  | String c s' =>
      String (if Ascii.eqb c "'"%char then quote else c) (with_quotes s')
  end.

(** *** Words used by the round trip *)

(** A number that the scanner reads back from its text. Every binary64
    number has this property (it is what [repr] is made for); the model
    computes it number by number. *)
Definition reads_back (x : float) : Prop :=
  scan_once 1 (encode_float x) = Some (JFloat x, EmptyString).

(** A record, and a dictionary, whose numbers read back. *)
Definition storable_entry (e : entry) : Prop :=
  reads_back (Quantity (MonthData e))
  /\ reads_back (MarketValueInLakhs (MonthData e))
  /\ reads_back (PctToNAV (MonthData e)).

Definition storable (d : gmap string (list entry)) : Prop :=
  map_Forall (fun _ items => List.Forall storable_entry items) d.

(** A value all of whose numbers read back. *)
Fixpoint readable (j : json) : Prop :=
  match j with
  | JInt n => scan_once 1 (encode_int n) = Some (JInt n, EmptyString)
  | JFloat x => reads_back x
  | JArray items => fold_right (fun x rest => readable x /\ rest) True items
  | JObject members =>
      fold_right (fun kv rest => readable (snd kv) /\ rest) True members
  | _ => True
  end.

Definition is_number (v : json) : Prop :=
  match v with JInt _ | JFloat _ => True | _ => False end.

(** The fuel the scanner uses on the text of a value. *)
Fixpoint need (j : json) : nat :=
  match j with
  | JArray items => S (fold_right (fun x rest => S (need x + rest)) 0 items)
  | JObject members =>
      S (fold_right (fun kv rest => S (need (snd kv) + rest)) 0 members)
  | _ => 1
  end.

(** What follows a value inside a container: a separator, a line break,
    or nothing. *)
Definition delimited (rest : string) : Prop :=
  match rest with
  | EmptyString => True
  | String c _ => c = ","%char \/ c = newline
  end.

(** A value that is read back from its text at every nesting level,
    whatever follows. *)
Definition reads (x : json) : Prop :=
  readable x ->
  forall level fuel rest,
    need x <= fuel -> delimited rest ->
    scan_once fuel (encode level x +:+ rest) = Some (x, rest).

(** Induction on a value, through the lists of its items and members. *)
Section json_induction.
Variable P : json -> Prop.
Hypothesis HNull : P JNull.
Hypothesis HBool : forall b, P (JBool b).
Hypothesis HInt : forall n, P (JInt n).
Hypothesis HFloat : forall x, P (JFloat x).
Hypothesis HString : forall s, P (JString s).
Hypothesis HArray : forall items, List.Forall P items -> P (JArray items).
Hypothesis HObject :
  forall members, List.Forall (fun kv => P (snd kv)) members -> P (JObject members).

Fixpoint json_induction (j : json) : P j :=
  match j with
  | JNull => HNull
  | JBool b => HBool b
  | JInt n => HInt n
  | JFloat x => HFloat x
  | JString s => HString s
  | JArray items =>
      HArray items
        ((fix all (l : list json) : List.Forall P l :=
            match l with
            | [] => @List.Forall_nil _ P
            | x :: l' => @List.Forall_cons _ P x l' (json_induction x) (all l')
            end) items)
  | JObject members =>
      HObject members
        ((fix all (l : list (string * json))
            : List.Forall (fun kv => P (snd kv)) l :=
            match l with
            | [] => @List.Forall_nil _ _
            | kv :: l' =>
                @List.Forall_cons _ (fun kv => P (snd kv)) kv l'
                                  (json_induction (snd kv)) (all l')
            end) members)
  end.
End json_induction.

End Json.

(** The sample dictionary in a manager whose storage file is a JSON text,
    a manager that starts on a given file, and a failing write that leaves
    the first half of the text. *)
Definition sample_manager : State string :=
  {| data := sample_data; storage := None; stdout := [] |}.

Definition fresh_manager (file : option string) : State string :=
  {| data := ∅; storage := file; stdout := [] |}.

Definition first_half (t : string) : string :=
  String.substring 0 (String.length t / 2) t.

Section Manager.

(** Library functions the model leaves open: the number [pd.to_numeric]
    reads in a text ([None] when it reads none), [str] and the two
    [format] specifications on floats, and the JSON text [json.dump] writes
    for the dictionary with what [json.load] reads back from a text
    ([None] when it cannot be decoded); [Json.dumps] and [Json.loads] are
    the ones of CPython. [torn t] is what is left in the file when the
    write of [t] fails after the [open]. *)
Variable parse_numeric : string -> option float.
Variable str_of_float : float -> string.
Variable format_2f : float -> string.
Variable format_signed_2f : float -> string.
Variable text : Type.
Variable dumps : gmap string (list entry) -> text.
Variable torn : text -> text.
Variable loads : text -> option (gmap string (list entry)).

Variable W : World.
Variable storage_file : string.

(** *** Extraction (lines 62 to 91 of [process_excel_data]) *)

(** [pd.to_numeric(c, errors='coerce')] on one cell. *)
Definition to_numeric (c : cell) : cell :=
  match c with
  | NaN => NaN
  | Num x => Num x
  | Text s =>
      match parse_numeric s with
      | Some x => Num x
      | None => NaN
      end
  end.

(** [str(c)] *)
Definition str_cell (c : cell) : string :=
  match c with
  | NaN => "nan"
  | Num x => str_of_float x
  | Text s => s
  end.

(** [float(c)] for a cell of a numeric column. *)
Definition float_cell (c : cell) : float :=
  match c with
  | Num x => x
  | _ => PrimFloat.nan
  end.

(** [float(c) if pd.notna(c) else 0] *)
Definition number_or_zero (c : cell) : float :=
  if notna c then float_cell c else 0%float.

(** The condition on a row: [pd.notna(row['ISIN']) and str(row['ISIN']).strip()]. *)
Definition has_isin (labels : list string) (row : list cell) : bool :=
  notna (loc labels row "ISIN")
  && PyStr.truthy (PyStr.strip (str_cell (loc labels row "ISIN"))).

(** The dictionary built for a row. *)
Definition entry_of_row (labels : list string) (row : list cell) : entry :=
  {| MutualFundDetails :=
       {| Name := PyStr.strip (str_cell (loc labels row "Name"));
          ISIN := PyStr.strip (str_cell (loc labels row "ISIN"));
          Industry := PyStr.strip (str_cell (loc labels row "Industry")) |};
     MonthData :=
       {| Quantity := number_or_zero (loc labels row "Quantity");
          MarketValueInLakhs := number_or_zero (loc labels row "MarketValue");
          PctToNAV := number_or_zero (loc labels row "PercentNAV") |} |}.

(** The loop over [portfolio_data.iterrows()]. *)
Definition collect_entries (portfolio_data : DataFrame) : list entry :=
  fold_left
    (fun month_data row =>
       if has_isin (columns portfolio_data) row
       then month_data ++ [entry_of_row (columns portfolio_data) row]
       else month_data)
    (rows portfolio_data) [].

(** Lines 68 to 88: blank rows dropped, the three columns made numeric,
    the records collected. *)
Definition build_month_data (portfolio_data : DataFrame) : list entry :=
  let portfolio_data := dropna_all portfolio_data in
  let portfolio_data :=
    fold_left (fun df col => map_column to_numeric col df)
              ["Quantity"; "MarketValue"; "PercentNAV"] portfolio_data in
  collect_entries portfolio_data.

(** Lines 62 to 91, from the frame [pd.read_excel] returned to the list
    stored for the month. *)
Definition extract (df : DataFrame) : result (list entry) :=
  match iloc 6 [2; 3; 4; 5; 6; 7] df with
  | Raise e => Raise e
  | Ok portfolio_data =>
      match set_columns required_columns portfolio_data with
      | Raise e => Raise e
      | Ok portfolio_data =>
          if negb (validate_excel_structure portfolio_data)
          then Raise (ValueError "Excel file structure is invalid")
          else
            match build_month_data portfolio_data with
            | [] => Raise (ValueError "No valid data found in Excel file")
            | month_data => Ok month_data
            end
      end
  end.

(** *** The extraction described row by row

    A data row is the six cells the selection keeps from a row of the
    sheet, in the order Name, Identifier, Category, Quantity, MarketValue,
    PercentNAV. *)
Record source_row : Type := {
  row_name : cell;
  row_isin : cell;
  row_industry : cell;
  row_quantity : cell;
  row_value : cell;
  row_pct : cell
}.

Definition cells_of (r : source_row) : list cell :=
  [ row_name r; row_isin r; row_industry r;
    row_quantity r; row_value r; row_pct r ].

(** The data row of a row of the sheet: columns 3 to 8. *)
Definition select_row (r : list cell) : source_row :=
  {| row_name := nth 2 r NaN;
     row_isin := nth 3 r NaN;
     row_industry := nth 4 r NaN;
     row_quantity := nth 5 r NaN;
     row_value := nth 6 r NaN;
     row_pct := nth 7 r NaN |}.

(** The data rows of a sheet: every row after the first six. *)
Definition data_rows (df : DataFrame) : list source_row :=
  map select_row (skipn 6 (rows df)).

(** A row is blank when all six cells are missing. *)
Definition blank (r : source_row) : bool :=
  forallb (fun c => negb (notna c)) (cells_of r).

(** The trimmed identifier of a row, empty when the cell is missing. *)
Definition trimmed_identifier (r : source_row) : string :=
  if notna (row_isin r) then PyStr.strip (str_cell (row_isin r)) else "".

(** The number a cell holds, if it holds one. *)
Definition numeric_value (c : cell) : option float :=
  match c with
  | NaN => None
  | Num x => if PrimFloat.is_nan x then None else Some x
  | Text s =>
      match parse_numeric s with
      | Some x => if PrimFloat.is_nan x then None else Some x
      | None => None
      end
  end.

(** The number a cell is coerced to: its value, zero when it has none. *)
Definition coerced (c : cell) : float :=
  match numeric_value c with
  | Some x => x
  | None => 0%float
  end.

(** The record a kept row is emitted as. *)
Definition record_of (r : source_row) : entry :=
  {| MutualFundDetails :=
       {| Name := PyStr.strip (str_cell (row_name r));
          ISIN := trimmed_identifier r;
          Industry := PyStr.strip (str_cell (row_industry r)) |};
     MonthData :=
       {| Quantity := coerced (row_quantity r);
          MarketValueInLakhs := coerced (row_value r);
          PctToNAV := coerced (row_pct r) |} |}.

(** A row is kept when it is not blank and its trimmed identifier is not
    empty. *)
Definition kept (r : source_row) : bool :=
  negb (blank r) && PyStr.truthy (trimmed_identifier r).

(** *** The monad of the manager's methods *)

Definition M (A : Type) : Type := State text -> result A * State text.

Definition ret {A : Type} (a : A) : M A := fun st => (Ok a, st).

Definition bind {A B : Type} (m : M A) (k : A -> M B) : M B :=
  fun st =>
    match m st with
    | (Ok a, st') => k a st'
    | (Raise e, st') => (Raise e, st')
    end.

Definition raise {A : Type} (e : exn) : M A := fun st => (Raise e, st).

Definition lift {A : Type} (r : result A) : M A := fun st => (r, st).

(** [try: body  except Exception as e: handler(e)]; what the body did to
    the state before it raised stays done. *)
Definition try_except {A : Type} (body : M A) (handler : exn -> M A) : M A :=
  fun st =>
    match body st with
    | (Ok a, st') => (Ok a, st')
    | (Raise e, st') => handler e st'
    end.

Notation "x <- c1 ;; c2" := (bind c1 (fun x => c2))
  (at level 100, c1 at next level, right associativity).
Notation "c1 ;; c2" := (bind c1 (fun _ => c2))
  (at level 100, right associativity).

Definition get_data : M (gmap string (list entry)) :=
  fun st => (Ok (data st), st).

(** [self.data[k] = v] *)
Definition set_item (k : string) (v : list entry) : M unit :=
  fun st => (Ok tt, {| data := <[k := v]> (data st);
                       storage := storage st;
                       stdout := stdout st |}).

Definition print (line : string) : M unit :=
  fun st => (Ok tt, {| data := data st;
                       storage := storage st;
                       stdout := stdout st ++ [line] |}).

(** [open(self.storage_file, 'w')] followed by the write of [t]: a
    failure of the [open] leaves the file alone, a failure after it leaves
    the emptied file with what had been written. *)
Definition write_storage (t : text) : M unit :=
  fun st =>
    if can_write W
    then (Ok tt, {| data := data st; storage := Some t; stdout := stdout st |})
    else if fails_after_open W
    then (Raise (OSError "cannot write the storage file"),
          {| data := data st; storage := Some (torn t); stdout := stdout st |})
    else (Raise (OSError "cannot open the storage file for writing"), st).

(** The message of the error of a failed write. *)
Definition write_error : string :=
  if fails_after_open W then "cannot write the storage file"
  else "cannot open the storage file for writing".

(** What the file holds after a failed write of [t]. *)
Definition after_failed_write (t : text) (before : option text) : option text :=
  if fails_after_open W then Some (torn t) else before.

(** [open(self.storage_file, 'r')] followed by [json.load]. *)
Definition read_storage : M (gmap string (list entry)) :=
  fun st =>
    match storage st with
    | None => (Raise (FileNotFoundError "no storage file"), st)
    | Some t =>
        if can_read W then
          match loads t with
          | Some d => (Ok d, st)
          | None => (Raise (JSONDecodeError "malformed JSON text"), st)
          end
        else (Raise (OSError "cannot open the storage file for reading"), st)
    end.

(** [os.path.exists(self.storage_file)] *)
Definition storage_exists : M bool :=
  fun st => (Ok (match storage st with Some _ => true | None => false end), st).

(** *** [PortfolioManager] *)

Definition _load_data : M (gmap string (list entry)) :=
  present <- storage_exists ;;
  if present then
    try_except read_storage
      (fun e =>
         if is_JSONDecodeError e then
           print ("Warning: Could not decode " +:+ storage_file
                  +:+ ". Starting with empty data.") ;;
           ret ∅
         else
           print ("Warning: Error reading " +:+ storage_file +:+ ": "
                  +:+ str_exn e +:+ ". Starting with empty data.") ;;
           ret ∅)
  else ret ∅.

Definition _save_data : M bool :=
  try_except
    (d <- get_data ;;
     write_storage (dumps d) ;;
     ret true)
    (fun e =>
       print ("Error saving data: " +:+ str_exn e) ;;
       ret false).

(** The [try] block of [process_excel_data]. *)
Definition process_excel_data_try (excel_file month_year : string) : M bool :=
  if negb (validate_month_year month_year) then
    raise (ValueError
      "Invalid month-year format. Use 'Month YYYY' format (e.g., 'January 2024')")
  else if negb (path_exists W excel_file) then
    raise (FileNotFoundError ("Excel file not found: " +:+ excel_file))
  else
    df <- lift (read_excel W excel_file) ;;
    month_data <- lift (extract df) ;;
    set_item month_year month_data ;;
    saved <- _save_data ;;
    if saved then
      print (nl +:+ "Successfully processed data for " +:+ month_year) ;;
      ret true
    else ret false.

Definition process_excel_data (excel_file month_year : string) : M bool :=
  try_except (process_excel_data_try excel_file month_year)
    (fun e =>
       print (nl +:+ "Error processing Excel file: " +:+ str_exn e) ;;
       ret false).

(** [for x in l: body(x)] *)
Fixpoint for_each {A : Type} (l : list A) (body : A -> M unit) : M unit :=
  match l with
  | [] => ret tt
  | x :: l' => body x ;; for_each l' body
  end.

(** [c * n] for a one-character string. *)
Definition rule (c : ascii) (n : nat) : string :=
  string_of_list_ascii (repeat c n).

(** The lines printed for one metric of a result. *)
Definition print_change (item : string * change) : M unit :=
  let '(metric, values) := item in
  print (metric +:+ ":") ;;
  print ("  Start: " +:+ format_2f (StartValue values)) ;;
  print ("  End: " +:+ format_2f (EndValue values)) ;;
  match PercentageChange values with
  | Some p => print ("  Change: " +:+ format_signed_2f p +:+ "%")
  | None => print "  Change: N/A (starting value was 0)"
  end.

(** The lines printed for one result. *)
Definition print_result (result : change_result) : M unit :=
  print (nl +:+ "Fund Name: " +:+ Name (FundDetails result)) ;;
  print ("ISIN: " +:+ ISIN (FundDetails result)) ;;
  print ("Industry: " +:+ Industry (FundDetails result)) ;;
  print ("Status: " +:+ Status result) ;;
  if String.eqb (Status result) "New Addition" then
    print "This is a new fund addition - no change calculations available" ;;
    print (rule "-" 40)
  else
    print (nl +:+ "Changes:") ;;
    for_each (Changes result) print_change ;;
    print (rule "-" 40).

Definition _print_analysis_results (results : list change_result)
  (start_month end_month : string) : M unit :=
  print (nl +:+ "Analysis Results (" +:+ start_month +:+ " to "
         +:+ end_month +:+ "):") ;;
  print (rule "=" 80) ;;
  for_each results print_result.

(** The [try] block of [search_and_calculate_changes]. *)
Definition search_and_calculate_changes_try
  (fund_name start_month end_month : string) : M (list change_result) :=
  if negb (forallb validate_month_year [start_month; end_month]) then
    raise (ValueError "Invalid month format. Use 'Month YYYY' format")
  else
    d <- get_data ;;
    match d !! start_month, d !! end_month with
    | Some start_items, Some end_items =>
        let results := calculate_changes fund_name start_items end_items in
        _print_analysis_results results start_month end_month ;;
        ret results
    | _, _ => raise (KeyError "One or both months not found in the data")
    end.

Definition search_and_calculate_changes
  (fund_name start_month end_month : string)
  : M (option (list change_result)) :=
  try_except
    (results <- search_and_calculate_changes_try fund_name start_month end_month ;;
     ret (Some results))
    (fun e =>
       print (nl +:+ "Error: " +:+ str_exn e) ;;
       ret None).

(** [__init__]: the dictionary is what [_load_data] returns. *)
Definition init : M unit :=
  fun st =>
    match _load_data st with
    | (Ok d, st') => (Ok tt, {| data := d; storage := storage st';
                                stdout := stdout st' |})
    | (Raise e, st') => (Raise e, st')
    end.

(** *** Words used by the properties *)

(** A computation that returns and leaves the dictionary and the storage
    file as they were: what printing does. *)
Definition quiet {A : Type} (m : M A) : Prop :=
  forall st, exists a st',
    m st = (Ok a, st') /\ data st' = data st /\ storage st' = storage st.

(** The selected table whose rows are the given data rows. *)
Definition table_of (rs : list source_row) : DataFrame :=
  {| columns := required_columns; rows := map cells_of rs |}.

(** The three numeric columns converted. *)
Definition numeric_row (r : source_row) : source_row :=
  {| row_name := row_name r;
     row_isin := row_isin r;
     row_industry := row_industry r;
     row_quantity := to_numeric (row_quantity r);
     row_value := to_numeric (row_value r);
     row_pct := to_numeric (row_pct r) |}.

Definition with_line (st : State text) (line : string) : State text :=
  {| data := data st; storage := storage st; stdout := stdout st ++ [line] |}.


(** *** The menu loop ([main])

    The keyboard is the list of what is still to be typed: lines, and
    interrupts (Ctrl-C) that arrive while the program waits for a line. When
    the list is empty the input is at its end and [input] raises
    [EOFError]. A prompt is written like a printed line. *)
Inductive key : Type :=
| Line (s : string)
| Interrupt.

(** How an iteration of [while True] ends. *)
Inductive step : Type :=
| Continue
| Break.

(** [except Exception as e] of the loop. *)
Definition unexpected_error (e : exn) (st : State text) : State text :=
  with_line
    (with_line st (nl +:+ "An unexpected error occurred: " +:+ str_exn e))
    "Please try again.".

(** [except KeyboardInterrupt] of the loop. *)
Definition interrupted (st : State text) : State text :=
  with_line st (nl +:+ nl +:+ "Program interrupted by user.").

(** [x = input(prompt).strip()], then the rest of the [try] block; the
    end of the input and an interrupt go to the handlers of the loop. *)
Definition input_then (prompt : string) (stdin : list key) (st : State text)
  (rest : string -> list key -> State text -> step * list key * State text)
  : step * list key * State text :=
  let st := with_line st prompt in
  match stdin with
  | [] => (Continue, [], unexpected_error (OtherError "EOFError" "EOF when reading a line") st)
  | Interrupt :: stdin' => (Break, stdin', interrupted st)
  | Line s :: stdin' => rest (PyStr.strip s) stdin' st
  end.

(** A call of a method of the manager from the loop. *)
Definition call {A : Type} (m : M A) (stdin : list key) (st : State text)
  (rest : A -> State text -> step * list key * State text)
  : step * list key * State text :=
  match m st with
  | (Ok a, st') => rest a st'
  | (Raise e, st') => (Continue, stdin, unexpected_error e st')
  end.

(** [sorted(l)] on strings: ascending by code points. *)
Definition sorted (l : list string) : list string := merge_sort String.le l.

(** [sorted(manager.data.keys())] *)
Definition sorted_months (d : gmap string (list entry)) : list string :=
  sorted (map fst (map_to_list d)).

(** The five lines of the menu. *)
Definition print_menu (st : State text) : State text :=
  with_line
    (with_line
       (with_line
          (with_line
             (with_line st (nl +:+ "Portfolio Manager Menu:"))
             (rule "=" 50))
          "1. Import Excel Data")
       "2. Analyze Fund Performance")
    "3. Exit".

Definition print_lines (lines : list string) (st : State text) : State text :=
  fold_left with_line lines st.

(** One iteration of the loop. *)
Definition main_step (stdin : list key) (st : State text)
  : step * list key * State text :=
  let st := print_menu st in
  input_then (nl +:+ "Enter your choice (1-3): ") stdin st
    (fun choice stdin st =>
       if String.eqb choice "1" then
         input_then (nl +:+ "Enter Excel file path: ") stdin st
           (fun excel_file stdin st =>
              input_then "Enter month and year (e.g., 'September 2024'): " stdin st
                (fun month_year stdin st =>
                   call (process_excel_data excel_file month_year) stdin st
                     (fun imported st =>
                        if imported : bool then
                          (Continue, stdin,
                           with_line st (nl +:+ "Data imported successfully!"))
                        else
                          (Continue, stdin,
                           with_line st (nl +:+ "Failed to import data.")))))
       else if String.eqb choice "2" then
         if bool_decide (data st = ∅) then
           (Continue, stdin,
            with_line st (nl +:+ "No data available. Please import data first."))
         else
           let st := with_line st (nl +:+ "Available months:") in
           let st := print_lines (map (fun month => "- " +:+ month)
                                      (sorted_months (data st))) st in
           input_then (nl +:+ "Enter fund name to search: ") stdin st
             (fun fund_name stdin st =>
                input_then "Enter start month (e.g., 'September 2024'): " stdin st
                  (fun start_month stdin st =>
                     input_then "Enter end month (e.g., 'October 2024'): " stdin st
                       (fun end_month stdin st =>
                          call (search_and_calculate_changes
                                  fund_name start_month end_month) stdin st
                            (fun _ st => (Continue, stdin, st)))))
       else if String.eqb choice "3" then
         (Break, stdin,
          with_line st (nl +:+ "Thank you for using Portfolio Manager!"))
       else
         (Continue, stdin,
          with_line st (nl +:+ "Invalid choice. Please enter 1, 2, or 3."))).

(** How a run stands after some iterations: still in the loop, out of it
    (with what was not read of the keyboard), or stopped by an exception
    that nothing caught. *)
Inductive run : Type :=
| Running
| Exited (stdin : list key) (st : State text)
| Crashed (e : exn) (st : State text).

(** [while True], followed for at most [fuel] iterations. *)
Fixpoint main_loop (fuel : nat) (stdin : list key) (st : State text) : run :=
  match fuel with
  | 0 => Running
  | S fuel' =>
      match main_step stdin st with
      | (Break, stdin', st') => Exited stdin' st'
      | (Continue, stdin', st') => main_loop fuel' stdin' st'
      end
  end.

(** [main]: the manager is built, then the loop runs. *)
Definition main (fuel : nat) (stdin : list key) (st : State text) : run :=
  match init st with
  | (Ok _, st') => main_loop fuel stdin st'
  | (Raise e, st') => Crashed e st'
  end.

(** *** Words used by the further properties *)

(** What an import is about to store under the month, or the exception
    that stops it before the dictionary is touched (lines 54 to 91). *)
Definition import_plan (excel_file month_year : string) : result (list entry) :=
  if negb (validate_month_year month_year) then
    Raise (ValueError invalid_label_message)
  else if negb (path_exists W excel_file) then
    Raise (FileNotFoundError ("Excel file not found: " +:+ excel_file))
  else
    match read_excel W excel_file with
    | Raise e => Raise e
    | Ok df => extract df
    end.

(** A record with trimmed texts, an identifier and three numbers. *)
Definition clean_entry (e : entry) : Prop :=
  PyStr.strip (Name (MutualFundDetails e)) = Name (MutualFundDetails e)
  /\ PyStr.strip (ISIN (MutualFundDetails e)) = ISIN (MutualFundDetails e)
  /\ ISIN (MutualFundDetails e) <> ""
  /\ PyStr.strip (Industry (MutualFundDetails e)) = Industry (MutualFundDetails e)
  /\ PrimFloat.is_nan (Quantity (MonthData e)) = false
  /\ PrimFloat.is_nan (MarketValueInLakhs (MonthData e)) = false
  /\ PrimFloat.is_nan (PctToNAV (MonthData e)) = false.

(** What every import keeps true of the dictionary: each key is a label
    [validate_month_year] accepts, and each list is non-empty and holds
    clean records. *)
Definition imported_snapshot (d : gmap string (list entry)) : Prop :=
  map_Forall
    (fun month items =>
       validate_month_year month = true
       /\ items <> []
       /\ Forall clean_entry items)
    d.

(** A computation that returns, leaves the dictionary and the storage file
    alone, and writes [n] lines. *)
Definition emits {A : Type} (m : M A) (n : nat) : Prop :=
  forall st, exists a out,
    m st = (Ok a, {| data := data st; storage := storage st;
                     stdout := stdout st ++ out |})
    /\ length out = n.

(** The lines [_print_analysis_results] writes for one result. *)
Definition result_lines (r : change_result) : nat :=
  if String.eqb (Status r) "New Addition" then 6
  else 6 + 4 * length (Changes r).

(** The test of line 118 on a stored record, the query already in lower
    case. *)
Definition name_matches (query : string) (item : entry) : bool :=
  PyStr.contains (PyStr.lower query)
                 (PyStr.lower (Name (MutualFundDetails item))).

(** A key that ends the loop when it is read as a choice: an interrupt, or
    a line that is [3] once trimmed. *)
Definition leaves (k : key) : bool :=
  match k with
  | Interrupt => true
  | Line s => String.eqb (PyStr.strip s) "3"
  end.

(** A line that starts an import when it is read as a choice. *)
Definition asks_import (k : key) : bool :=
  match k with
  | Interrupt => false
  | Line s => String.eqb (PyStr.strip s) "1"
  end.

(** An iteration that goes on to the next one, with no leaving key left to
    read. *)
Definition stays (x : step * list key * State text) : Prop :=
  exists stdin' st',
    x = (Continue, stdin', st')
    /\ forallb (fun k => negb (leaves k)) stdin' = true.

(** An iteration that ends with the given dictionary and storage file, and
    with no import left to ask for. *)
Definition keeps (d : gmap string (list entry)) (t : option text)
  (x : step * list key * State text) : Prop :=
  data (snd x) = d
  /\ storage (snd x) = t
  /\ forallb (fun k => negb (asks_import k)) (snd (fst x)) = true.

(** A sheet with the eight columns and nothing below the six heading
    rows. *)
Definition heading_only_sheet : DataFrame :=
  {| columns := [ "c0"; "c1"; "c2"; "c3"; "c4"; "c5"; "c6"; "c7" ];
     rows := heading_rows |}.

(** What is typed in a session that asks for one analysis and leaves. *)
Definition analysis_session : list key :=
  [ Line "2"; Line " bond "; Line "May 2024"; Line "June 2024"; Line " 3 " ].

(** * Properties *)

(** ** Running the monad *)

Ltac run_monad :=
  unfold try_except, bind, ret, raise, lift, print, get_data, set_item in *;
  simpl in *.

Lemma quiet_print (line : string) : quiet (print line).
Proof. intros st. eexists _, _. split; [reflexivity|]. auto. Qed.

Lemma quiet_ret {A : Type} (a : A) : quiet (ret a).
Proof. intros st. eexists _, _. split; [reflexivity|]. auto. Qed.

Lemma quiet_bind {A B : Type} (m : M A) (k : A -> M B) :
  quiet m -> (forall a, quiet (k a)) -> quiet (bind m k).
Proof.
  intros Hm Hk st. destruct (Hm st) as (a & st1 & E1 & D1 & S1).
  destruct (Hk a st1) as (b & st2 & E2 & D2 & S2).
  exists b, st2. unfold bind. rewrite E1, E2. split; [reflexivity|].
  split; congruence.
Qed.

Lemma quiet_for_each {A : Type} (l : list A) (body : A -> M unit) :
  (forall x, quiet (body x)) -> quiet (for_each l body).
Proof.
  intros Hb. induction l as [|x l IH]; simpl.
  - apply quiet_ret.
  - apply quiet_bind; auto.
Qed.

Lemma quiet_print_change (item : string * change) : quiet (print_change item).
Proof.
  destruct item as [metric values]. unfold print_change.
  repeat (apply quiet_bind; [apply quiet_print | intros _]).
  destruct (PercentageChange values); apply quiet_print.
Qed.

Lemma quiet_print_result (result : change_result) : quiet (print_result result).
Proof.
  unfold print_result.
  repeat (apply quiet_bind; [apply quiet_print | intros _]).
  destruct (String.eqb (Status result) "New Addition").
  - apply quiet_bind; [apply quiet_print | intros _; apply quiet_print].
  - apply quiet_bind; [apply quiet_print | intros _].
    apply quiet_bind; [|intros _; apply quiet_print].
    apply quiet_for_each, quiet_print_change.
Qed.

Lemma quiet_print_analysis_results (results : list change_result)
  (start_month end_month : string) :
  quiet (_print_analysis_results results start_month end_month).
Proof.
  unfold _print_analysis_results.
  repeat (apply quiet_bind; [apply quiet_print | intros _]).
  apply quiet_for_each, quiet_print_result.
Qed.

(** What [_save_data] does, by whether the file can be written. *)
Lemma save_data_run (st : State text) :
  _save_data st =
  if can_write W
  then (Ok true, {| data := data st; storage := Some (dumps (data st));
                    stdout := stdout st |})
  else (Ok false,
        {| data := data st;
           storage := after_failed_write (dumps (data st)) (storage st);
           stdout := stdout st ++ ["Error saving data: " +:+ write_error] |}).
Proof.
  unfold _save_data, write_storage, after_failed_write, write_error. run_monad.
  destruct (can_write W); [reflexivity|].
  destruct (fails_after_open W); destruct st; reflexivity.
Qed.

(** ** The import, step by step *)

(** The [try] block of [process_excel_data] evaluated: the four ways it
    raises before the dictionary is touched, and the two ways it ends once
    the month is stored. *)
Lemma process_excel_data_try_run (excel_file month_year : string) (st : State text) :
  process_excel_data_try excel_file month_year st =
  if negb (validate_month_year month_year) then
    (Raise (ValueError invalid_label_message), st)
  else if negb (path_exists W excel_file) then
    (Raise (FileNotFoundError ("Excel file not found: " +:+ excel_file)), st)
  else
    match read_excel W excel_file with
    | Raise e => (Raise e, st)
    | Ok df =>
        match extract df with
        | Raise e => (Raise e, st)
        | Ok month_data =>
            if can_write W then
              (Ok true,
               {| data := <[month_year := month_data]> (data st);
                  storage := Some (dumps (<[month_year := month_data]> (data st)));
                  stdout := stdout st
                    ++ [nl +:+ "Successfully processed data for " +:+ month_year] |})
            else
              (Ok false,
               {| data := <[month_year := month_data]> (data st);
                  storage :=
                    after_failed_write
                      (dumps (<[month_year := month_data]> (data st)))
                      (storage st);
                  stdout := stdout st
                    ++ ["Error saving data: " +:+ write_error] |})
        end
    end.
Proof.
  unfold process_excel_data_try.
  destruct (validate_month_year month_year); simpl; [|reflexivity].
  destruct (path_exists W excel_file); simpl; [|reflexivity].
  unfold bind at 1. unfold lift at 1.
  destruct (read_excel W excel_file) as [df|e]; [|reflexivity].
  unfold bind at 1. unfold lift at 1.
  destruct (extract df) as [month_data|e]; [|reflexivity].
  unfold bind at 1. unfold set_item at 1.
  unfold bind at 1. rewrite save_data_run.
  destruct (can_write W); reflexivity.
Qed.

(** ** The comparison, step by step *)

Lemma search_and_calculate_changes_try_ok
  (fund_name start_month end_month : string) (st : State text)
  (start_items end_items : list entry) :
  validate_month_year start_month = true ->
  validate_month_year end_month = true ->
  data st !! start_month = Some start_items ->
  data st !! end_month = Some end_items ->
  exists st',
    search_and_calculate_changes_try fund_name start_month end_month st
    = (Ok (calculate_changes fund_name start_items end_items), st')
    /\ data st' = data st /\ storage st' = storage st.
Proof.
  intros Vs Ve Ds De. unfold search_and_calculate_changes_try.
  simpl. rewrite Vs, Ve. simpl.
  unfold bind at 1. unfold get_data at 1. rewrite Ds, De.
  destruct (quiet_print_analysis_results
              (calculate_changes fund_name start_items end_items)
              start_month end_month st) as ([] & st' & E & D & S).
  exists st'. unfold bind, ret. rewrite E. auto.
Qed.

Lemma search_and_calculate_changes_ok
  (fund_name start_month end_month : string) (st : State text)
  (start_items end_items : list entry) :
  validate_month_year start_month = true ->
  validate_month_year end_month = true ->
  data st !! start_month = Some start_items ->
  data st !! end_month = Some end_items ->
  exists st',
    search_and_calculate_changes fund_name start_month end_month st
    = (Ok (Some (calculate_changes fund_name start_items end_items)), st')
    /\ data st' = data st /\ storage st' = storage st.
Proof.
  intros Vs Ve Ds De.
  destruct (search_and_calculate_changes_try_ok fund_name _ _ _ _ _ Vs Ve Ds De)
    as (st' & E & D & S).
  exists st'. unfold search_and_calculate_changes, try_except, bind, ret.
  rewrite E. auto.
Qed.

(** C3 (as amended): a label that fails [validate_month_year] makes the
    [try] block raise [ValueError], and, when both labels pass, a month that
    is missing from the dictionary makes it raise [KeyError]; in both cases
    the block raises with the state untouched, and the method itself catches
    the exception, prints one error line (no analysis) and returns [None]
    to its caller. *)
Theorem search_and_calculate_changes_rejects
  (fund_name start_month end_month : string) (st : State text) :
  (validate_month_year start_month = false
   \/ validate_month_year end_month = false ->
   search_and_calculate_changes_try fund_name start_month end_month st
   = (Raise (ValueError invalid_month_message), st)
   /\ search_and_calculate_changes fund_name start_month end_month st
      = (Ok None, with_line st (nl +:+ "Error: " +:+ invalid_month_message)))
  /\ (validate_month_year start_month = true ->
      validate_month_year end_month = true ->
      data st !! start_month = None \/ data st !! end_month = None ->
      search_and_calculate_changes_try fund_name start_month end_month st
      = (Raise (KeyError months_not_found_message), st)
      /\ search_and_calculate_changes fund_name start_month end_month st
         = (Ok None,
            with_line st (nl +:+ "Error: '" +:+ months_not_found_message +:+ "'"))).
Proof.
  split.
  - intros Hv.
    assert (E : search_and_calculate_changes_try fund_name start_month end_month st
                = (Raise (ValueError invalid_month_message), st)).
    { unfold search_and_calculate_changes_try. simpl.
      destruct Hv as [-> | ->]; simpl; [reflexivity|].
      destruct (validate_month_year start_month); reflexivity. }
    split; [exact E|].
    unfold search_and_calculate_changes, try_except, bind at 1. now rewrite E.
  - intros Vs Ve Hd.
    assert (E : search_and_calculate_changes_try fund_name start_month end_month st
                = (Raise (KeyError months_not_found_message), st)).
    { unfold search_and_calculate_changes_try. simpl. rewrite Vs, Ve. simpl.
      unfold bind at 1. unfold get_data at 1.
      destruct Hd as [-> | ->]; [reflexivity|].
      destruct (data st !! start_month); reflexivity. }
    split; [exact E|].
    unfold search_and_calculate_changes, try_except, bind at 1. now rewrite E.
Qed.

(** [process_excel_data] always returns to its caller. *)
Lemma process_excel_data_run (excel_file month_year : string) (st : State text) :
  process_excel_data excel_file month_year st =
  match process_excel_data_try excel_file month_year st with
  | (Ok b, st') => (Ok b, st')
  | (Raise e, st') =>
      (Ok false, with_line st' (nl +:+ "Error processing Excel file: " +:+ str_exn e))
  end.
Proof.
  unfold process_excel_data, try_except.
  destruct (process_excel_data_try excel_file month_year st) as [[b|e] st'];
    reflexivity.
Qed.

(** C4 (as amended): an import either leaves the dictionary as it was and
    returns [False], or stores under the month exactly the list extracted
    from the file, every other month untouched; the second happens exactly
    when the label is valid, the file exists, is read and yields records, and
    the value returned is then whether the storage file could be written:
    [True] after a save, [False] when the save failed with the month already
    replaced in memory. *)
Theorem process_excel_data_replaces_or_keeps
  (excel_file month_year : string) (st : State text) :
  exists b st',
    process_excel_data excel_file month_year st = (Ok b, st')
    /\ ((b = false /\ data st' = data st)
        \/ (exists df month_data,
              validate_month_year month_year = true
              /\ path_exists W excel_file = true
              /\ read_excel W excel_file = Ok df
              /\ extract df = Ok month_data
              /\ b = can_write W
              /\ data st' = <[month_year := month_data]> (data st)))
    /\ (forall df month_data,
          validate_month_year month_year = true ->
          path_exists W excel_file = true ->
          read_excel W excel_file = Ok df ->
          extract df = Ok month_data ->
          b = can_write W
          /\ data st' !! month_year = Some month_data
          /\ forall other, other <> month_year ->
                           data st' !! other = data st !! other).
Proof.
  rewrite process_excel_data_run, process_excel_data_try_run.
  destruct (validate_month_year month_year); simpl.
  2:{ eexists _, _. split; [reflexivity|]. split; [left; auto|]. intros; congruence. }
  destruct (path_exists W excel_file); simpl.
  2:{ eexists _, _. split; [reflexivity|]. split; [left; auto|]. intros; congruence. }
  destruct (read_excel W excel_file) as [df|e].
  2:{ eexists _, _. split; [reflexivity|]. split; [left; auto|]. intros; congruence. }
  destruct (extract df) as [month_data|e] eqn:Ex.
  2:{ eexists _, _. split; [reflexivity|]. split; [left; auto|].
      intros df' month_data' _ _ [= <-] H. congruence. }
  assert (L : forall (b : bool) (m : gmap string (list entry)),
            m = <[month_year := month_data]> (data st) ->
            forall df' month_data',
              true = true -> true = true -> Ok df = Ok df' ->
              extract df' = Ok month_data' ->
              b = b /\ m !! month_year = Some month_data'
              /\ forall other, other <> month_year ->
                               m !! other = data st !! other).
  { intros b m -> df' month_data' _ _ [= <-] H.
    rewrite Ex in H. injection H as <-. split; [reflexivity|].
    split; [apply lookup_insert_eq|].
    intros other Hne. apply lookup_insert_ne. congruence. }
  destruct (can_write W); eexists _, _; (split; [reflexivity|]); simpl;
    (split; [right; exists df, month_data; auto 10 | now apply L]).
Qed.

(** C10: neither method lets an exception reach its caller.
    [process_excel_data] returns a boolean, [False] whenever its [try] block
    raised or the save failed; [search_and_calculate_changes] returns a list
    or [None], [None] whenever its [try] block raised. *)
Theorem methods_never_raise (st : State text) :
  (forall excel_file month_year,
      exists b st',
        process_excel_data excel_file month_year st = (Ok b, st')
        /\ (forall e st1,
              process_excel_data_try excel_file month_year st = (Raise e, st1) ->
              b = false)
        /\ (b = true -> can_write W = true))
  /\ (forall fund_name start_month end_month,
        exists r st',
          search_and_calculate_changes fund_name start_month end_month st
          = (Ok r, st')
          /\ (forall e st1,
                search_and_calculate_changes_try fund_name start_month end_month st
                = (Raise e, st1) -> r = None)).
Proof.
  split.
  - intros excel_file month_year. rewrite process_excel_data_run.
    destruct (process_excel_data_try excel_file month_year st)
      as [[b|e] st1] eqn:E.
    + exists b, st1. split; [reflexivity|].
      split; [intros e st2 H; discriminate H|].
      intros ->. rewrite process_excel_data_try_run in E.
      destruct (validate_month_year month_year); [|discriminate].
      destruct (path_exists W excel_file); [|discriminate]. simpl in E.
      destruct (read_excel W excel_file); [|discriminate].
      destruct (extract a); [|discriminate].
      destruct (can_write W); [reflexivity|discriminate].
    + eexists _, _. split; [reflexivity|].
      split; [reflexivity | intros H; discriminate H].
  - intros fund_name start_month end_month.
    unfold search_and_calculate_changes, try_except, bind at 1.
    destruct (search_and_calculate_changes_try fund_name start_month end_month st)
      as [[results|e] st1].
    + eexists _, _. split; [reflexivity|]. intros e st2 H. discriminate H.
    + eexists _, _. split; reflexivity.
Qed.

(** ** The structure check of the import *)

(** Once the six labels are bound, the structure check cannot fail: the
    [raise] of line 66 is never reached. *)
Lemma validate_excel_structure_after_rename (pd pd' : DataFrame) :
  set_columns required_columns pd = Ok pd' ->
  validate_excel_structure pd' = true.
Proof.
  unfold set_columns.
  destruct (length required_columns =? length (columns pd)); [|discriminate].
  intros [= <-]. reflexivity.
Qed.

Lemma extract_never_structure_error (df : DataFrame) :
  extract df <> Raise (ValueError "Excel file structure is invalid").
Proof.
  unfold extract. destruct (iloc 6 [2; 3; 4; 5; 6; 7] df) as [pd|e] eqn:Ei.
  - destruct (set_columns required_columns pd) as [pd'|e] eqn:Es.
    + rewrite (validate_excel_structure_after_rename _ _ Es). simpl.
      destruct (build_month_data pd'); discriminate.
    + unfold set_columns in Es.
      destruct (length required_columns =? length (columns pd));
        [discriminate|]. injection Es as <-. discriminate.
  - unfold iloc in Ei.
    destruct (forallb (fun i => i <? length (columns df)) [2; 3; 4; 5; 6; 7]);
      [discriminate|]. injection Ei as <-. discriminate.
Qed.

(** C1: a table with fewer than the eight columns the selection reads does
    not reach the structure check; the positional selection raises
    [IndexError], which [process_excel_data] reports as a generic failure. *)
Theorem extract_short_table_raises_IndexError (df : DataFrame) :
  length (columns df) < 8 ->
  extract df = Raise (IndexError "positional indexers are out-of-bounds")
  /\ forall excel_file month_year (st : State text),
       validate_month_year month_year = true ->
       path_exists W excel_file = true ->
       read_excel W excel_file = Ok df ->
       process_excel_data excel_file month_year st
       = (Ok false,
          with_line st (nl +:+ "Error processing Excel file: "
                        +:+ "positional indexers are out-of-bounds")).
Proof.
  intros Hlen.
  assert (E : extract df
              = Raise (IndexError "positional indexers are out-of-bounds")).
  { unfold extract, iloc. simpl.
    destruct (Nat.ltb_spec 7 (length (columns df))) as [|_]; [lia|].
    now rewrite !andb_false_r. }
  split; [exact E|].
  intros excel_file month_year st Hv Hp Hr.
  rewrite process_excel_data_run, process_excel_data_try_run.
  now rewrite Hv, Hp, Hr, E.
Qed.

(** ** The storage file *)

(** A manager that finds a readable storage file whose text decodes gets
    the decoded dictionary, whatever it held before, and prints nothing. *)
Lemma load_data_reads (new : State text) (t : text)
  (d : gmap string (list entry)) :
  storage new = Some t ->
  can_read W = true ->
  loads t = Some d ->
  _load_data new = (Ok d, new).
Proof.
  intros Hs Hr Hl. unfold _load_data, storage_exists, bind at 1.
  destruct new as [d0 s0 out]. simpl in Hs. subst s0. simpl.
  unfold try_except, read_storage. simpl. rewrite Hr, Hl. reflexivity.
Qed.

(** ** The extraction, row by row *)

Lemma fold_left_collect {A B : Type} (f : A -> bool) (g : A -> B)
  (l : list A) (acc : list B) :
  fold_left (fun acc x => if f x then acc ++ [g x] else acc) l acc
  = acc ++ map g (List.filter f l).
Proof.
  revert acc. induction l as [|x l IH]; intros acc; simpl.
  - now rewrite app_nil_r.
  - rewrite IH. destruct (f x); simpl; [|reflexivity].
    now rewrite <- app_assoc.
Qed.

Lemma filter_map_comm {A B : Type} (f : B -> bool) (g : A -> B) (l : list A) :
  List.filter f (map g l) = map g (List.filter (fun x => f (g x)) l).
Proof.
  induction l as [|x l IH]; simpl; [reflexivity|].
  rewrite IH. now destruct (f (g x)).
Qed.

Lemma filter_filter_andb {A : Type} (f g : A -> bool) (l : list A) :
  List.filter f (List.filter g l) = List.filter (fun x => g x && f x) l.
Proof.
  induction l as [|x l IH]; simpl; [reflexivity|].
  destruct (g x); simpl; rewrite IH; reflexivity.
Qed.

Lemma selection_table_of (df : DataFrame) :
  8 <= length (columns df) ->
  exists pd,
    iloc 6 [2; 3; 4; 5; 6; 7] df = Ok pd
    /\ set_columns required_columns pd = Ok (table_of (data_rows df)).
Proof.
  intros Hlen. unfold iloc.
  assert (forallb (fun i => i <? length (columns df)) [2; 3; 4; 5; 6; 7] = true)
    as ->.
  { simpl. repeat (rewrite (proj2 (Nat.ltb_lt _ _)) by lia). reflexivity. }
  eexists. split; [reflexivity|].
  unfold set_columns, table_of, data_rows. simpl. f_equal. f_equal.
  rewrite map_map. reflexivity.
Qed.

Lemma dropna_table_of (rs : list source_row) :
  dropna_all (table_of rs) = table_of (List.filter (fun r => negb (blank r)) rs).
Proof.
  unfold dropna_all, table_of. simpl. f_equal.
  rewrite filter_map_comm. f_equal. apply filter_ext. intros r.
  unfold blank. generalize (cells_of r). intros l.
  induction l as [|c l IH]; simpl; [reflexivity|].
  destruct (notna c); simpl; [reflexivity | exact IH].
Qed.

Lemma to_numeric_table_of (rs : list source_row) :
  fold_left (fun df col => map_column to_numeric col df)
            ["Quantity"; "MarketValue"; "PercentNAV"] (table_of rs)
  = table_of (map numeric_row rs).
Proof.
  unfold table_of, map_column. simpl. f_equal.
  rewrite !map_map. reflexivity.
Qed.

Lemma number_or_zero_numeric (c : cell) :
  number_or_zero (to_numeric c) = coerced c.
Proof.
  unfold number_or_zero, coerced, numeric_value, to_numeric, notna.
  destruct c as [|x|s]; simpl; [reflexivity| |].
  - destruct (PrimFloat.is_nan x); reflexivity.
  - destruct (parse_numeric s) as [x|]; simpl; [|reflexivity].
    destruct (PrimFloat.is_nan x); reflexivity.
Qed.

Lemma has_isin_numeric_row (r : source_row) :
  has_isin required_columns (cells_of (numeric_row r))
  = PyStr.truthy (trimmed_identifier r).
Proof.
  unfold has_isin, trimmed_identifier. simpl.
  destruct (notna (row_isin r)); reflexivity.
Qed.

Lemma entry_of_numeric_row (r : source_row) :
  notna (row_isin r) = true ->
  entry_of_row required_columns (cells_of (numeric_row r)) = record_of r.
Proof.
  intros Hn. unfold entry_of_row, record_of, trimmed_identifier. simpl.
  rewrite Hn, !number_or_zero_numeric. reflexivity.
Qed.

Lemma kept_has_identifier (r : source_row) :
  negb (blank r) && PyStr.truthy (trimmed_identifier r)
  = PyStr.truthy (trimmed_identifier r).
Proof.
  unfold blank, trimmed_identifier. simpl.
  destruct (notna (row_isin r)); simpl.
  - now rewrite andb_false_r.
  - apply andb_false_r.
Qed.

Lemma build_month_data_table_of (rs : list source_row) :
  build_month_data (table_of rs) = map record_of (List.filter kept rs).
Proof.
  unfold build_month_data. rewrite dropna_table_of, to_numeric_table_of.
  unfold collect_entries. rewrite fold_left_collect. simpl.
  rewrite map_map, filter_map_comm, map_map, filter_filter_andb.
  erewrite filter_ext by (intros r; rewrite has_isin_numeric_row;
                          apply kept_has_identifier).
  erewrite (filter_ext kept) by (intros r; apply kept_has_identifier).
  apply map_ext_in. intros r Hr. apply filter_In in Hr as [_ Hk].
  apply entry_of_numeric_row. unfold trimmed_identifier in Hk.
  destruct (notna (row_isin r)); [reflexivity | discriminate].
Qed.

(** C7: for every sheet, the import either stops on the positional
    selection (fewer than eight columns) or builds the list that holds
    exactly one record per data row that is not blank and has a non-empty
    trimmed identifier, in the order of the sheet; rows without an
    identifier are dropped without an error (the import then fails only
    when no row is left); and in a record a Quantity, MarketValue or
    PercentNAV cell that holds no number is stored as zero. *)
Theorem extract_emits_kept_rows (df : DataFrame) :
  extract df
  = (if 8 <=? length (columns df) then
       match map record_of (List.filter kept (data_rows df)) with
       | [] => Raise (ValueError "No valid data found in Excel file")
       | month_data => Ok month_data
       end
     else Raise (IndexError "positional indexers are out-of-bounds"))
  /\ length (map record_of (List.filter kept (data_rows df)))
     = length (List.filter
                 (fun r => negb (blank r) && PyStr.truthy (trimmed_identifier r))
                 (data_rows df))
  /\ forall r,
       In r (List.filter kept (data_rows df)) ->
       ISIN (MutualFundDetails (record_of r)) = trimmed_identifier r
       /\ (numeric_value (row_quantity r) = None ->
           Quantity (MonthData (record_of r)) = 0%float)
       /\ (numeric_value (row_value r) = None ->
           MarketValueInLakhs (MonthData (record_of r)) = 0%float)
       /\ (numeric_value (row_pct r) = None ->
           PctToNAV (MonthData (record_of r)) = 0%float).
Proof.
  split; [|split].
  - destruct (Nat.leb_spec 8 (length (columns df))) as [Hlen|Hlen].
    + destruct (selection_table_of df Hlen) as (pd & Ei & Es).
      unfold extract. rewrite Ei, Es.
      rewrite (validate_excel_structure_after_rename _ _ Es). simpl.
      now rewrite build_month_data_table_of.
    + unfold extract, iloc. simpl.
      destruct (Nat.ltb_spec 7 (length (columns df))) as [|_]; [lia|].
      now rewrite !andb_false_r.
  - now rewrite length_map.
  - intros r _. simpl. unfold coerced.
    repeat split; intros ->; reflexivity.
Qed.

(** ** Records the import stores are well formed *)

Lemma rstrip_rstrip (s : string) : PyStr.rstrip (PyStr.rstrip s) = PyStr.rstrip s.
Proof.
  induction s as [|c s IH]; simpl; [reflexivity|].
  destruct (PyStr.rstrip s) as [|d r] eqn:E.
  - destruct (PyStr.isspace c) eqn:Hc; simpl; [reflexivity|].
    now rewrite Hc.
  - simpl. simpl in IH. now rewrite IH.
Qed.

Lemma rstrip_head (c : ascii) (s : string) :
  PyStr.isspace c = false ->
  exists r, PyStr.rstrip (String c s) = String c r.
Proof.
  intros Hc. simpl. destruct (PyStr.rstrip s); [rewrite Hc|]; eauto.
Qed.

Lemma lstrip_head (s : string) :
  PyStr.lstrip s = ""
  \/ exists c r, PyStr.lstrip s = String c r /\ PyStr.isspace c = false.
Proof.
  induction s as [|c s IH]; simpl; [now left|].
  destruct (PyStr.isspace c) eqn:Hc; [exact IH|]. right. eauto.
Qed.

(** [strip] is idempotent. *)
Lemma strip_strip (s : string) : PyStr.strip (PyStr.strip s) = PyStr.strip s.
Proof.
  unfold PyStr.strip. destruct (lstrip_head s) as [->|(c & r & -> & Hc)].
  - reflexivity.
  - destruct (rstrip_head c r Hc) as [r' E]. rewrite E.
    cbn [PyStr.lstrip]. rewrite Hc, <- E. apply rstrip_rstrip.
Qed.

Lemma coerced_not_nan (c : cell) : PrimFloat.is_nan (coerced c) = false.
Proof.
  unfold coerced, numeric_value. destruct c as [|x|s]; [reflexivity| |].
  - destruct (PrimFloat.is_nan x) eqn:E; [reflexivity | exact E].
  - destruct (parse_numeric s) as [x|]; [|reflexivity].
    destruct (PrimFloat.is_nan x) eqn:E; [reflexivity | exact E].
Qed.

Lemma record_of_well_formed (r : source_row) :
  kept r = true -> well_formed_entry (record_of r) = true.
Proof.
  unfold kept, well_formed_entry. intros [_ Hk]%andb_prop. simpl.
  rewrite !coerced_not_nan. simpl. rewrite !andb_true_r.
  unfold trimmed_identifier in *.
  destruct (notna (row_isin r)); [|discriminate].
  now rewrite strip_strip.
Qed.

(** Every record of an extracted list has a non-blank identifier and three
    numbers. *)
Lemma extract_well_formed (df : DataFrame) (items : list entry) :
  extract df = Ok items -> forallb well_formed_entry items = true.
Proof.
  intros E.
  assert (H : items = map record_of (List.filter kept (data_rows df))).
  { destruct (Nat.leb_spec 8 (length (columns df))) as [Hlen|Hlen].
    - destruct (selection_table_of df Hlen) as (pd & Ei & Es).
      unfold extract in E. rewrite Ei, Es in E.
      rewrite (validate_excel_structure_after_rename _ _ Es) in E.
      simpl in E. rewrite build_month_data_table_of in E.
      destruct (map record_of (List.filter kept (data_rows df)));
        [discriminate | now injection E].
    - unfold extract, iloc in E. simpl in E.
      destruct (Nat.ltb_spec 7 (length (columns df))) as [|_]; [lia|].
      rewrite !andb_false_r in E. discriminate. }
  subst items. apply forallb_forall. intros e He.
  apply in_map_iff in He as (r & <- & Hr). apply filter_In in Hr as [_ Hk].
  now apply record_of_well_formed.
Qed.

(** An import keeps the dictionary well formed. *)
Lemma process_excel_data_well_formed (excel_file month_year : string)
  (st : State text) :
  well_formed_snapshot (data st) ->
  well_formed_snapshot (data (snd (process_excel_data excel_file month_year st))).
Proof.
  intros Hwf. rewrite process_excel_data_run, process_excel_data_try_run.
  destruct (validate_month_year month_year); simpl; [|exact Hwf].
  destruct (path_exists W excel_file); simpl; [|exact Hwf].
  destruct (read_excel W excel_file) as [df|e]; [|exact Hwf].
  destruct (extract df) as [items|e] eqn:E; [|exact Hwf].
  apply extract_well_formed in E.
  destruct (can_write W); simpl; now apply map_Forall_insert_2.
Qed.

(** After an import that returns [True] the storage file holds the text of
    the whole dictionary, the new month included. *)
Lemma import_fills_storage (excel_file month_year : string)
  (st st' : State text) :
  process_excel_data excel_file month_year st = (Ok true, st') ->
  storage st' = Some (dumps (data st')).
Proof.
  intros E.
  rewrite process_excel_data_run, process_excel_data_try_run in E.
  destruct (validate_month_year month_year); [|discriminate].
  destruct (path_exists W excel_file); [|discriminate]. simpl in E.
  destruct (read_excel W excel_file) as [df|e]; [|discriminate].
  destruct (extract df) as [items|e]; [|discriminate].
  destruct (can_write W); [|discriminate].
  injection E as <-. reflexivity.
Qed.

(** ** Dictionaries built from a list *)

Lemma find_last_None {A : Type} (key : A -> string) (k : string) (l : list A) :
  find_last key k l = None <-> forall x, In x l -> key x <> k.
Proof.
  induction l as [|x l IH]; simpl.
  - split; [intros _ x [] | reflexivity].
  - destruct (find_last key k l) as [v|].
    + split; [discriminate|]. intros H.
      assert (Some v = None) by (apply IH; intros y Hy; apply H; auto).
      discriminate.
    + destruct (String.eqb_spec (key x) k) as [E|N].
      * split; [discriminate|]. intros H. exfalso. apply (H x); auto.
      * split; [|reflexivity]. intros _ y [<-|Hy]; [exact N|].
        now apply IH.
Qed.

Lemma find_last_Some {A : Type} (key : A -> string) (k : string) (l : list A)
  (h : A) :
  find_last key k l = Some h <->
  exists before after,
    l = before ++ h :: after /\ key h = k
    /\ forall x, In x after -> key x <> k.
Proof.
  revert h. induction l as [|x l IH]; intros h; simpl.
  - split; [discriminate|]. intros (b & a & E & _). now destruct b.
  - destruct (find_last key k l) as [v|] eqn:F.
    + split.
      * intros [= <-]. destruct (proj1 (IH v) eq_refl) as (b & a & -> & K & N).
        exists (x :: b), a. auto.
      * intros (b & a & E & K & N). destruct b as [|y b]; simpl in E.
        -- injection E as <- <-. apply find_last_None in N. congruence.
        -- injection E as <- ->. apply IH. eauto.
    + pose proof (proj1 (find_last_None key k l) F) as N.
      destruct (String.eqb_spec (key x) k) as [E|NE].
      * split.
        -- intros [= <-]. exists [], l. auto.
        -- intros (b & a & El & K & Na). destruct b as [|y b]; simpl in El.
           ++ now injection El as <- <-.
           ++ injection El as <- ->. exfalso. apply (N h); [|exact K].
              apply in_or_app. right. now left.
      * split; [discriminate|].
        intros (b & a & El & K & Na). destruct b as [|y b]; simpl in El.
        -- injection El as <- <-. contradiction.
        -- injection El as <- ->. exfalso. apply (N h); [|exact K].
           apply in_or_app. right. now left.
Qed.

Lemma dict_get_set {V : Type} (d : list (string * V)) (k k' : string) (v : V) :
  dict_get (dict_set d k v) k'
  = if String.eqb k' k then Some v else dict_get d k'.
Proof.
  induction d as [|[k0 v0] d IH]; simpl.
  - reflexivity.
  - destruct (String.eqb_spec k k0) as [->|N]; simpl.
    + destruct (String.eqb_spec k' k0); reflexivity.
    + rewrite IH. destruct (String.eqb_spec k' k0) as [->|]; [|reflexivity].
      destruct (String.eqb_spec k0 k); [congruence | reflexivity].
Qed.

Lemma dict_fold_get {A : Type} (key : A -> string) (l : list A)
  (d0 : list (string * A)) (k : string) :
  dict_get (fold_left (fun d x => dict_set d (key x) x) l d0) k
  = match find_last key k l with
    | Some v => Some v
    | None => dict_get d0 k
    end.
Proof.
  revert d0. induction l as [|x l IH]; intros d0; simpl; [reflexivity|].
  rewrite IH, dict_get_set.
  destruct (find_last key k l); [reflexivity|].
  rewrite String.eqb_sym. now destruct (String.eqb (key x) k).
Qed.

Lemma dict_by_get {A : Type} (key : A -> string) (l : list A) (k : string) :
  dict_get (dict_by key l) k = find_last key k l.
Proof.
  unfold dict_by. rewrite dict_fold_get. now destruct (find_last key k l).
Qed.

Lemma dict_set_keys {V : Type} (d : list (string * V)) (k k' : string) (v : V) :
  In k' (map fst (dict_set d k v)) <-> k' = k \/ In k' (map fst d).
Proof.
  induction d as [|[k0 v0] d IH]; simpl.
  - split; intros [H|[]]; left; congruence.
  - destruct (String.eqb_spec k k0) as [->|N]; simpl.
    + split.
      * intros [H|H]; [left; congruence | right; right; exact H].
      * intros [H|[H|H]]; [left; congruence | left; exact H | right; exact H].
    + rewrite IH. split.
      * intros [H|[H|H]];
          [right; left; exact H | left; exact H | right; right; exact H].
      * intros [H|[H|H]];
          [right; left; exact H | left; exact H | right; right; exact H].
Qed.

Lemma dict_set_NoDup {V : Type} (d : list (string * V)) (k : string) (v : V) :
  List.NoDup (map fst d) -> List.NoDup (map fst (dict_set d k v)).
Proof.
  induction d as [|[k0 v0] d IH]; simpl; intros H.
  - constructor; [intros H'; inversion H' | constructor].
  - inversion H as [|? ? Hn Hd]; subst.
    destruct (String.eqb_spec k k0) as [->|N]; simpl.
    + now constructor.
    + constructor; [|auto]. rewrite dict_set_keys. intros [E|I]; congruence.
Qed.

Lemma dict_by_NoDup {A : Type} (key : A -> string) (l : list A) :
  List.NoDup (map fst (dict_by key l)).
Proof.
  unfold dict_by.
  assert (G : forall d0 : list (string * A), List.NoDup (map fst d0) ->
            List.NoDup (map fst (fold_left (fun d x => dict_set d (key x) x) l d0))).
  { induction l as [|x l IH]; intros d0 H; simpl; [exact H|].
    apply IH. now apply dict_set_NoDup. }
  apply G. constructor.
Qed.

Lemma dict_get_In {V : Type} (d : list (string * V)) (k : string) (v : V) :
  dict_get d k = Some v -> In (k, v) d.
Proof.
  induction d as [|[k0 v0] d IH]; simpl; [discriminate|].
  destruct (String.eqb_spec k k0) as [->|N].
  - intros [= ->]. now left.
  - intros H. right. auto.
Qed.

Lemma In_dict_get {V : Type} (d : list (string * V)) (k : string) (v : V) :
  List.NoDup (map fst d) -> In (k, v) d -> dict_get d k = Some v.
Proof.
  induction d as [|[k0 v0] d IH]; simpl; intros Hn [].
  - injection H as -> ->. now rewrite String.eqb_refl.
  - inversion Hn as [|? ? Hk Hd]; subst.
    destruct (String.eqb_spec k k0) as [->|N]; [|auto].
    exfalso. apply Hk. apply (in_map fst) in H. exact H.
Qed.

(** The items of the lookup built from a list: each identifier with the
    last record that carries it. *)
Lemma dict_by_items (items : list entry) (k : string) (h : entry) :
  In (k, h) (dict_by (fun item => ISIN (MutualFundDetails item)) items)
  <-> last_write_wins items h /\ k = ISIN (MutualFundDetails h).
Proof.
  split.
  - intros H. apply In_dict_get in H; [|apply dict_by_NoDup].
    rewrite dict_by_get in H. apply find_last_Some in H as (b & a & E & K & N).
    split; [|now symmetry]. exists b, a. split; [exact E|]. now rewrite K.
  - intros [(b & a & E & N) ->]. apply dict_get_In.
    rewrite dict_by_get. apply find_last_Some. exists b, a. auto.
Qed.

(** ** Substrings and letter case *)

Lemma append_nil_l (s : string) : "" +:+ s = s.
Proof. reflexivity. Qed.

Lemma append_cons (c : ascii) (a b : string) :
  String c a +:+ b = String c (a +:+ b).
Proof. reflexivity. Qed.

Lemma strip_prefix_spec (p s r : string) :
  PyStr.strip_prefix p s = Some r <-> s = p +:+ r.
Proof.
  revert s. induction p as [|c p IH]; intros s; simpl.
  - rewrite append_nil_l. split; congruence.
  - rewrite append_cons. destruct s as [|d s]; [split; discriminate|].
    destruct (Ascii.eqb_spec c d) as [->|N].
    + rewrite IH. split; congruence.
    + split; [discriminate | congruence].
Qed.

Lemma contains_spec (p s : string) :
  PyStr.contains p s = true <-> exists before after, s = before +:+ p +:+ after.
Proof.
  induction s as [|d s IH].
  - simpl. destruct (PyStr.strip_prefix p "") as [r|] eqn:E.
    + apply strip_prefix_spec in E. split; [|reflexivity].
      intros _. exists "", r. exact E.
    + split; [discriminate|]. intros (b & a & H).
      destruct b; [|discriminate]. rewrite append_nil_l in H.
      apply strip_prefix_spec in H. congruence.
  - simpl. destruct (PyStr.strip_prefix p (String d s)) as [r|] eqn:E.
    + apply strip_prefix_spec in E. split; [|reflexivity].
      intros _. exists "", r. exact E.
    + rewrite IH. split.
      * intros (b & a & ->). exists (String d b), a. reflexivity.
      * intros (b & a & H). destruct b as [|d' b].
        -- rewrite append_nil_l in H.
           apply strip_prefix_spec in H. congruence.
        -- rewrite append_cons in H. injection H as _ ->. eauto.
Qed.

Lemma lower_app (a b : string) :
  PyStr.lower (a +:+ b) = PyStr.lower a +:+ PyStr.lower b.
Proof.
  induction a as [|c a IH]; [reflexivity|].
  rewrite append_cons. simpl. rewrite IH. reflexivity.
Qed.

Lemma lower_split (n a b : string) :
  PyStr.lower n = a +:+ b ->
  exists n1 n2, n = n1 +:+ n2 /\ PyStr.lower n1 = a /\ PyStr.lower n2 = b.
Proof.
  revert n. induction a as [|c a IH]; intros n H.
  - exists "", n. auto.
  - rewrite append_cons in H. destruct n as [|d n]; [discriminate|].
    simpl in H. injection H as Hc Hn.
    destruct (IH n Hn) as (n1 & n2 & -> & L1 & L2).
    exists (String d n1), n2. simpl. rewrite Hc, L1. auto.
Qed.

(** The test of line 118 is the containment of the query, letter case
    apart. *)
Lemma name_test_spec (query name : string) :
  PyStr.contains (PyStr.lower query) (PyStr.lower name) = true
  <-> contains_ignoring_case query name.
Proof.
  rewrite contains_spec. unfold contains_ignoring_case, same_ignoring_case.
  split.
  - intros (b & a & H).
    apply lower_split in H as (n1 & n2 & -> & L1 & L2).
    apply lower_split in L2 as (n3 & n4 & -> & L3 & L4).
    exists n1, n3, n4. auto.
  - intros (b & m & a & -> & L). rewrite !lower_app, L. eauto.
Qed.

(** ** The results of a comparison *)

Lemma change_of_percent_change (start_value end_value : float) :
  change_of start_value end_value
  = {| StartValue := start_value;
       EndValue := end_value;
       PercentageChange := percent_change start_value end_value |}.
Proof.
  unfold change_of, percent_change.
  now destruct (start_value =? 0)%float.
Qed.

Lemma analyse_item_report (start_items : list entry) (fund_name : string)
  (results : list change_result) (end_item : entry) :
  analyse_item (dict_by (fun item => ISIN (MutualFundDetails item)) start_items)
               fund_name results (ISIN (MutualFundDetails end_item), end_item)
  = results ++
    if PyStr.contains fund_name (PyStr.lower (Name (MutualFundDetails end_item)))
    then [report start_items end_item] else [].
Proof.
  unfold analyse_item, report. rewrite dict_by_get.
  destruct (PyStr.contains fund_name _); [|now rewrite app_nil_r].
  destruct (find_last _ _ start_items) as [start_item|]; [|reflexivity].
  simpl. unfold set_change, expected_changes. simpl.
  now rewrite !change_of_percent_change.
Qed.

Lemma dict_by_keys (items : list entry) (k : string) (h : entry) :
  In (k, h) (dict_by (fun item => ISIN (MutualFundDetails item)) items) ->
  k = ISIN (MutualFundDetails h).
Proof. intros H. now apply dict_by_items in H. Qed.

Lemma fold_analyse_items (start_items : list entry) (fund_name : string)
  (d : list (string * entry)) (results : list change_result) :
  (forall k h, In (k, h) d -> k = ISIN (MutualFundDetails h)) ->
  fold_left
    (analyse_item (dict_by (fun item => ISIN (MutualFundDetails item)) start_items)
                  fund_name) d results
  = results ++
    map (fun item => report start_items (snd item))
        (List.filter
           (fun item => PyStr.contains fund_name
                          (PyStr.lower (Name (MutualFundDetails (snd item))))) d).
Proof.
  revert results. induction d as [|[k h] d IH]; intros results Hk.
  - simpl. now rewrite app_nil_r.
  - assert (k = ISIN (MutualFundDetails h)) as -> by (apply Hk; now left).
    cbn [fold_left]. rewrite analyse_item_report.
    rewrite IH by (intros; apply Hk; now right).
    cbn [List.filter snd].
    destruct (PyStr.contains fund_name _); simpl.
    + now rewrite <- app_assoc.
    + now rewrite app_nil_r.
Qed.

Lemma calculate_changes_reports (fund_name : string)
  (start_items end_items : list entry) :
  calculate_changes fund_name start_items end_items
  = map (fun item => report start_items (snd item))
        (List.filter
           (fun item => PyStr.contains (PyStr.lower fund_name)
                          (PyStr.lower (Name (MutualFundDetails (snd item)))))
           (dict_by (fun item => ISIN (MutualFundDetails item)) end_items)).
Proof.
  unfold calculate_changes. rewrite fold_analyse_items; [reflexivity|].
  apply dict_by_keys.
Qed.

Lemma report_details (start_items : list entry) (end_item : entry) :
  FundDetails (report start_items end_item) = MutualFundDetails end_item.
Proof.
  unfold report. now destruct (find_last _ _ start_items).
Qed.

(** A result is in the list exactly when it is the report of a surviving
    holding of the end month whose name holds the query. *)
Lemma In_calculate_changes (fund_name : string)
  (start_items end_items : list entry) (r : change_result) :
  In r (calculate_changes fund_name start_items end_items) <->
  exists end_item,
    last_write_wins end_items end_item
    /\ contains_ignoring_case fund_name (Name (MutualFundDetails end_item))
    /\ r = report start_items end_item.
Proof.
  rewrite calculate_changes_reports, in_map_iff. split.
  - intros ([k h] & <- & Hin). apply filter_In in Hin as [Hin Hm].
    apply dict_by_items in Hin as [Hl _]. apply name_test_spec in Hm.
    exists h. auto.
  - intros (h & Hl & Hm & ->).
    exists (ISIN (MutualFundDetails h), h). split; [reflexivity|].
    apply filter_In. split.
    + apply dict_by_items. auto.
    + now apply name_test_spec.
Qed.

Lemma find_last_start (start_items : list entry) (start_item : entry)
  (k : string) :
  find_last (fun item => ISIN (MutualFundDetails item)) k start_items
  = Some start_item
  <-> last_write_wins start_items start_item
      /\ ISIN (MutualFundDetails start_item) = k.
Proof.
  rewrite find_last_Some. unfold last_write_wins. split.
  - intros (b & a & E & K & N). split; [|exact K].
    exists b, a. split; [exact E|]. now rewrite K.
  - intros [(b & a & E & N) K]. exists b, a. split; [exact E|].
    split; [exact K|]. now rewrite <- K.
Qed.

Lemma NoDup_map_filter {A B : Type} (g : A -> B) (f : A -> bool) (l : list A) :
  List.NoDup (map g l) -> List.NoDup (map g (List.filter f l)).
Proof.
  induction l as [|x l IH]; simpl; intros H; [exact H|].
  inversion H as [|? ? Hn Hd]; subst.
  destruct (f x); simpl; [|auto].
  constructor; [|auto]. intros Hin. apply Hn.
  apply in_map_iff in Hin as (y & E & Hy). apply filter_In in Hy as [Hy _].
  rewrite <- E. now apply in_map.
Qed.

Lemma calculate_changes_NoDup (fund_name : string)
  (start_items end_items : list entry) :
  List.NoDup (map (fun r => ISIN (FundDetails r))
                  (calculate_changes fund_name start_items end_items)).
Proof.
  rewrite calculate_changes_reports, map_map.
  erewrite map_ext_in.
  - apply NoDup_map_filter, dict_by_NoDup.
  - intros [k h] Hin. apply filter_In in Hin as [Hin _].
    apply dict_by_keys in Hin. simpl. now rewrite report_details.
Qed.

(** C9: between two valid labels present in the dictionary, the comparison
    returns a list whose fund details are exactly those of the holdings of
    the end month that survive the lookup (the last record of an identifier
    wins) and whose name holds the query, letter case apart; no identifier
    is reported twice. *)
Theorem search_reports_exactly_the_matches
  (fund_name start_month end_month : string) (st : State text)
  (start_items end_items : list entry) :
  validate_month_year start_month = true ->
  validate_month_year end_month = true ->
  data st !! start_month = Some start_items ->
  data st !! end_month = Some end_items ->
  exists results st',
    search_and_calculate_changes fund_name start_month end_month st
    = (Ok (Some results), st')
    /\ (forall d,
          In d (map FundDetails results) <->
          exists h, last_write_wins end_items h
                    /\ MutualFundDetails h = d
                    /\ contains_ignoring_case fund_name (Name d))
    /\ List.NoDup (map (fun r => ISIN (FundDetails r)) results).
Proof.
  intros Vs Ve Ds De.
  destruct (search_and_calculate_changes_ok fund_name _ _ _ _ _ Vs Ve Ds De)
    as (st' & E & _).
  eexists _, st'. split; [exact E|]. split; [|apply calculate_changes_NoDup].
  intros d. rewrite in_map_iff. split.
  - intros (r & <- & Hin). apply In_calculate_changes in Hin as (h & Hl & Hm & ->).
    exists h. rewrite report_details. auto.
  - intros (h & Hl & <- & Hm). exists (report start_items h).
    split; [apply report_details|]. apply In_calculate_changes. eauto.
Qed.



(** * Further properties *)

(** ** The storage file, the constructor and repeated imports *)

Lemma load_data_run (st : State text) :
  _load_data st =
  match storage st with
  | None => (Ok ∅, st)
  | Some t =>
      if can_read W then
        match loads t with
        | Some d => (Ok d, st)
        | None =>
            (Ok ∅, with_line st ("Warning: Could not decode " +:+ storage_file
                                 +:+ ". Starting with empty data."))
        end
      else
        (Ok ∅,
         with_line st ("Warning: Error reading " +:+ storage_file +:+ ": "
                       +:+ "cannot open the storage file for reading"
                       +:+ ". Starting with empty data."))
  end.
Proof.
  unfold _load_data, storage_exists, bind at 1.
  destruct st as [d [t|] out]; simpl; [|reflexivity].
  unfold try_except, read_storage. simpl.
  destruct (can_read W); [|reflexivity].
  destruct (loads t); reflexivity.
Qed.

(** X1: [_load_data] never raises and touches neither the dictionary in
    memory nor the storage file; it returns a non-empty dictionary only when
    the file exists, can be read and decodes to that dictionary; and it
    prints nothing, or exactly one warning, the warning only when it falls
    back to the empty dictionary although the file exists. *)
Theorem load_data_falls_back_to_empty (st : State text) :
  exists d st',
    _load_data st = (Ok d, st')
    /\ data st' = data st
    /\ storage st' = storage st
    /\ (d <> ∅ ->
        exists t, storage st = Some t /\ can_read W = true /\ loads t = Some d)
    /\ (stdout st' = stdout st
        \/ exists warning,
             stdout st' = stdout st ++ [warning]
             /\ d = ∅
             /\ storage st <> None).
Proof.
  rewrite load_data_run. destruct (storage st) as [t|] eqn:Es.
  - destruct (can_read W) eqn:Er.
    + destruct (loads t) as [d|] eqn:El.
      * exists d, st. repeat split; auto. intros _. exists t. auto.
      * eexists _, _. split; [reflexivity|]. repeat split; auto.
        -- intros H. now destruct H.
        -- right. eexists. repeat split. discriminate.
    + eexists _, _. split; [reflexivity|]. repeat split; auto.
      * intros H. now destruct H.
      * right. eexists. repeat split. discriminate.
  - exists ∅, st. repeat split; auto. intros H. now destruct H.
Qed.

(** X2: [_save_data] never raises and never changes the dictionary in
    memory; it returns whether the write succeeded. After a success the
    file holds the text of the dictionary. After a failure the file is as
    it was when the [open] failed, and holds what the failed write left
    when the failure came after the [open] had emptied it. Saving a second
    time gives the same result, dictionary and file as saving once. *)
Theorem save_data_is_idempotent (st : State text) :
  exists b st1 st2,
    _save_data st = (Ok b, st1)
    /\ _save_data st1 = (Ok b, st2)
    /\ b = can_write W
    /\ data st1 = data st
    /\ data st2 = data st
    /\ storage st2 = storage st1
    /\ (b = true -> storage st1 = Some (dumps (data st))
                    /\ stdout st2 = stdout st)
    /\ (b = false -> fails_after_open W = false -> storage st1 = storage st)
    /\ (b = false -> fails_after_open W = true ->
        storage st1 = Some (torn (dumps (data st)))).
Proof.
  rewrite save_data_run. unfold after_failed_write.
  destruct (can_write W) eqn:Ew.
  - eexists _, _, _. split; [reflexivity|]. rewrite save_data_run, Ew.
    split; [reflexivity|]. simpl. repeat split; auto; discriminate.
  - eexists _, _, _. split; [reflexivity|]. rewrite save_data_run, Ew.
    split; [reflexivity|]. unfold after_failed_write. simpl.
    destruct (fails_after_open W); repeat split; auto; discriminate.
Qed.

(** [__init__] holds what [_load_data] returned. *)
Lemma init_loads (st st1 : State text) (d : gmap string (list entry)) :
  _load_data st = (Ok d, st1) ->
  init st = (Ok tt, {| data := d; storage := storage st1; stdout := stdout st1 |}).
Proof. intros E. unfold init. now rewrite E. Qed.

(** An import is its plan, then the store and the save; the plan does not
    look at the state. *)
Lemma process_excel_data_plan (excel_file month_year : string) (st : State text) :
  process_excel_data excel_file month_year st =
  match import_plan excel_file month_year with
  | Raise e =>
      (Ok false,
       with_line st (nl +:+ "Error processing Excel file: " +:+ str_exn e))
  | Ok items =>
      if can_write W then
        (Ok true,
         {| data := <[month_year := items]> (data st);
            storage := Some (dumps (<[month_year := items]> (data st)));
            stdout := stdout st
              ++ [nl +:+ "Successfully processed data for " +:+ month_year] |})
      else
        (Ok false,
         {| data := <[month_year := items]> (data st);
            storage :=
              after_failed_write (dumps (<[month_year := items]> (data st)))
                                 (storage st);
            stdout := stdout st ++ ["Error saving data: " +:+ write_error] |})
  end.
Proof.
  rewrite process_excel_data_run, process_excel_data_try_run.
  unfold import_plan.
  destruct (validate_month_year month_year); simpl; [|reflexivity].
  destruct (path_exists W excel_file); simpl; [|reflexivity].
  destruct (read_excel W excel_file) as [df|e]; [|reflexivity].
  destruct (extract df) as [items|e]; [|reflexivity].
  destruct (can_write W); reflexivity.
Qed.

(** X4: imports under two different months commute: in either order they
    return the same two results and end with the same dictionary. (The file
    is left out: Python writes the months in the order of their first
    import, which the dictionary of the model does not keep.) *)
Theorem imports_of_different_months_commute
  (file1 month1 file2 month2 : string) (st : State text) :
  month1 <> month2 ->
  let first12 := process_excel_data file1 month1 st in
  let then12 := process_excel_data file2 month2 (snd first12) in
  let first21 := process_excel_data file2 month2 st in
  let then21 := process_excel_data file1 month1 (snd first21) in
  fst first12 = fst then21
  /\ fst then12 = fst first21
  /\ data (snd then12) = data (snd then21).
Proof.
  intros Hne. cbv zeta. rewrite !process_excel_data_plan.
  destruct (import_plan file1 month1) as [items1|e1];
    destruct (import_plan file2 month2) as [items2|e2];
    destruct (can_write W); simpl; repeat split; auto;
    apply insert_insert_ne; congruence.
Qed.

(** X5: importing the same file under the same month a second time changes
    neither the result, nor the dictionary, nor the storage file. *)
Theorem import_twice_is_import_once (excel_file month_year : string)
  (st : State text) :
  let once := process_excel_data excel_file month_year st in
  let twice := process_excel_data excel_file month_year (snd once) in
  fst twice = fst once
  /\ data (snd twice) = data (snd once)
  /\ storage (snd twice) = storage (snd once).
Proof.
  cbv zeta. rewrite !process_excel_data_plan. unfold after_failed_write.
  destruct (import_plan excel_file month_year) as [items|e];
    destruct (can_write W); destruct (fails_after_open W);
    simpl; repeat split; auto;
    first [ apply insert_insert_eq | do 2 f_equal; apply insert_insert_eq
          | do 3 f_equal; apply insert_insert_eq ].
Qed.

(** ** Records and dictionaries the import builds *)

Lemma rstrip_empty_blank (s : string) :
  PyStr.rstrip s = "" -> PyStr.all PyStr.isspace s = true.
Proof.
  induction s as [|c s IH]; simpl; [reflexivity|].
  destruct (PyStr.rstrip s) as [|d r]; [|discriminate].
  destruct (PyStr.isspace c); [|discriminate]. intros _. now apply IH.
Qed.

Lemma lstrip_blank (s : string) :
  PyStr.all PyStr.isspace s = true -> PyStr.lstrip s = "".
Proof.
  induction s as [|c s IH]; simpl; [reflexivity|].
  intros [-> H]%andb_prop. auto.
Qed.

Lemma record_of_clean (r : source_row) :
  kept r = true -> clean_entry (record_of r).
Proof.
  unfold kept, clean_entry. intros [_ Hk]%andb_prop. simpl.
  rewrite !coerced_not_nan. unfold trimmed_identifier in *.
  destruct (notna (row_isin r)); [|discriminate].
  rewrite !strip_strip. repeat split.
  intros E. now rewrite E in Hk.
Qed.

Lemma extract_inv (df : DataFrame) (items : list entry) :
  extract df = Ok items ->
  8 <= length (columns df)
  /\ items <> []
  /\ items = map record_of (List.filter kept (data_rows df)).
Proof.
  intros E. destruct (Nat.leb_spec 8 (length (columns df))) as [Hlen|Hlen].
  - split; [exact Hlen|].
    destruct (selection_table_of df Hlen) as (pd & Ei & Es).
    unfold extract in E. rewrite Ei, Es in E.
    rewrite (validate_excel_structure_after_rename _ _ Es) in E.
    simpl in E. rewrite build_month_data_table_of in E.
    destruct (map record_of (List.filter kept (data_rows df))) as [|e l];
      [discriminate|]. injection E as <-. split; [discriminate | reflexivity].
  - unfold extract, iloc in E. simpl in E.
    destruct (Nat.ltb_spec 7 (length (columns df))) as [|_]; [lia|].
    rewrite !andb_false_r in E. discriminate.
Qed.

(** X6: every record of an extracted list has its name, identifier and
    category trimmed of surrounding blanks, a non-empty identifier, and three
    numbers none of which is NaN; and an extracted list is never empty. *)
Theorem extract_gives_clean_records (df : DataFrame) (items : list entry) :
  extract df = Ok items ->
  items <> [] /\ Forall clean_entry items.
Proof.
  intros E. apply extract_inv in E as (_ & Hne & ->). split; [exact Hne|].
  apply List.Forall_forall. intros e He.
  apply in_map_iff in He as (r & <- & Hr). apply filter_In in Hr as [_ Hk].
  now apply record_of_clean.
Qed.

Lemma import_plan_inv (excel_file month_year : string) (items : list entry) :
  import_plan excel_file month_year = Ok items ->
  validate_month_year month_year = true
  /\ exists df, read_excel W excel_file = Ok df /\ extract df = Ok items.
Proof.
  unfold import_plan.
  destruct (validate_month_year month_year); [|discriminate].
  destruct (path_exists W excel_file); [|discriminate]. simpl.
  destruct (read_excel W excel_file) as [df|e]; [|discriminate].
  intros E. eauto.
Qed.

(** X7: an import keeps the dictionary in the shape imports give it: if
    every key is a label [validate_month_year] accepts and every list is
    non-empty and holds clean records, the same is true after
    [process_excel_data], whatever its outcome. *)
Theorem import_keeps_snapshot_shape (excel_file month_year : string)
  (st : State text) :
  imported_snapshot (data st) ->
  imported_snapshot (data (snd (process_excel_data excel_file month_year st))).
Proof.
  intros Hd. rewrite process_excel_data_plan.
  destruct (import_plan excel_file month_year) as [items|e] eqn:Ep;
    [|exact Hd].
  apply import_plan_inv in Ep as (Hv & df & _ & Ex).
  apply extract_inv in Ex as (_ & Hne & ->).
  assert (Forall clean_entry (map record_of (List.filter kept (data_rows df)))).
  { apply List.Forall_forall. intros e He.
    apply in_map_iff in He as (r & <- & Hr). apply filter_In in Hr as [_ Hk].
    now apply record_of_clean. }
  destruct (can_write W); simpl; apply map_Forall_insert_2; auto.
Qed.

Lemma collect_numeric_rows (rs : list source_row) :
  collect_entries (table_of (map numeric_row rs))
  = map record_of (List.filter kept rs).
Proof.
  unfold collect_entries. rewrite fold_left_collect. simpl.
  rewrite map_map, filter_map_comm, map_map.
  rewrite (filter_ext kept (fun r => PyStr.truthy (trimmed_identifier r)))
    by (intros r; apply kept_has_identifier).
  rewrite (filter_ext (fun r => has_isin required_columns (cells_of (numeric_row r)))
                      (fun r => PyStr.truthy (trimmed_identifier r)))
    by (intros r; apply has_isin_numeric_row).
  apply map_ext_in. intros r Hr. apply filter_In in Hr as [_ Hk].
  apply entry_of_numeric_row. unfold trimmed_identifier in Hk.
  destruct (notna (row_isin r)); [reflexivity | discriminate].
Qed.

(** X8: dropping the blank rows changes nothing: on a selected table the
    list built with [dropna] is the list the loop collects without it,
    because a blank row has no identifier. *)
Theorem dropna_changes_nothing (rs : list source_row) :
  build_month_data (table_of rs)
  = collect_entries
      (fold_left (fun df col => map_column to_numeric col df)
                 ["Quantity"; "MarketValue"; "PercentNAV"] (table_of rs)).
Proof.
  now rewrite build_month_data_table_of, to_numeric_table_of,
    collect_numeric_rows.
Qed.

(** X9: an extracted list has at least one record and at most one per row
    after the sixth; so a sheet of at most six rows that has the eight
    columns always fails with the no-data error. *)
Theorem extract_needs_a_seventh_row (df : DataFrame) :
  (forall items, extract df = Ok items ->
                 1 <= length items <= length (rows df) - 6)
  /\ (8 <= length (columns df) -> length (rows df) <= 6 ->
      extract df = Raise (ValueError "No valid data found in Excel file")).
Proof.
  split.
  - intros items E. apply extract_inv in E as (_ & Hne & ->). split.
    + destruct (map record_of (List.filter kept (data_rows df)));
        [congruence | simpl; lia].
    + rewrite length_map. etransitivity; [apply filter_length_le|].
      unfold data_rows. rewrite length_map, length_skipn. lia.
  - intros Hc Hr. destruct (selection_table_of df Hc) as (pd & Ei & Es).
    unfold extract. rewrite Ei, Es.
    rewrite (validate_excel_structure_after_rename _ _ Es). simpl.
    rewrite build_month_data_table_of. unfold data_rows.
    rewrite skipn_all2 by exact Hr. reflexivity.
Qed.

(** ** What a comparison prints and returns *)

Lemma emits_print (line : string) : emits (print line) 1.
Proof. intros st. exists tt, [line]. split; reflexivity. Qed.

Lemma emits_ret {A : Type} (a : A) : emits (ret a) 0.
Proof.
  intros st. exists a, []. split; [|reflexivity].
  unfold ret. now rewrite app_nil_r; destruct st.
Qed.

Lemma emits_bind {A B : Type} (m : M A) (k : A -> M B) (n p : nat) :
  emits m n -> (forall a, emits (k a) p) -> emits (bind m k) (n + p).
Proof.
  intros Hm Hk st. destruct (Hm st) as (a & out1 & E1 & L1).
  destruct (Hk a {| data := data st; storage := storage st;
                    stdout := stdout st ++ out1 |}) as (b & out2 & E2 & L2).
  exists b, (out1 ++ out2). unfold bind. rewrite E1, E2. simpl.
  rewrite <- app_assoc, length_app. split; [reflexivity | lia].
Qed.

Lemma emits_for_each {A : Type} (l : list A) (body : A -> M unit)
  (lines : A -> nat) :
  (forall x, emits (body x) (lines x)) ->
  emits (for_each l body) (list_sum (map lines l)).
Proof.
  intros Hb. induction l as [|x l IH]; simpl.
  - apply emits_ret.
  - apply emits_bind; auto.
Qed.

Lemma emits_print_change (item : string * change) : emits (print_change item) 4.
Proof.
  destruct item as [metric values]. unfold print_change.
  change 4 with (1 + (1 + (1 + 1))).
  repeat (apply emits_bind; [apply emits_print | intros _]).
  destruct (PercentageChange values); apply emits_print.
Qed.

Lemma list_sum_const {A : Type} (l : list A) (n : nat) :
  list_sum (map (fun _ => n) l) = n * length l.
Proof. induction l as [|x l IH]; simpl; lia. Qed.

Lemma emits_print_result (result : change_result) :
  emits (print_result result) (result_lines result).
Proof.
  unfold print_result, result_lines.
  destruct (String.eqb (Status result) "New Addition").
  - change 6 with (1 + (1 + (1 + (1 + (1 + 1))))).
    repeat (apply emits_bind; [apply emits_print | intros _]).
    apply emits_print.
  - replace (6 + 4 * length (Changes result))
      with (1 + (1 + (1 + (1 + (1 + (4 * length (Changes result) + 1)))))) by lia.
    repeat (apply emits_bind; [apply emits_print | intros _]).
    apply emits_bind; [|intros _; apply emits_print].
    rewrite <- list_sum_const. apply emits_for_each, emits_print_change.
Qed.

Lemma emits_print_analysis_results (results : list change_result)
  (start_month end_month : string) :
  emits (_print_analysis_results results start_month end_month)
        (2 + list_sum (map result_lines results)).
Proof.
  unfold _print_analysis_results.
  change (2 + ?n) with (1 + (1 + n)).
  repeat (apply emits_bind; [apply emits_print | intros _]).
  apply emits_for_each, emits_print_result.
Qed.

(** X10: [_print_analysis_results] never raises, leaves the dictionary and
    the storage file alone, and writes two heading lines, then six lines for
    a result with status ["New Addition"] and six plus four per change
    record for any other result: eighteen for an existing holding. *)
Theorem print_analysis_results_line_count (results : list change_result)
  (start_month end_month : string) (st : State text) :
  exists out,
    _print_analysis_results results start_month end_month st
    = (Ok tt, {| data := data st; storage := storage st;
                 stdout := stdout st ++ out |})
    /\ length out = 2 + list_sum (map result_lines results)
    /\ forall r, In r results ->
         (Status r = "New Addition" -> result_lines r = 6)
         /\ (Status r = "Existing" -> length (Changes r) = 3 ->
             result_lines r = 18).
Proof.
  destruct (emits_print_analysis_results results start_month end_month st)
    as ([] & out & E & L).
  exists out.
  split; [exact E|]. split; [exact L|].
  intros r _. unfold result_lines. split.
  - intros ->. reflexivity.
  - intros -> ->. reflexivity.
Qed.

(** A comparison that returns a list found both months under valid labels
    and returns what the loop computes from their lists. *)
Lemma search_success_inv (fund_name start_month end_month : string)
  (st st' : State text) (results : list change_result) :
  search_and_calculate_changes fund_name start_month end_month st
  = (Ok (Some results), st') ->
  validate_month_year start_month = true
  /\ validate_month_year end_month = true
  /\ exists start_items end_items,
       data st !! start_month = Some start_items
       /\ data st !! end_month = Some end_items
       /\ results = calculate_changes fund_name start_items end_items.
Proof.
  intros E.
  destruct (validate_month_year start_month) eqn:Vs;
    [destruct (validate_month_year end_month) eqn:Ve|].
  - destruct (data st !! start_month) as [start_items|] eqn:Ds;
      [destruct (data st !! end_month) as [end_items|] eqn:De|].
    + destruct (search_and_calculate_changes_ok fund_name _ _ _ _ _ Vs Ve Ds De)
        as (st2 & E2 & _).
      rewrite E2 in E. injection E as <- _. eauto 10.
    + exfalso. revert E.
      unfold search_and_calculate_changes, try_except, bind at 1,
        search_and_calculate_changes_try.
      simpl. rewrite Vs, Ve. simpl. unfold bind at 1, get_data at 1.
      rewrite Ds, De. discriminate.
    + exfalso. revert E.
      unfold search_and_calculate_changes, try_except, bind at 1,
        search_and_calculate_changes_try.
      simpl. rewrite Vs, Ve. simpl. unfold bind at 1, get_data at 1.
      rewrite Ds. discriminate.
  - exfalso. revert E.
    unfold search_and_calculate_changes, try_except, bind at 1,
      search_and_calculate_changes_try.
    simpl. rewrite Vs, Ve. discriminate.
  - exfalso. revert E.
    unfold search_and_calculate_changes, try_except, bind at 1,
      search_and_calculate_changes_try.
    simpl. rewrite Vs. discriminate.
Qed.

(** X11: [search_and_calculate_changes] is read-only: whatever its arguments
    it returns with the dictionary and the storage file as they were, and it
    only appends to the output, at least one line (the analysis heading or
    the error line). *)
Theorem search_is_read_only (fund_name start_month end_month : string)
  (st : State text) :
  exists r out,
    search_and_calculate_changes fund_name start_month end_month st
    = (Ok r, {| data := data st; storage := storage st;
                stdout := stdout st ++ out |})
    /\ out <> [].
Proof.
  unfold search_and_calculate_changes, try_except, bind at 1.
  unfold search_and_calculate_changes_try.
  destruct (negb (forallb validate_month_year [start_month; end_month])).
  { eexists _, [_]. split; [reflexivity | discriminate]. }
  unfold bind at 1, get_data at 1.
  destruct (data st !! start_month) as [start_items|].
  2:{ eexists _, [_]. split; [reflexivity | discriminate]. }
  destruct (data st !! end_month) as [end_items|].
  2:{ eexists _, [_]. split; [reflexivity | discriminate]. }
  destruct (emits_print_analysis_results
              (calculate_changes fund_name start_items end_items)
              start_month end_month st) as ([] & out & E & L).
  unfold bind at 1. rewrite E. eexists _, out. split; [reflexivity|].
  intros ->. simpl in L. lia.
Qed.

(** ** The results of a comparison, further *)

Lemma report_shape (start_items : list entry) (end_item : entry) :
  (Status (report start_items end_item) = "New Addition"
   /\ Changes (report start_items end_item) = [])
  \/ (Status (report start_items end_item) = "Existing"
      /\ map fst (Changes (report start_items end_item))
         = ["Quantity"; "MarketValueInLakhs"; "%ToNAV"]
      /\ Forall (fun kc =>
                   (PercentageChange (snd kc) = None
                    <-> (StartValue (snd kc) =? 0)%float = true))
                (Changes (report start_items end_item))).
Proof.
  unfold report.
  destruct (find_last _ _ start_items) as [start_item|]; [right | left; auto].
  split; [reflexivity|]. split; [reflexivity|].
  unfold expected_changes, percent_change. simpl.
  repeat constructor; simpl;
    match goal with
    | |- context [(?x =? 0)%float] => destruct (x =? 0)%float
    end; try reflexivity; discriminate.
Qed.

(** X12: every result of a comparison has one of two shapes: status
    ["New Addition"] with no change record, or status ["Existing"] with the
    three change records keyed Quantity, MarketValueInLakhs and %ToNAV in
    this order, whose percentage is [None] exactly when the start value
    equals zero. The printer's test on the status therefore never meets a
    new addition that carries changes. *)
Theorem search_results_have_two_shapes
  (fund_name start_month end_month : string) (st st' : State text)
  (results : list change_result) :
  search_and_calculate_changes fund_name start_month end_month st
  = (Ok (Some results), st') ->
  Forall
    (fun r =>
       (Status r = "New Addition" /\ Changes r = [])
       \/ (Status r = "Existing"
           /\ map fst (Changes r) = ["Quantity"; "MarketValueInLakhs"; "%ToNAV"]
           /\ Forall (fun kc =>
                        (PercentageChange (snd kc) = None
                         <-> (StartValue (snd kc) =? 0)%float = true))
                     (Changes r)))
    results.
Proof.
  intros E.
  apply search_success_inv in E as (_ & _ & S & En & _ & _ & ->).
  apply List.Forall_forall. intros r Hr.
  apply In_calculate_changes in Hr as (end_item & _ & _ & ->).
  apply report_shape.
Qed.

Lemma dict_set_fresh {V : Type} (d : list (string * V)) (k : string) (v : V) :
  ~ In k (map fst d) -> dict_set d k v = d ++ [(k, v)].
Proof.
  induction d as [|[k0 v0] d IH]; simpl; intros H; [reflexivity|].
  destruct (String.eqb_spec k k0) as [->|N].
  - exfalso. apply H. now left.
  - rewrite IH; [reflexivity|]. intros Hin. apply H. now right.
Qed.

Lemma dict_fold_distinct {A : Type} (key : A -> string) (l : list A)
  (d0 : list (string * A)) :
  List.NoDup (map fst d0 ++ map key l) ->
  fold_left (fun d x => dict_set d (key x) x) l d0
  = d0 ++ map (fun x => (key x, x)) l.
Proof.
  revert d0. induction l as [|x l IH]; intros d0 H; simpl.
  - now rewrite app_nil_r.
  - simpl in H. rewrite dict_set_fresh.
    + rewrite IH.
      * now rewrite <- app_assoc.
      * rewrite map_app. simpl. rewrite <- app_assoc. exact H.
    + apply NoDup_remove_2 in H. intros Hin. apply H.
      apply in_or_app. now left.
Qed.

(** With distinct keys the lookup lists the records in their order. *)
Lemma dict_by_distinct {A : Type} (key : A -> string) (l : list A) :
  List.NoDup (map key l) -> dict_by key l = map (fun x => (key x, x)) l.
Proof.
  intros H. unfold dict_by. now rewrite dict_fold_distinct.
Qed.

(** X13: when the identifiers of the end month are distinct, the results
    come in the order of the stored list: their fund details are those of
    the records whose name passes the test, in list order (so there are at
    most as many results as records). *)
Theorem search_results_follow_list_order
  (fund_name start_month end_month : string) (st st' : State text)
  (results : list change_result) (end_items : list entry) :
  search_and_calculate_changes fund_name start_month end_month st
  = (Ok (Some results), st') ->
  data st !! end_month = Some end_items ->
  List.NoDup (map (fun item => ISIN (MutualFundDetails item)) end_items) ->
  map FundDetails results
  = map MutualFundDetails (List.filter (name_matches fund_name) end_items)
  /\ length results <= length end_items.
Proof.
  intros E De Hnd.
  apply search_success_inv in E as (_ & _ & S & En & _ & De' & ->).
  rewrite De in De'. injection De' as <-.
  assert (H : map FundDetails (calculate_changes fund_name S end_items)
              = map MutualFundDetails
                    (List.filter (name_matches fund_name) end_items)).
  { rewrite calculate_changes_reports, (dict_by_distinct _ _ Hnd).
    rewrite filter_map_comm, !map_map. simpl.
    apply map_ext. intros h. apply report_details. }
  split; [exact H|].
  rewrite <- (length_map FundDetails), H, length_map. apply filter_length_le.
Qed.

Lemma contains_empty_query (name : string) : contains_ignoring_case "" name.
Proof. exists "", "", name. split; reflexivity. Qed.

(** X14: an empty query matches every name: the comparison then reports
    every record of the end month that survives the lookup. *)
Theorem empty_query_reports_every_holding
  (start_month end_month : string) (st st' : State text)
  (results : list change_result) (end_items : list entry) :
  search_and_calculate_changes "" start_month end_month st
  = (Ok (Some results), st') ->
  data st !! end_month = Some end_items ->
  forall h, last_write_wins end_items h ->
            In (MutualFundDetails h) (map FundDetails results).
Proof.
  intros E De h Hl.
  apply search_success_inv in E as (_ & _ & S & En & _ & De' & ->).
  rewrite De in De'. injection De' as <-.
  apply in_map_iff. exists (report S h). split; [apply report_details|].
  apply In_calculate_changes. exists h.
  split; [exact Hl|]. split; [apply contains_empty_query | reflexivity].
Qed.

Lemma append_assoc (a b c : string) : (a +:+ b) +:+ c = a +:+ (b +:+ c).
Proof.
  induction a as [|x a IH]; [reflexivity|].
  rewrite !append_cons. now rewrite IH.
Qed.

Lemma contains_ignoring_case_trans (a b name : string) :
  contains_ignoring_case a b -> contains_ignoring_case b name ->
  contains_ignoring_case a name.
Proof.
  unfold contains_ignoring_case, same_ignoring_case.
  intros (b1 & m1 & a1 & -> & L1) (b2 & m2 & a2 & -> & L2).
  rewrite !lower_app in L2.
  apply lower_split in L2 as (x1 & r1 & -> & Lx1 & Lr1).
  apply lower_split in Lr1 as (x2 & x3 & -> & Lx2 & Lx3).
  exists (b2 +:+ x1), x2, (x3 +:+ a2). split.
  - now rewrite !append_assoc.
  - congruence.
Qed.

(** X15: narrowing the query narrows the result: if a query is contained,
    letter case apart, in a second query, every result of the comparison
    with the second query is a result of the comparison with the first. *)
Theorem wider_query_keeps_results
  (query wider_query start_month end_month : string) (st st2 : State text)
  (results2 : list change_result) :
  contains_ignoring_case wider_query query ->
  search_and_calculate_changes query start_month end_month st
  = (Ok (Some results2), st2) ->
  exists results1 st1,
    search_and_calculate_changes wider_query start_month end_month st
    = (Ok (Some results1), st1)
    /\ forall r, In r results2 -> In r results1.
Proof.
  intros Hq E.
  apply search_success_inv in E as (Vs & Ve & S & En & Ds & De & ->).
  destruct (search_and_calculate_changes_ok wider_query _ _ _ _ _ Vs Ve Ds De)
    as (st1 & E1 & _).
  eexists _, st1. split; [exact E1|].
  intros r Hr. apply In_calculate_changes in Hr as (h & Hl & Hm & ->).
  apply In_calculate_changes. exists h. split; [exact Hl|].
  split; [|reflexivity]. eapply contains_ignoring_case_trans; eauto.
Qed.

(** X16: comparing a month with itself reports no new addition: every
    result has status ["Existing"] and, in each of its change records, an
    end value equal to the start value. *)
Theorem same_month_reports_only_existing
  (fund_name month : string) (st st' : State text)
  (results : list change_result) :
  search_and_calculate_changes fund_name month month st
  = (Ok (Some results), st') ->
  Forall
    (fun r =>
       Status r = "Existing"
       /\ Forall (fun kc => EndValue (snd kc) = StartValue (snd kc))
                 (Changes r))
    results.
Proof.
  intros E.
  apply search_success_inv in E as (_ & _ & S & En & Ds & De & ->).
  rewrite Ds in De. injection De as <-.
  apply List.Forall_forall. intros r Hr.
  apply In_calculate_changes in Hr as (h & Hl & _ & ->).
  unfold report.
  rewrite (proj2 (find_last_start S h _) (conj Hl eq_refl)).
  split; [reflexivity|]. simpl. repeat constructor.
Qed.

(** ** The menu loop *)

(** X17: the months the analysis menu lists are the keys of the dictionary,
    each once, in ascending order of their code points (the order of the
    strings, not of the calendar). *)
Theorem listed_months_are_the_sorted_keys (d : gmap string (list entry)) :
  StronglySorted String.le (sorted_months d)
  /\ List.NoDup (sorted_months d)
  /\ forall month, In month (sorted_months d) <-> is_Some (d !! month).
Proof.
  unfold sorted_months, sorted. split; [|split].
  - apply StronglySorted_merge_sort; apply _.
  - apply NoDup_ListNoDup. rewrite merge_sort_Permutation.
    apply NoDup_fst_map_to_list.
  - intros month. rewrite <- list_elem_of_In, merge_sort_Permutation.
    rewrite list_elem_of_In, in_map_iff. split.
    + intros ([k items] & <- & Hin). apply list_elem_of_In in Hin.
      apply elem_of_map_to_list in Hin. simpl. eauto.
    + intros [items Hl]. exists (month, items). split; [reflexivity|].
      apply list_elem_of_In. now apply elem_of_map_to_list.
Qed.

Lemma print_lines_data (lines : list string) (st : State text) :
  data (print_lines lines st) = data st
  /\ storage (print_lines lines st) = storage st.
Proof.
  revert st. unfold print_lines.
  induction lines as [|l lines IH]; intros st; simpl; [auto|].
  destruct (IH (with_line st l)) as [-> ->]. auto.
Qed.

(** The ways [input_then] ends. *)
Lemma input_then_cases (P : step * list key * State text -> Prop)
  (prompt : string) (stdin : list key) (st : State text)
  (rest : string -> list key -> State text -> step * list key * State text) :
  (stdin = [] ->
   P (Continue, [],
      unexpected_error (OtherError "EOFError" "EOF when reading a line")
                       (with_line st prompt))) ->
  (forall stdin', stdin = Interrupt :: stdin' ->
                  P (Break, stdin', interrupted (with_line st prompt))) ->
  (forall s stdin', stdin = Line s :: stdin' ->
                    P (rest (PyStr.strip s) stdin' (with_line st prompt))) ->
  P (input_then prompt stdin st rest).
Proof.
  intros He Hi Hl. unfold input_then.
  destruct stdin as [|[s|] stdin']; auto.
Qed.

Lemma call_cases {A : Type} (P : step * list key * State text -> Prop)
  (m : M A) (stdin : list key) (st : State text)
  (rest : A -> State text -> step * list key * State text) :
  (forall a st', m st = (Ok a, st') -> P (rest a st')) ->
  (forall e st', m st = (Raise e, st') ->
                 P (Continue, stdin, unexpected_error e st')) ->
  P (call m stdin st rest).
Proof.
  intros Ho Hr. unfold call. destruct (m st) as [[a|e] st']; auto.
Qed.

(** An iteration that reads no leaving key continues, and leaves none to
    read. *)
Lemma main_step_stays (stdin : list key) (st : State text) :
  forallb (fun k => negb (leaves k)) stdin = true ->
  stays (main_step stdin st).
Proof.
  intros H. unfold main_step.
  apply input_then_cases;
    [ intros ->; now eexists _, _
    | intros stdin' ->; discriminate H
    | intros s stdin' ->; simpl in H; apply andb_prop in H as [Hs H] ].
  apply negb_true_iff in Hs.
  repeat first
    [ apply input_then_cases;
      [ intros ->; now eexists _, _
      | intros ? ->; discriminate H
      | let Hx := fresh "Hx" in
        intros ? ? ->; simpl in H; apply andb_prop in H as [Hx H] ]
    | apply call_cases; intros
    | match goal with
      | |- stays (if ?b then _ else _) => destruct b eqn:?
      end
    | exfalso; congruence
    | solve [now eexists _, _] ].
Qed.

(** X18: the loop ends only through a choice of [3] or an interrupt: on a
    keyboard with no interrupt and no line that is [3] once trimmed, it is
    still running after any number of iterations, also when the input is
    at its end (each [EOFError] is caught and the menu is shown again). *)
Theorem main_loop_runs_without_leaving_key (fuel : nat) (stdin : list key)
  (st : State text) :
  forallb (fun k => negb (leaves k)) stdin = true ->
  main_loop fuel stdin st = Running.
Proof.
  revert stdin st. induction fuel as [|fuel IH]; intros stdin st H;
    [reflexivity|].
  simpl. destruct (main_step_stays stdin st H) as (stdin' & st' & -> & H').
  now apply IH.
Qed.

Lemma search_keeps_state (fund_name start_month end_month : string)
  (st st' : State text) (r : result (option (list change_result))) :
  search_and_calculate_changes fund_name start_month end_month st = (r, st') ->
  data st' = data st /\ storage st' = storage st.
Proof.
  unfold search_and_calculate_changes, try_except, bind at 1.
  unfold search_and_calculate_changes_try.
  destruct (negb (forallb validate_month_year [start_month; end_month])).
  { intros [= _ <-]. auto. }
  unfold bind at 1, get_data at 1.
  destruct (data st !! start_month) as [start_items|];
    [|intros [= _ <-]; auto].
  destruct (data st !! end_month) as [end_items|];
    [|intros [= _ <-]; auto].
  destruct (quiet_print_analysis_results
              (calculate_changes fund_name start_items end_items)
              start_month end_month st) as ([] & st2 & E & D & S).
  unfold bind at 1. rewrite E. intros [= _ <-]. auto.
Qed.

(** An iteration that reads no request for an import ends with the
    dictionary and the storage file it started with. *)
Lemma main_step_keeps (stdin : list key) (st : State text) :
  forallb (fun k => negb (asks_import k)) stdin = true ->
  keeps (data st) (storage st) (main_step stdin st).
Proof.
  intros H. unfold main_step.
  apply input_then_cases;
    [ intros ->; now repeat split
    | intros stdin' ->; now repeat split
    | intros s stdin' ->; simpl in H; apply andb_prop in H as [Hs H] ].
  apply negb_true_iff in Hs.
  destruct (String.eqb (PyStr.strip s) "1"); [discriminate|].
  destruct (String.eqb (PyStr.strip s) "2");
    [|destruct (String.eqb (PyStr.strip s) "3"); now repeat split].
  destruct (bool_decide _); [now repeat split|].
  match goal with
  | |- context [print_lines ?l ?s] =>
      destruct (print_lines_data l s) as [Dp Sp];
      generalize dependent (print_lines l s)
  end.
  intros st1 D1 S1. simpl in D1, S1.
  repeat first
    [ apply input_then_cases;
      [ intros ->; now repeat split
      | intros ? ->; simpl in H; now repeat split
      | let Hx := fresh "Hx" in
        intros ? ? ->; simpl in H; apply andb_prop in H as [Hx H] ]
    | apply call_cases; intros ].
  - apply search_keeps_state in H0 as [D S]. simpl in D, S.
    repeat split; simpl; congruence.
  - apply search_keeps_state in H0 as [D S]. simpl in D, S.
    repeat split; simpl; congruence.
Qed.

(** X19: the loop changes the dictionary and the storage file only through
    an import: on a keyboard with no line that is [1] once trimmed, the loop,
    if it ends, ends with the dictionary and the file it started with. *)
Theorem main_loop_changes_data_only_by_import (fuel : nat)
  (stdin stdin' : list key) (st st' : State text) :
  forallb (fun k => negb (asks_import k)) stdin = true ->
  main_loop fuel stdin st = Exited stdin' st' ->
  data st' = data st /\ storage st' = storage st.
Proof.
  revert stdin st. induction fuel as [|fuel IH]; intros stdin st H E;
    [discriminate|].
  simpl in E. destruct (main_step_keeps stdin st H) as (D & S & H').
  destruct (main_step stdin st) as [[[] stdin1] st1]; simpl in *.
  - apply IH in E as [-> ->]; auto.
  - injection E as _ <-. auto.
Qed.
End Manager.
(** ** The JSON text of the dictionary is read back

    [json.load] after [json.dump]: the scanner on the text the encoder
    wrote. *)

Module JsonFacts.
Import Json.

Lemma append_nil_r (s : string) : s +:+ "" = s.
Proof. induction s as [|c s IH]; [reflexivity|]. rewrite append_cons, IH. reflexivity. Qed.

Lemma length_append (a b : string) :
  String.length (a +:+ b) = String.length a + String.length b.
Proof.
  induction a as [|c a IH]; [reflexivity|].
  rewrite append_cons. simpl. rewrite IH. reflexivity.
Qed.

Lemma skip_ws_indent (n : nat) (s : string) :
  skip_ws (string_of_list_ascii (repeat " "%char n) +:+ s) = skip_ws s.
Proof. induction n as [|n IH]; [reflexivity|]. exact IH. Qed.

Lemma skip_ws_newline_indent (level : nat) (s : string) :
  skip_ws (newline_indent level +:+ s) = skip_ws s.
Proof. exact (skip_ws_indent (4 * level) s). Qed.

Lemma scan_string_escape_char (c : ascii) (t : string) :
  scan_string (escape_char c +:+ t)
  = match scan_string t with
    | Some (k, r) => Some (String c k, r)
    | None => None
    end.
Proof.
  destruct c as [[] [] [] [] [] [] [] []]; reflexivity.
Qed.

Lemma scan_string_escape (s rest : string) :
  scan_string (escape s +:+ String quote rest) = Some (s, rest).
Proof.
  induction s as [|c s IH]; [reflexivity|].
  simpl escape. rewrite append_assoc, scan_string_escape_char, IH. reflexivity.
Qed.


Lemma delimited_inv (rest : string) :
  delimited rest ->
  rest = "" \/ exists c r, rest = String c r /\ (c = ","%char \/ c = newline).
Proof. destruct rest as [|c r]; [now left|]. intros H. right. now exists c, r. Qed.

Lemma span_digits_app (t rest : string) :
  delimited rest ->
  span_digits (t +:+ rest)
  = (fst (span_digits t), snd (span_digits t) +:+ rest).
Proof.
  intros H. induction t as [|c t IH].
  - destruct (delimited_inv _ H) as [->|(c & r & -> & [->| ->])]; reflexivity.
  - rewrite append_cons. simpl. destruct (is_digit c); [|reflexivity].
    rewrite IH. destruct (span_digits t). reflexivity.
Qed.

Lemma scan_integer_app (t rest : string) :
  delimited rest ->
  scan_integer (t +:+ rest)
  = match scan_integer t with
    | Some (ds, r) => Some (ds, r +:+ rest)
    | None => None
    end.
Proof.
  intros H. destruct t as [|c t].
  - destruct (delimited_inv _ H) as [->|(c & r & -> & [->| ->])]; reflexivity.
  - rewrite append_cons. unfold scan_integer.
    destruct (Ascii.eqb c "0"); [reflexivity|].
    destruct (is_digit c); [|reflexivity].
    rewrite <- append_cons, (span_digits_app _ _ H).
    destruct (span_digits (String c t)). reflexivity.
Qed.

Lemma scan_fraction_app (t rest : string) :
  delimited rest ->
  scan_fraction (t +:+ rest)
  = match scan_fraction t with
    | Some (ds, r) => Some (ds, r +:+ rest)
    | None => None
    end.
Proof.
  intros H. destruct t as [|c t].
  - destruct (delimited_inv _ H) as [->|(c & r & -> & [->| ->])]; reflexivity.
  - rewrite append_cons. unfold scan_fraction.
    destruct (Ascii.eqb c ".") eqn:E.
    + apply Ascii.eqb_eq in E as ->. rewrite (span_digits_app _ _ H).
      destruct (span_digits t) as [[|d ds] r]; reflexivity.
    + destruct c as [[] [] [] [] [] [] [] []]; try reflexivity; discriminate E.
Qed.

Lemma exponent_value_app (negative : bool) (t rest : string) :
  delimited rest ->
  exponent_value negative (t +:+ rest)
  = match exponent_value negative t with
    | Some (e, r) => Some (e, r +:+ rest)
    | None => None
    end.
Proof.
  intros H. unfold exponent_value. rewrite (span_digits_app _ _ H).
  destruct (span_digits t) as [[|d ds] r]; reflexivity.
Qed.

Lemma scan_exponent_app (t rest : string) :
  delimited rest ->
  scan_exponent (t +:+ rest)
  = match scan_exponent t with
    | Some (e, r) => Some (e, r +:+ rest)
    | None => None
    end.
Proof.
  intros H. destruct t as [|c t].
  - destruct (delimited_inv _ H) as [->|(c & r & -> & [->| ->])]; reflexivity.
  - rewrite append_cons. unfold scan_exponent.
    destruct (Ascii.eqb c "e" || Ascii.eqb c "E"); [|reflexivity].
    destruct t as [|d t].
    + destruct (delimited_inv _ H) as [->|(c' & r & -> & [->| ->])]; reflexivity.
    + rewrite append_cons.
      destruct (Ascii.eqb d "-") eqn:E1.
      { apply Ascii.eqb_eq in E1 as ->. apply (exponent_value_app _ _ _ H). }
      destruct (Ascii.eqb d "+") eqn:E2.
      { apply Ascii.eqb_eq in E2 as ->. apply (exponent_value_app _ _ _ H). }
      rewrite <- append_cons.
      pose proof (exponent_value_app false (String d t) _ H) as G.
      destruct d as [[] [] [] [] [] [] [] []]; try exact G; discriminate.
Qed.

Lemma scan_unsigned_app (negative : bool) (t rest : string) :
  delimited rest ->
  scan_unsigned negative (t +:+ rest)
  = match scan_unsigned negative t with
    | Some (v, r) => Some (v, r +:+ rest)
    | None => None
    end.
Proof.
  intros H. unfold scan_unsigned, optional.
  rewrite (scan_integer_app _ _ H).
  destruct (scan_integer t) as [[int_digits s2]|]; [|reflexivity].
  rewrite (scan_fraction_app _ _ H).
  destruct (scan_fraction s2) as [[fd s3]|];
    rewrite (scan_exponent_app _ _ H);
    [destruct (scan_exponent s3) as [[e s4]|]
    |destruct (scan_exponent s2) as [[e s4]|]]; reflexivity.
Qed.

Lemma scan_number_app (t rest : string) :
  delimited rest ->
  scan_number (t +:+ rest)
  = match scan_number t with
    | Some (v, r) => Some (v, r +:+ rest)
    | None => None
    end.
Proof.
  intros H. destruct t as [|c t].
  - destruct (delimited_inv _ H) as [->|(c & r & -> & [->| ->])]; reflexivity.
  - rewrite append_cons. unfold scan_number.
    destruct (Ascii.eqb c "-") eqn:E.
    + apply Ascii.eqb_eq in E as ->. apply (scan_unsigned_app _ _ _ H).
    + rewrite <- append_cons.
      pose proof (scan_unsigned_app false (String c t) _ H) as G.
      destruct c as [[] [] [] [] [] [] [] []]; try exact G; discriminate.
Qed.

Lemma strip_prefix_app (word t rest : string) :
  delimited rest ->
  PyStr.all (fun c => negb (Ascii.eqb c "," || Ascii.eqb c newline)) word = true ->
  PyStr.strip_prefix word (t +:+ rest)
  = match PyStr.strip_prefix word t with
    | Some r => Some (r +:+ rest)
    | None => None
    end.
Proof.
  intros H. revert t. induction word as [|c w IH]; intros t Hw.
  - reflexivity.
  - simpl in Hw. apply andb_prop in Hw as [Hc Hw].
    destruct t as [|d t].
    + destruct (delimited_inv _ H) as [->|(c' & r & -> & [->| ->])];
        [reflexivity| |]; simpl.
      * destruct (Ascii.eqb c ","); [discriminate|reflexivity].
      * rewrite orb_comm in Hc. destruct (Ascii.eqb c newline); [discriminate|reflexivity].
    + rewrite append_cons. simpl. destruct (Ascii.eqb c d); [|reflexivity].
      apply (IH t Hw).
Qed.

Lemma scan_constant_app (t rest : string) :
  delimited rest ->
  scan_constant constants (t +:+ rest)
  = match scan_constant constants t with
    | Some (v, r) => Some (v, r +:+ rest)
    | None => None
    end.
Proof.
  intros H. unfold constants, scan_constant.
  repeat (rewrite (strip_prefix_app _ _ _ H) by reflexivity;
          destruct (PyStr.strip_prefix _ t); [reflexivity|]).
  reflexivity.
Qed.

Lemma scan_once_eq (fuel : nat) (c : ascii) (rest : string) :
  scan_once (S fuel) (String c rest)
  = if Ascii.eqb c quote then
      match scan_string rest with
      | Some (k, r) => Some (JString k, r)
      | None => None
      end
    else if Ascii.eqb c "{"%char then
      match skip_ws rest with
      | String "}"%char r => Some (JObject [], r)
      | rest' =>
          match scan_members fuel rest' with
          | Some (members, r) => Some (JObject members, r)
          | None => None
          end
      end
    else if Ascii.eqb c "["%char then
      match skip_ws rest with
      | String "]"%char r => Some (JArray [], r)
      | rest' =>
          match scan_items fuel rest' with
          | Some (items, r) => Some (JArray items, r)
          | None => None
          end
      end
    else
      match scan_constant constants (String c rest) with
      | Some found => Some found
      | None => scan_number (String c rest)
      end.
Proof. reflexivity. Qed.

Lemma scan_once_number_app (t rest : string) (v : json) (fuel : nat) :
  is_number v ->
  scan_once 1 t = Some (v, EmptyString) ->
  delimited rest ->
  scan_once (S fuel) (t +:+ rest) = Some (v, rest).
Proof.
  intros Hv E H. destruct t as [|c t]; [discriminate|].
  rewrite append_cons. rewrite scan_once_eq in E |- *.
  destruct (Ascii.eqb c quote).
  { destruct (scan_string t) as [[k r]|]; [|discriminate].
    injection E as <- _. destruct Hv. }
  destruct (Ascii.eqb c "{").
  { destruct (skip_ws t) as [|d r]; [discriminate|].
    destruct d as [[] [] [] [] [] [] [] []]; simpl in E; try discriminate E;
      injection E as <- _; destruct Hv. }
  destruct (Ascii.eqb c "[").
  { destruct (skip_ws t) as [|d r]; [discriminate|].
    destruct d as [[] [] [] [] [] [] [] []]; simpl in E; try discriminate E;
      injection E as <- _; destruct Hv. }
  rewrite <- append_cons, (scan_constant_app _ _ H).
  destruct (scan_constant constants (String c t)) as [[v' r]|].
  - injection E as -> ->. reflexivity.
  - rewrite (scan_number_app _ _ H), E. reflexivity.
Qed.

Lemma scan_once_nonblank (fuel : nat) (s : string) (found : json * string) :
  scan_once fuel s = Some found -> skip_ws s = s.
Proof.
  destruct fuel as [|fuel]; [discriminate|].
  destruct s as [|c s]; [discriminate|]. intros E.
  destruct (is_ws c) eqn:Ec; [|simpl; rewrite Ec; reflexivity].
  exfalso. destruct c as [[] [] [] [] [] [] [] []]; discriminate.
Qed.


Lemma scan_once_starts (fuel : nat) (s : string) (found : json * string) :
  scan_once fuel s = Some found ->
  exists c s', s = String c s' /\ is_ws c = false
               /\ c <> "]"%char /\ c <> "}"%char.
Proof.
  destruct fuel as [|fuel]; [discriminate|].
  destruct s as [|c s]; [discriminate|]. intros E.
  exists c, s. split; [reflexivity|].
  destruct c as [[] [] [] [] [] [] [] []];
    first [ discriminate E | repeat split; discriminate ].
Qed.

Lemma skip_ws_scanned (fuel : nat) (s : string) (found : json * string) :
  scan_once fuel s = Some found -> skip_ws s = s.
Proof.
  intros E. destruct (scan_once_starts _ _ _ E) as (c & s' & -> & Hc & _).
  simpl. rewrite Hc. reflexivity.
Qed.

Lemma scan_items_eq (fuel : nat) (s : string) :
  scan_items (S fuel) s
  = match scan_once fuel s with
    | None => None
    | Some (item, r) =>
        match skip_ws r with
        | String "]"%char r' => Some ([item], r')
        | String ","%char r' =>
            match scan_items fuel (skip_ws r') with
            | Some (items, r'') => Some (item :: items, r'')
            | None => None
            end
        | _ => None
        end
    end.
Proof. reflexivity. Qed.

Lemma scan_items_starts (fuel : nat) (s : string)
  (found : list json * string) :
  scan_items fuel s = Some found ->
  exists c s', s = String c s' /\ is_ws c = false
               /\ c <> "]"%char /\ c <> "}"%char.
Proof.
  destruct fuel as [|fuel]; [discriminate|]. rewrite scan_items_eq.
  destruct (scan_once fuel s) as [first|] eqn:E; [|discriminate].
  intros _. exact (scan_once_starts _ _ _ E).
Qed.

Lemma scan_once_array (fuel : nat) (rest s r : string) (items : list json) :
  skip_ws rest = s ->
  scan_items fuel s = Some (items, r) ->
  scan_once (S fuel) (String "["%char rest) = Some (JArray items, r).
Proof.
  intros Hs Hitems.
  destruct (scan_items_starts _ _ _ Hitems) as (c & s' & -> & _ & Hc & _).
  rewrite scan_once_eq. change (Ascii.eqb "[" quote) with false.
  change (Ascii.eqb "[" "{") with false. change (Ascii.eqb "[" "[") with true.
  cbv iota. rewrite Hs.
  destruct c as [[] [] [] [] [] [] [] []];
    first [ now destruct Hc | rewrite Hitems; reflexivity ].
Qed.

Lemma scan_once_object (fuel : nat) (rest s r : string)
  (members : list (string * json)) :
  skip_ws rest = String quote s ->
  scan_members fuel (String quote s) = Some (members, r) ->
  scan_once (S fuel) (String "{"%char rest) = Some (JObject members, r).
Proof.
  intros Hs Hmembers. rewrite scan_once_eq.
  change (Ascii.eqb "{" quote) with false. change (Ascii.eqb "{" "{") with true.
  change quote with (Ascii false true false false false true false false) in *.
  cbv iota. rewrite Hs. cbv iota. rewrite Hmembers. reflexivity.
Qed.


Lemma scan_members_eq (fuel : nat) (s : string) :
  scan_members (S fuel) (String quote s)
  = match scan_string s with
    | None => None
    | Some (key, r) =>
        match skip_ws r with
        | String ":"%char r1 =>
            match scan_once fuel (skip_ws r1) with
            | None => None
            | Some (value, r2) =>
                match skip_ws r2 with
                | String "}"%char r3 => Some ([(key, value)], r3)
                | String ","%char r3 =>
                    match scan_members fuel (skip_ws r3) with
                    | Some (members, r4) => Some ((key, value) :: members, r4)
                    | None => None
                    end
                | _ => None
                end
            end
        | _ => None
        end
    end.
Proof. reflexivity. Qed.

Lemma delimited_newline_indent (level : nat) (s : string) :
  delimited (newline_indent level +:+ s).
Proof. right. reflexivity. Qed.

Lemma delimited_comma (s : string) : delimited (String ","%char s).
Proof. left. reflexivity. Qed.

Ltac flatten :=
  repeat first [ rewrite append_assoc | rewrite append_cons
               | rewrite append_nil_l ].

Lemma scan_items_encoded (level : nat) (items : list json) :
  List.Forall reads items ->
  forall x fuel rest,
    reads x ->
    fold_right (fun x rest => readable x /\ rest) True (x :: items) ->
    fold_right (fun x rest => S (need x + rest)) 0 (x :: items) <= fuel ->
    scan_items fuel
      (join ("," +:+ newline_indent (S level))
            (map (encode (S level)) (x :: items))
       +:+ newline_indent level +:+ String "]"%char rest)
    = Some (x :: items, rest).
Proof.
  induction 1 as [|y items Hy Hitems IH]; intros x fuel rest Hx [Rx R] Hfuel.
  - destruct fuel as [|fuel]; [simpl in Hfuel; lia|]. simpl in Hfuel.
    rewrite scan_items_eq. simpl map. simpl join.
    rewrite (Hx Rx (S level) fuel _ ltac:(lia)
                (delimited_newline_indent _ _)).
    rewrite skip_ws_newline_indent. reflexivity.
  - destruct fuel as [|fuel]; [simpl in Hfuel; lia|].
    change (fold_right (fun x rest => S (need x + rest)) 0 (x :: y :: items))
      with (S (need x + fold_right (fun x rest => S (need x + rest)) 0
                                   (y :: items))) in Hfuel.
    rewrite scan_items_eq.
    specialize (IH y fuel rest Hy R ltac:(lia)).
    change (join ("," +:+ newline_indent (S level))
                 (map (encode (S level)) (x :: y :: items)))
      with (encode (S level) x +:+ ("," +:+ newline_indent (S level))
            +:+ join ("," +:+ newline_indent (S level))
                     (map (encode (S level)) (y :: items))).
    set (J := join ("," +:+ newline_indent (S level))
                   (map (encode (S level)) (y :: items))) in *.
    flatten.
    rewrite (Hx Rx (S level) fuel _ ltac:(lia) (delimited_comma _)).
    change (skip_ws (String "," ?s)) with (String ","%char s).
    cbv iota. rewrite skip_ws_newline_indent.
    destruct (scan_items_starts _ _ _ IH) as (c & s' & E & Hc & _).
    rewrite E in IH |- *. simpl skip_ws. rewrite Hc, IH. reflexivity.
Qed.

Lemma scan_members_encoded (level : nat) (members : list (string * json)) :
  List.Forall (fun kv => reads (snd kv)) members ->
  forall kv fuel rest,
    reads (snd kv) ->
    fold_right (fun kv rest => readable (snd kv) /\ rest) True (kv :: members) ->
    fold_right (fun kv rest => S (need (snd kv) + rest)) 0 (kv :: members)
    <= fuel ->
    scan_members fuel
      (join ("," +:+ newline_indent (S level))
            (map (fun kv => encode_string (fst kv) +:+ ": "
                            +:+ encode (S level) (snd kv)) (kv :: members))
       +:+ newline_indent level +:+ String "}"%char rest)
    = Some (kv :: members, rest).
Proof.
  induction 1 as [|kv' members Hy Hmembers IH];
    intros [k v] fuel rest Hx [Rx R] Hfuel; simpl snd in *.
  - destruct fuel as [|fuel]; [simpl in Hfuel; lia|]. simpl in Hfuel.
    simpl map. simpl join. unfold encode_string. flatten.
    rewrite scan_members_eq, scan_string_escape.
    change (skip_ws (String ":" ?s)) with (String ":"%char s). cbv iota.
    change (skip_ws (String " " ?s)) with (skip_ws s).
    pose proof (Hx Rx (S level) fuel _ ltac:(lia)
                  (delimited_newline_indent level (String "}"%char rest))) as E.
    rewrite (skip_ws_scanned _ _ _ E), E, skip_ws_newline_indent.
    reflexivity.
  - destruct fuel as [|fuel]; [simpl in Hfuel; lia|].
    change (fold_right (fun kv rest => S (need (snd kv) + rest)) 0
                       ((k, v) :: kv' :: members))
      with (S (need v + fold_right (fun kv rest => S (need (snd kv) + rest)) 0
                                   (kv' :: members))) in Hfuel.
    specialize (IH kv' fuel rest Hy R ltac:(lia)).
    change (join ("," +:+ newline_indent (S level))
              (map (fun kv => encode_string (fst kv) +:+ ": "
                              +:+ encode (S level) (snd kv))
                   ((k, v) :: kv' :: members)))
      with ((encode_string k +:+ ": " +:+ encode (S level) v)
            +:+ ("," +:+ newline_indent (S level))
            +:+ join ("," +:+ newline_indent (S level))
                  (map (fun kv => encode_string (fst kv) +:+ ": "
                                  +:+ encode (S level) (snd kv))
                       (kv' :: members))).
    set (J := join ("," +:+ newline_indent (S level))
                (map (fun kv => encode_string (fst kv) +:+ ": "
                                +:+ encode (S level) (snd kv))
                     (kv' :: members))) in *.
    assert (Hq : exists s', J +:+ newline_indent level +:+ String "}" rest
                            = String quote s').
    { destruct fuel as [|fuel']; [discriminate|].
      destruct (J +:+ newline_indent level +:+ String "}" rest) as [|c s'];
        [discriminate|].
      simpl in IH. destruct (Ascii.eqb c quote) eqn:Ec; [|discriminate].
      apply Ascii.eqb_eq in Ec as ->. now exists s'. }
    destruct Hq as (s' & Hq).
    unfold encode_string. flatten.
    rewrite scan_members_eq, scan_string_escape.
    change (skip_ws (String ":" ?s)) with (String ":"%char s). cbv iota.
    change (skip_ws (String " " ?s)) with (skip_ws s).
    match goal with
    | |- context [scan_once fuel (skip_ws (encode (S level) v +:+ ?r))] =>
        pose proof (Hx Rx (S level) fuel r ltac:(lia) (delimited_comma _)) as E
    end.
    rewrite (skip_ws_scanned _ _ _ E), E.
    change (skip_ws (String "," ?s)) with (String ","%char s). cbv iota.
    rewrite skip_ws_newline_indent.
    rewrite Hq in IH |- *.
    change (skip_ws (String quote s')) with (String quote s').
    rewrite IH. reflexivity.
Qed.


Lemma encode_array (level : nat) (x : json) (items : list json) :
  encode level (JArray (x :: items))
  = "[" +:+ newline_indent (S level)
    +:+ join ("," +:+ newline_indent (S level))
             (map (encode (S level)) (x :: items))
    +:+ newline_indent level +:+ "]".
Proof. reflexivity. Qed.

Lemma encode_object (level : nat) (kv : string * json)
  (members : list (string * json)) :
  encode level (JObject (kv :: members))
  = "{" +:+ newline_indent (S level)
    +:+ join ("," +:+ newline_indent (S level))
             (map (fun kv => encode_string (fst kv) +:+ ": "
                             +:+ encode (S level) (snd kv)) (kv :: members))
    +:+ newline_indent level +:+ "}".
Proof. reflexivity. Qed.

(** Every value whose numbers read back is read back from its text, also
    when the text goes on with a separator or a line break. *)
Lemma scan_encode (j : json) : reads j.
Proof.
  induction j using json_induction; intros R level fuel rest Hfuel Hrest.
  - destruct fuel as [|fuel]; [simpl in Hfuel; lia|]. reflexivity.
  - destruct fuel as [|fuel]; [simpl in Hfuel; lia|]. destruct b; reflexivity.
  - destruct fuel as [|fuel]; [simpl in Hfuel; lia|].
    apply scan_once_number_app; [exact I | exact R | exact Hrest].
  - destruct fuel as [|fuel]; [simpl in Hfuel; lia|].
    apply scan_once_number_app; [exact I | exact R | exact Hrest].
  - destruct fuel as [|fuel]; [simpl in Hfuel; lia|].
    simpl encode. unfold encode_string. flatten.
    rewrite scan_once_eq, Ascii.eqb_refl, scan_string_escape. reflexivity.
  - destruct fuel as [|fuel]; [simpl in Hfuel; lia|].
    destruct items as [|x items]; [reflexivity|].
    apply List.Forall_cons_iff in H as [Hx Hitems].
    pose proof (scan_items_encoded level items Hitems x fuel rest Hx R
                  ltac:(simpl in Hfuel |- *; lia)) as E.
    rewrite encode_array.
    set (J := join ("," +:+ newline_indent (S level))
                   (map (encode (S level)) (x :: items))) in *.
    flatten. apply (scan_once_array fuel _ _ _ _ eq_refl).
    rewrite skip_ws_newline_indent.
    destruct (scan_items_starts _ _ _ E) as (c & s' & Es & Hc & _).
    rewrite Es in E |- *. simpl skip_ws. rewrite Hc. exact E.
  - destruct fuel as [|fuel]; [simpl in Hfuel; lia|].
    destruct members as [|kv members]; [reflexivity|].
    apply List.Forall_cons_iff in H as [Hx Hmembers].
    pose proof (scan_members_encoded level members Hmembers kv fuel rest Hx R
                  ltac:(simpl in Hfuel |- *; lia)) as E.
    rewrite encode_object.
    set (J := join ("," +:+ newline_indent (S level))
                (map (fun kv => encode_string (fst kv) +:+ ": "
                                +:+ encode (S level) (snd kv))
                     (kv :: members))) in *.
    flatten.
    assert (Hq : exists s', J +:+ newline_indent level +:+ String "}" rest
                            = String quote s').
    { destruct fuel as [|fuel']; [discriminate|].
      destruct (J +:+ newline_indent level +:+ String "}" rest) as [|c s'];
        [discriminate|].
      simpl in E. destruct (Ascii.eqb c quote) eqn:Ec; [|discriminate].
      apply Ascii.eqb_eq in Ec as ->. now exists s'. }
    destruct Hq as (s' & Hq).
    apply (scan_once_object fuel _ s').
    + rewrite skip_ws_newline_indent, Hq. reflexivity.
    + rewrite <- Hq. exact E.
Qed.


Lemma length_newline_indent (level : nat) :
  1 <= String.length (newline_indent level).
Proof. unfold newline_indent. simpl. lia. Qed.

Lemma need_join {A : Type} (weight : A -> nat) (text : A -> string)
  (separator : string) (l : list A) :
  1 <= String.length separator ->
  List.Forall (fun x => weight x <= String.length (text x)) l ->
  fold_right (fun x rest => S (weight x + rest)) 0 l
  <= S (String.length (join separator (map text l))).
Proof.
  intros Hs. induction 1 as [|x l Hx Hl IH]; [simpl; lia|].
  destruct l as [|y l]; [simpl; lia|].
  change (join separator (map text (x :: y :: l)))
    with (text x +:+ separator +:+ join separator (map text (y :: l))).
  rewrite !length_append.
  change (fold_right (fun x rest => S (weight x + rest)) 0 (x :: y :: l))
    with (S (weight x + fold_right (fun x rest => S (weight x + rest)) 0
                                   (y :: l))).
  lia.
Qed.

Lemma scanned_nonempty (fuel : nat) (t : string) (found : json * string) :
  scan_once fuel t = Some found -> 1 <= String.length t.
Proof.
  intros E. destruct (scan_once_starts _ _ _ E) as (c & s' & -> & _).
  simpl. lia.
Qed.

Lemma readable_items (items : list json) :
  fold_right (fun x rest => readable x /\ rest) True items ->
  List.Forall readable items.
Proof.
  induction items as [|x items IH]; intros H; constructor;
    [exact (proj1 H) | exact (IH (proj2 H))].
Qed.

Lemma readable_members (members : list (string * json)) :
  fold_right (fun kv rest => readable (snd kv) /\ rest) True members ->
  List.Forall (fun kv => readable (snd kv)) members.
Proof.
  induction members as [|x members IH]; intros H; constructor;
    [exact (proj1 H) | exact (IH (proj2 H))].
Qed.

(** The scanner never needs more fuel than the text has characters. *)
Lemma need_le_length (j : json) :
  readable j -> forall level, need j <= String.length (encode level j).
Proof.
  induction j using json_induction; intros R level.
  - simpl. lia.
  - destruct b; simpl; lia.
  - exact (scanned_nonempty _ _ _ R).
  - exact (scanned_nonempty _ _ _ R).
  - simpl. lia.
  - destruct items as [|x items]; [simpl; lia|].
    rewrite encode_array. rewrite !length_append.
    pose proof (length_newline_indent (S level)).
    pose proof (length_newline_indent level).
    assert (F : List.Forall
                  (fun x => need x <= String.length (encode (S level) x))
                  (x :: items)).
    { apply readable_items in R. revert R H. generalize (x :: items).
      induction l as [|y l IH]; intros R F; constructor.
      - apply (List.Forall_inv F). exact (List.Forall_inv R).
      - apply IH; [exact (List.Forall_inv_tail R)|exact (List.Forall_inv_tail F)]. }
    pose proof (need_join need (encode (S level))
                  ("," +:+ newline_indent (S level)) (x :: items)
                  ltac:(rewrite length_append; simpl; lia) F) as B.
    change (need (JArray (x :: items)))
      with (S (fold_right (fun x rest => S (need x + rest)) 0 (x :: items))).
    simpl String.length at 1. simpl (String.length "]"). lia.
  - destruct members as [|kv members]; [simpl; lia|].
    rewrite encode_object. rewrite !length_append.
    pose proof (length_newline_indent (S level)).
    pose proof (length_newline_indent level).
    assert (F : List.Forall
                  (fun kv => need (snd kv)
                             <= String.length
                                  (encode_string (fst kv) +:+ ": "
                                   +:+ encode (S level) (snd kv)))
                  (kv :: members)).
    { apply readable_members in R. revert R H. generalize (kv :: members).
      induction l as [|y l IH]; intros R F; constructor.
      - rewrite !length_append.
        pose proof (List.Forall_inv F (List.Forall_inv R) (S level)). lia.
      - apply IH; [exact (List.Forall_inv_tail R)|exact (List.Forall_inv_tail F)]. }
    pose proof (need_join (fun kv => need (snd kv))
                  (fun kv => encode_string (fst kv) +:+ ": "
                             +:+ encode (S level) (snd kv))
                  ("," +:+ newline_indent (S level)) (kv :: members)
                  ltac:(rewrite length_append; simpl; lia) F) as B.
    change (need (JObject (kv :: members)))
      with (S (fold_right (fun kv rest => S (need (snd kv) + rest)) 0
                          (kv :: members))).
    simpl String.length at 1. simpl (String.length "}"). lia.
Qed.

(** [json.loads(json.dumps(j, indent=4, ensure_ascii=False))] *)
Lemma decode_encode (j : json) :
  readable j -> decode (encode 0 j) = Some j.
Proof.
  intros R. unfold decode.
  pose proof (scan_encode j R 0 (S (String.length (encode 0 j))) ""
                ltac:(pose proof (need_le_length j R 0); lia) I) as E.
  rewrite append_nil_r in E.
  rewrite (skip_ws_scanned _ _ _ E), E. reflexivity.
Qed.


Lemma object_dict_fold (members d0 : list (string * json)) :
  List.NoDup (map fst d0 ++ map fst members) ->
  fold_left (fun d kv => dict_set d (fst kv) (snd kv)) members d0
  = d0 ++ members.
Proof.
  revert d0. induction members as [|[k v] members IH]; intros d0 H; simpl.
  - now rewrite app_nil_r.
  - simpl in H. rewrite dict_set_fresh.
    + rewrite IH.
      * now rewrite <- app_assoc.
      * rewrite map_app. simpl. rewrite <- app_assoc. exact H.
    + apply NoDup_remove_2 in H. intros Hin. apply H.
      apply in_or_app. now left.
Qed.

Lemma object_dict_distinct (members : list (string * json)) :
  List.NoDup (map fst members) -> object_dict members = members.
Proof. intros H. unfold object_dict. now rewrite object_dict_fold. Qed.

Lemma entry_of_json_of_entry (e : entry) :
  entry_of_json (json_of_entry e) = Some e.
Proof. destruct e as [[name isin industry] [quantity value pct]]. reflexivity. Qed.

Lemma entries_of_json_of_entries (items : list entry) :
  entries_of_json (map json_of_entry items) = Some items.
Proof.
  induction items as [|e items IH]; [reflexivity|].
  cbn [map entries_of_json].
  rewrite entry_of_json_of_entry, IH. reflexivity.
Qed.

Lemma months_of_json_of_months (l : list (string * list entry)) :
  months_of_json
    (map (fun kv => (fst kv, JArray (map json_of_entry (snd kv)))) l)
  = Some (list_to_map l).
Proof.
  induction l as [|[month items] l IH]; [reflexivity|].
  cbn [map months_of_json fst snd].
  rewrite entries_of_json_of_entries, IH. reflexivity.
Qed.

Lemma data_of_json_of_data (d : gmap string (list entry)) :
  data_of_json (json_of_data d) = Some d.
Proof.
  unfold data_of_json, json_of_data.
  rewrite object_dict_distinct.
  - rewrite months_of_json_of_months, list_to_map_to_list. reflexivity.
  - rewrite List.map_map. simpl. apply NoDup_ListNoDup, NoDup_fst_map_to_list.
Qed.

Lemma readable_json_of_entry (e : entry) :
  storable_entry e -> readable (json_of_entry e).
Proof. intros (Hq & Hv & Hp). simpl. auto 10. Qed.

Lemma readable_json_of_data (d : gmap string (list entry)) :
  storable d -> readable (json_of_data d).
Proof.
  intros H. apply map_Forall_to_list in H. unfold json_of_data.
  induction H as [|[month items] l Hitems Hl IH]; [exact I|].
  split; [|exact IH]. simpl in Hitems |- *.
  induction Hitems as [|e items He Hitems IH']; [exact I|].
  split; [exact (readable_json_of_entry e He) | exact IH'].
Qed.

(** The dictionary is read back from the text written for it. *)
Lemma loads_dumps (d : gmap string (list entry)) :
  storable d -> loads (dumps d) = Some d.
Proof.
  intros H. unfold loads, dumps.
  rewrite (decode_encode _ (readable_json_of_data d H)).
  apply data_of_json_of_data.
Qed.

(** *** Examples *)

Example repr_examples :
  map PyFloat.repr
      [ 100; 0.5; 1.5; 0x1.999999999999ap-4; 1e15; 1e16; 1e22;
        0x1.4f8b588e368f1p-17; 123456789.125; 1125899906842624.25;
        0x0.0000000000001p-1022; 0x1.fffffffffffffp+1023; -2.5; 0 ]%float
  = [ "100.0"; "0.5"; "1.5"; "0.1"; "1000000000000000.0"; "1e+16"; "1e+22";
      "1e-05"; "123456789.125"; "1125899906842624.2"; "5e-324";
      "1.7976931348623157e+308"; "-2.5"; "0.0" ].
Proof. vm_compute. reflexivity. Qed.

Example scan_number_examples :
  map scan_number [ "15"; "-0"; "1e5"; "2.50"; "01"; "1.e3"; "1e+"; ".5"; "-" ]
  = [ Some (JInt 15, ""); Some (JInt 0, ""); Some (JFloat 100000, "");
      Some (JFloat 2.5, ""); Some (JInt 0, "1"); Some (JInt 1, ".e3");
      Some (JInt 1, "e+"); None; None ].
Proof. vm_compute. reflexivity. Qed.

Example decode_examples :
  map decode
      (map with_quotes
           [ " [1, 2.5, 'a\u0041\n', null, {'k': true, 'k': NaN}] ";
             "[1,]"; "{'k' 1}"; "[1] 2"; "'a"; "" ])
  = [ Some (JArray [ JInt 1; JFloat 2.5;
                     JString (String "a" (String "A" (String newline "")));
                     JNull;
                     JObject [("k", JBool true); ("k", JFloat nan)] ]);
      None; None; None; None; None ].
Proof. vm_compute. reflexivity. Qed.

Example dumps_example :
  dumps (<["May 2024" := [alpha_may]]> ∅)
  = with_quotes
"{
    'May 2024': [
        {
            'MutualFundDetails': {
                'Name': 'Alpha Growth Fund',
                'ISIN': 'INF001',
                'Industry': 'Equity'
            },
            'MonthData': {
                'Quantity': 100.0,
                'MarketValueInLakhs': 50.0,
                '%ToNAV': 1.0
            }
        }
    ]
}".
Proof. vm_compute. reflexivity. Qed.

(** A file that holds the first half of the text is not decoded. *)
Example loads_torn_text :
  loads (first_half (dumps sample_data)) = None.
Proof. vm_compute. reflexivity. Qed.

End JsonFacts.


(** ** Period labels *)

Section PeriodLabels.
Import PyStr Strptime.

Lemma match_literal_spec (p s r : string) :
  match_literal p s = Some r <-> exists m, s = m +:+ r /\ lower m = p.
Proof.
  revert s. induction p as [|c p IH]; intros s; simpl.
  - split.
    + intros [= ->]. exists "". auto.
    + intros (m & -> & Hm). destruct m; [reflexivity | discriminate].
  - destruct s as [|d s].
    + split; [discriminate|]. intros (m & Hs & Hm).
      destruct m; simpl in *; discriminate.
    + destruct (Ascii.eqb_spec c (lower_char d)) as [->|Hne].
      * rewrite IH. split.
        -- intros (m & -> & <-). exists (String d m). auto.
        -- intros (m & Hs & Hm). destruct m as [|d' m]; [discriminate|].
           simpl in *. injection Hs as -> ->. injection Hm as Hm.
           exists m. auto.
      * split; [discriminate|]. intros (m & Hs & Hm).
        destruct m as [|d' m]; [discriminate|]. simpl in *.
        injection Hs as -> ->. injection Hm as Hc _. congruence.
Qed.

Lemma match_literal_prefix (p1 p2 s r1 r2 : string) :
  match_literal p1 s = Some r1 -> match_literal p2 s = Some r2 ->
  String.prefix p1 p2 = true \/ String.prefix p2 p1 = true.
Proof.
  revert p2 s. induction p1 as [|c1 p1 IH]; intros p2 s.
  - intros _ _. left. destruct p2; reflexivity.
  - destruct p2 as [|c2 p2]; [intros _ _; right; reflexivity|].
    destruct s as [|d s]; [discriminate|]. simpl.
    destruct (Ascii.eqb_spec c1 (lower_char d)) as [->|]; [|discriminate].
    destruct (Ascii.eqb_spec c2 (lower_char d)) as [->|]; [|discriminate].
    intros H1 H2. destruct (ascii_dec (lower_char d) (lower_char d)); [|congruence].
    eauto.
Qed.

Lemma months_prefix_free (a b : string) :
  In a f_month -> In b f_month -> String.prefix a b = true -> a = b.
Proof.
  intros Ha Hb.
  assert (H : forallb (fun a => forallb (fun b =>
              implb (String.prefix a b) (String.eqb a b)) f_month) f_month = true)
    by (vm_compute; reflexivity).
  rewrite forallb_forall in H. specialize (H a Ha).
  rewrite forallb_forall in H. specialize (H b Hb).
  intros Hp. rewrite Hp in H. simpl in H. now apply String.eqb_eq.
Qed.

Lemma month_rest_unique (m1 m2 s r1 r2 : string) :
  In m1 f_month -> In m2 f_month ->
  match_literal m1 s = Some r1 -> match_literal m2 s = Some r2 ->
  m1 = m2 /\ r1 = r2.
Proof.
  intros H1 H2 L1 L2.
  assert (m1 = m2) as ->.
  { destruct (match_literal_prefix _ _ _ _ _ L1 L2) as [Hp|Hp].
    - now apply months_prefix_free.
    - symmetry. now apply months_prefix_free. }
  split; congruence.
Qed.

Lemma lstrip_app_blank (ws r : string) :
  PyStr.all isspace ws = true -> lstrip (ws +:+ r) = lstrip r.
Proof.
  induction ws as [|c ws IH]; simpl; [reflexivity|].
  intros [Hc Hws]%andb_prop. rewrite ?append_cons. simpl. rewrite Hc. auto.
Qed.

Lemma lstrip_split (r : string) :
  exists ws, PyStr.all isspace ws = true /\ r = ws +:+ lstrip r.
Proof.
  induction r as [|c r (ws & Hws & Hr)]; simpl.
  - exists "". split; reflexivity.
  - destruct (isspace c) eqn:Hc.
    + exists (String c ws). simpl. rewrite Hc, Hws. split; [reflexivity|].
      rewrite ?append_cons. now f_equal.
    + exists "". split; reflexivity.
Qed.

Lemma digit_not_space (c : ascii) : isdigit c = true -> isspace c = false.
Proof.
  unfold isdigit, isspace. generalize (nat_of_ascii c). intros n H.
  apply andb_prop in H as [H1 H2].
  apply Nat.leb_le in H1, H2.
  repeat match goal with
  | |- context [?a <=? ?b] => destruct (Nat.leb_spec a b)
  | |- context [?a =? ?b] => destruct (Nat.eqb_spec a b)
  end; simpl; try reflexivity; lia.
Qed.

Lemma match_tail_spec (r : string) (y : Z) (rest : string) :
  match_tail r = Some (y, rest) <->
  exists ws d1 d2 d3 d4,
    ws <> "" /\ PyStr.all isspace ws = true
    /\ PyStr.all isdigit (String d1 (String d2 (String d3 (String d4 ""))))  = true
    /\ y = year_of d1 d2 d3 d4
    /\ r = ws +:+ String d1 (String d2 (String d3 (String d4 rest))).
Proof.
  unfold match_tail. split.
  - destruct r as [|c r']; [discriminate|].
    destruct (isspace c) eqn:Hc; [|discriminate].
    destruct (lstrip_split r') as (ws & Hws & Hr).
    destruct (lstrip r') as [|d1 [|d2 [|d3 [|d4 rest']]]]; try discriminate.
    destruct (isdigit d1 && isdigit d2 && isdigit d3 && isdigit d4) eqn:Hd;
      [|discriminate].
    intros [= <- <-].
    exists (String c ws), d1, d2, d3, d4. simpl. rewrite Hc, Hws.
    apply andb_prop in Hd as [[[-> ->]%andb_prop ->]%andb_prop ->].
    repeat split; try reflexivity; [discriminate | rewrite ?append_cons; now f_equal].
  - intros (ws & d1 & d2 & d3 & d4 & Hne & Hws & Hd & -> & ->).
    destruct ws as [|c ws]; [congruence|]. rewrite ?append_cons. simpl in *.
    apply andb_prop in Hws as [-> Hws]. rewrite lstrip_app_blank by assumption.
    simpl. repeat (apply andb_prop in Hd as [? Hd]).
    rewrite (digit_not_space d1) by assumption.
    repeat match goal with H : isdigit _ = true |- _ => rewrite H; clear H end.
    reflexivity.
Qed.


Lemma match_from_sound (months : list string) (idx : nat) (s : string)
  (i : nat) (y : Z) (rest : string) :
  match_from months idx s = Some (i, y, rest) ->
  exists m r, In m months /\ match_literal m s = Some r
              /\ match_tail r = Some (y, rest).
Proof.
  revert idx. induction months as [|m months IH]; intros idx; simpl;
    [discriminate|].
  destruct (match_literal m s) as [r|] eqn:Hl.
  - destruct (match_tail r) as [[y' rest']|] eqn:Ht.
    + intros [= <- <- <-]. exists m, r. auto.
    + intros H. destruct (IH _ H) as (m' & r' & ? & ? & ?).
      exists m', r'. auto.
  - intros H. destruct (IH _ H) as (m' & r' & ? & ? & ?).
    exists m', r'. auto.
Qed.

Lemma match_from_complete (months : list string) (idx : nat) (s m r : string)
  (y : Z) (rest : string) :
  In m months -> match_literal m s = Some r -> match_tail r = Some (y, rest) ->
  (forall m' r', In m' months -> match_literal m' s = Some r' -> r' = r) ->
  exists i, match_from months idx s = Some (i, y, rest).
Proof.
  revert idx. induction months as [|m0 months IH]; intros idx Hin Hl Ht Hu;
    [destruct Hin|].
  simpl. destruct (match_literal m0 s) as [r0|] eqn:Hl0.
  - rewrite (Hu m0 r0 (or_introl eq_refl) Hl0), Ht. eauto.
  - destruct Hin as [->|Hin]; [congruence|].
    apply IH; auto. intros m' r' Hm'. apply Hu. now right.
Qed.

Lemma truthy_false (s : string) : truthy s = false <-> s = "".
Proof. destruct s; simpl; split; congruence. Qed.

Lemma validate_month_year_regex (s : string) :
  validate_month_year s = true <->
  exists m r y, In m f_month /\ match_literal m s = Some r
                /\ match_tail r = Some (y, "") /\ (1 <= y)%Z.
Proof.
  unfold validate_month_year, strptime, regex_match. split.
  - destruct (match_from f_month 1 s) as [[[i y] rest]|] eqn:Hm; [|discriminate].
    destruct (truthy rest) eqn:Hr; [discriminate|].
    destruct (Z.ltb_spec y 1); [discriminate|]. intros _.
    apply truthy_false in Hr as ->.
    destruct (match_from_sound _ _ _ _ _ _ Hm) as (m & r & ? & ? & ?).
    exists m, r, y. auto.
  - intros (m & r & y & Hin & Hl & Ht & Hy).
    destruct (match_from_complete f_month 1 s m r y "" Hin Hl Ht) as [i ->].
    + intros m' r' Hin' Hl'.
      now destruct (month_rest_unique m' m s r' r Hin' Hin Hl' Hl).
    + simpl. destruct (Z.ltb_spec y 1); [lia | reflexivity].
Qed.

Lemma isdigit_val (d : ascii) :
  isdigit d = true -> (0 <= digit_val d <= 9)%Z /\ (digit_val d = 0%Z -> d = "0"%char).
Proof.
  unfold isdigit, digit_val. intros [H1 H2]%andb_prop.
  apply Nat.leb_le in H1, H2. split; [lia|]. intros H0.
  rewrite <- (ascii_nat_embedding d).
  replace (nat_of_ascii d) with 48 by lia. reflexivity.
Qed.

Lemma year_positive (d1 d2 d3 d4 : ascii) :
  PyStr.all isdigit (String d1 (String d2 (String d3 (String d4 "")))) = true ->
  (1 <= year_of d1 d2 d3 d4)%Z <->
  String d1 (String d2 (String d3 (String d4 ""))) <> "0000".
Proof.
  simpl. intros H.
  apply andb_prop in H as [H1 H]. apply andb_prop in H as [H2 H].
  apply andb_prop in H as [H3 H]. apply andb_prop in H as [H4 _].
  apply isdigit_val in H1 as [B1 Z1], H2 as [B2 Z2], H3 as [B3 Z3], H4 as [B4 Z4].
  unfold year_of. split.
  - intros Hy [= -> -> -> ->]. vm_compute in Hy. now apply Hy.
  - intros Hne.
    destruct (Z.eq_dec (digit_val d1) 0%Z) as [E1|]; [|lia].
    destruct (Z.eq_dec (digit_val d2) 0%Z) as [E2|]; [|lia].
    destruct (Z.eq_dec (digit_val d3) 0%Z) as [E3|]; [|lia].
    destruct (Z.eq_dec (digit_val d4) 0%Z) as [E4|]; [|lia].
    exfalso. apply Hne. now rewrite (Z1 E1), (Z2 E2), (Z3 E3), (Z4 E4).
Qed.

Lemma four_digits_inv (y : string) :
  four_digits y = true ->
  exists d1 d2 d3 d4, y = String d1 (String d2 (String d3 (String d4 ""))).
Proof.
  unfold four_digits. intros [Hl _]%andb_prop. apply Nat.eqb_eq in Hl.
  destruct y as [|d1 [|d2 [|d3 [|d4 [|]]]]]; try discriminate. eauto.
Qed.

Lemma validates_accepted_label (s : string) :
  validate_month_year s = true -> accepted_label s.
Proof.
  rewrite validate_month_year_regex. unfold accepted_label.
  intros (m & r & y & Hin & Hl & Ht & Hy).
  apply match_literal_spec in Hl as (m' & -> & <-).
  apply match_tail_spec in Ht as (ws & d1 & d2 & d3 & d4 & Hne & Hws & Hd & -> & ->).
  exists m', ws, (String d1 (String d2 (String d3 (String d4 "")))).
  repeat split; auto. now apply year_positive.
Qed.

Lemma accepted_label_validates (s : string) :
  accepted_label s -> validate_month_year s = true.
Proof.
  rewrite validate_month_year_regex. unfold accepted_label.
  intros (m & ws & y & Hin & Hne & Hws & Hd & Hy & ->).
  destruct (four_digits_inv _ Hd) as (d1 & d2 & d3 & d4 & ->).
  apply andb_prop in Hd as [_ Hd].
  exists (lower m), (ws +:+ String d1 (String d2 (String d3 (String d4 "")))),
    (year_of d1 d2 d3 d4).
  repeat split; auto.
  - apply match_literal_spec. eauto.
  - apply match_tail_spec. exists ws, d1, d2, d3, d4. auto.
  - now apply year_positive.
Qed.

(** C2 (as amended): [validate_month_year] returns [True] exactly for a
    full English month name in any letter case, followed by one or more
    blanks, followed by four digits other than 0000, with nothing before or
    after; so it is [False] for a wrong token order, an abbreviated month, a
    missing year, extra tokens and a year that is not four digits. *)
Theorem validate_month_year_accepts (s : string) :
  (validate_month_year s = true <-> accepted_label s)
  /\ (validate_month_year s = false <-> ~ accepted_label s).
Proof.
  assert (H : validate_month_year s = true <-> accepted_label s)
    by (split; [apply validates_accepted_label | apply accepted_label_validates]).
  split; [exact H|]. rewrite <- H.
  destruct (validate_month_year s); split; congruence.
Qed.

(** A label read to the letter is accepted unless its year is 0000. *)
Lemma exact_period_label_accepted (s : string) :
  exact_period_label s = true ->
  validate_month_year s = true
  \/ exists m, In m month_names /\ s = m +:+ " 0000".
Proof.
  unfold exact_period_label. rewrite existsb_exists.
  intros (m & Hm & H).
  destruct (strip_prefix m s) as [r|] eqn:E; [|discriminate].
  apply strip_prefix_spec in E as ->.
  destruct r as [|c y]; [discriminate|].
  destruct c as [[] [] [] [] [] [] [] []]; try discriminate.
  destruct (string_dec y "0000") as [->|Hy].
  - right. exists m. auto.
  - left. apply accepted_label_validates. exists m, " ", y.
    split; [|split; [discriminate|]; split; [reflexivity|];
             split; [exact H|]; split; [exact Hy | reflexivity]].
    assert (F : forallb (fun m => existsb (String.eqb (lower m)) f_month)
                        month_names = true) by (vm_compute; reflexivity).
    rewrite forallb_forall in F. specialize (F m Hm).
    apply existsb_exists in F as (m' & Hin & Heq).
    apply String.eqb_eq in Heq. now rewrite Heq.
Qed.

(** C2, against the claim as stated: a label with two blanks is accepted
    although it is not the exact pattern, and the exact pattern with the
    year 0000 is refused. *)
Lemma validate_month_year_differs :
  (validate_month_year "January  2024" = true
   /\ exact_period_label "January  2024" = false)
  /\ (validate_month_year "January 0000" = false
      /\ exact_period_label "January 0000" = true).
Proof. repeat split; reflexivity. Qed.

Example validate_month_year_well_formed :
  validate_month_year "September 2024" = true.
Proof. reflexivity. Qed.

Example validate_month_year_wrong_order :
  validate_month_year "2024 September" = false.
Proof. reflexivity. Qed.

Example validate_month_year_abbreviated :
  validate_month_year "Sep 2024" = false.
Proof. reflexivity. Qed.

Example validate_month_year_missing_year :
  validate_month_year "September" = false.
Proof. reflexivity. Qed.

Example validate_month_year_extra_token :
  validate_month_year "September 2024 final" = false.
Proof. reflexivity. Qed.

Example validate_month_year_short_year :
  validate_month_year "September 24" = false.
Proof. reflexivity. Qed.

Example validate_month_year_long_year :
  validate_month_year "September 20245" = false.
Proof. reflexivity. Qed.

Example validate_month_year_lower_case :
  validate_month_year "september 2024" = true.
Proof. reflexivity. Qed.

End PeriodLabels.

(** ** The sample run *)

Local Abbreviation sample_extract :=
  (extract sample_parse_numeric sample_str_of_float).
Local Abbreviation sample_import W :=
  (process_excel_data sample_parse_numeric sample_str_of_float
     (gmap string (list entry)) sample_dumps sample_torn W).
Local Abbreviation sample_search :=
  (search_and_calculate_changes sample_format sample_format
     (gmap string (list entry))).



Lemma beta_june_survives : last_write_wins [alpha_june; beta_june] beta_june.
Proof.
  exists [alpha_june], []. split; [reflexivity|]. intros x [].
Qed.


(** C1 at a sheet with seven columns: the import stops on [IndexError],
    not on the structure error. *)
Lemma short_sheet_raises_IndexError :
  length (columns short_sheet) < 8
  /\ sample_extract short_sheet
     = Raise (IndexError "positional indexers are out-of-bounds").
Proof.
  assert (H : length (columns short_sheet) < 8) by (simpl; lia).
  split; [exact H|].
  exact (proj1 (extract_short_table_raises_IndexError
                  sample_parse_numeric sample_str_of_float
                  (gmap string (list entry)) sample_dumps sample_torn sample_world
                  short_sheet H)).
Defined.

(** C4, against the claim as stated: with a storage file that cannot be
    written the import returns [False], yet the list of the month is the new
    one, not the previous one. *)
Lemma failed_save_replaces_month :
  fst (sample_import read_only_world "holdings.xlsx" "May 2024" sample_state)
  = Ok false
  /\ data sample_state !! "May 2024" = Some [alpha_may]
  /\ data (snd (sample_import read_only_world "holdings.xlsx" "May 2024"
                  sample_state)) !! "May 2024"
     = Some [ sample_entry "Alpha Growth Fund" "INF001" "Equity" 120 66 0;
              sample_entry "Beta Bond Fund" "INF002" "Debt" 7 0 0.5 ].
Proof. repeat split; vm_compute; reflexivity. Qed.

(** C3, against the claim as stated: with an invalid label, and with a
    month that is not stored, the caller receives [None] and an error line
    is printed; no exception reaches it. *)
Lemma search_returns_None_on_bad_periods :
  sample_search "alpha" "Sept 2024" "June 2024" sample_state
  = (Ok None,
     with_line _ sample_state
       (nl +:+ "Error: Invalid month format. Use 'Month YYYY' format"))
  /\ sample_search "alpha" "May 2024" "July 2024" sample_state
     = (Ok None,
        with_line _ sample_state
          (nl +:+ "Error: 'One or both months not found in the data'")).
Proof. split; reflexivity. Qed.



(** C3 at the sample dictionary: an abbreviated month is refused as an
    invalid label, a month that is not stored as missing. *)
Lemma sample_search_rejects :
  validate_month_year "Sept 2024" = false
  /\ sample_search "alpha" "Sept 2024" "June 2024" sample_state
     = (Ok None,
        with_line _ sample_state (nl +:+ "Error: " +:+ invalid_month_message))
  /\ validate_month_year "May 2024" = true
  /\ validate_month_year "July 2024" = true
  /\ data sample_state !! "July 2024" = None
  /\ sample_search "alpha" "May 2024" "July 2024" sample_state
     = (Ok None,
        with_line _ sample_state
          (nl +:+ "Error: '" +:+ months_not_found_message +:+ "'")).
Proof.
  pose proof (search_and_calculate_changes_rejects sample_format sample_format
                (gmap string (list entry)) "alpha" "Sept 2024" "June 2024"
                sample_state) as [H1 _].
  pose proof (search_and_calculate_changes_rejects sample_format sample_format
                (gmap string (list entry)) "alpha" "May 2024" "July 2024"
                sample_state) as [_ H2].
  split; [reflexivity|].
  split; [exact (proj2 (H1 (or_introl eq_refl)))|].
  split; [reflexivity|]. split; [reflexivity|]. split; [reflexivity|].
  exact (proj2 (H2 eq_refl eq_refl (or_intror eq_refl))).
Defined.

(** C4 at the sample sheet: a month that was not stored yet is stored with
    the records of the sheet, and the import returns [True]. *)
Lemma sample_import_stores_month :
  validate_month_year "July 2024" = true
  /\ path_exists sample_world "holdings.xlsx" = true
  /\ read_excel sample_world "holdings.xlsx" = Ok sample_sheet
  /\ sample_extract sample_sheet
     = Ok [ sample_entry "Alpha Growth Fund" "INF001" "Equity" 120 66 0;
            sample_entry "Beta Bond Fund" "INF002" "Debt" 7 0 0.5 ]
  /\ exists b st',
       sample_import sample_world "holdings.xlsx" "July 2024" sample_state
       = (Ok b, st')
       /\ b = true
       /\ data st' !! "July 2024"
          = Some [ sample_entry "Alpha Growth Fund" "INF001" "Equity" 120 66 0;
                   sample_entry "Beta Bond Fund" "INF002" "Debt" 7 0 0.5 ]
       /\ data st' !! "May 2024" = Some [alpha_may].
Proof.
  repeat (split; [reflexivity|]).
  destruct (process_excel_data_replaces_or_keeps sample_parse_numeric
              sample_str_of_float (gmap string (list entry)) sample_dumps sample_torn
              sample_world "holdings.xlsx" "July 2024" sample_state)
    as (b & st' & E & _ & H).
  destruct (H sample_sheet _ eq_refl eq_refl eq_refl eq_refl) as (Hb & Hm & Ho).
  exists b, st'. split; [exact E|]. split; [exact Hb|]. split; [exact Hm|].
  rewrite Ho by discriminate. reflexivity.
Defined.




(** C7 at the sample sheet: the blank row and the row without an
    identifier are dropped, and the text cells of the numeric columns that
    hold no number are stored as zero. *)
Lemma sample_sheet_records :
  8 <= length (columns sample_sheet)
  /\ sample_extract sample_sheet
     = Ok [ sample_entry "Alpha Growth Fund" "INF001" "Equity" 120 66 0;
            sample_entry "Beta Bond Fund" "INF002" "Debt" 7 0 0.5 ].
Proof.
  split; [simpl; lia|].
  rewrite (proj1 (extract_emits_kept_rows sample_parse_numeric
                    sample_str_of_float sample_sheet)).
  reflexivity.
Defined.

(** C9 at the sample dictionary: the query [bond] reports Beta Bond Fund. *)
Lemma sample_search_matches :
  validate_month_year "May 2024" = true
  /\ validate_month_year "June 2024" = true
  /\ data sample_state !! "May 2024" = Some [alpha_may]
  /\ data sample_state !! "June 2024" = Some [alpha_june; beta_june]
  /\ exists results st',
       sample_search "bond" "May 2024" "June 2024" sample_state
       = (Ok (Some results), st')
       /\ In (MutualFundDetails beta_june) (map FundDetails results).
Proof.
  repeat (split; [reflexivity|]).
  destruct (search_reports_exactly_the_matches sample_format sample_format
              (gmap string (list entry)) "bond" "May 2024" "June 2024"
              sample_state [alpha_may] [alpha_june; beta_june]
              eq_refl eq_refl eq_refl eq_refl)
    as (results & st' & E & Hin & _).
  exists results, st'. split; [exact E|].
  apply Hin. exists beta_june. split; [exact beta_june_survives|].
  split; [reflexivity|]. exists "Beta ", "Bond", " Fund". split; reflexivity.
Defined.



(** The example of the specification: 100 to 120, 50 to 66 and 1.0 to 1.2
    give +20, +32 and, in binary floating point, 19.999999999999996. *)
Example percent_change_specification_example :
  percent_change 100 120 = Some 20%float
  /\ percent_change 50 66 = Some 32%float
  /\ percent_change 1 0x1.3333333333333p+0 = Some 0x1.3ffffffffffffp+4%float
  /\ percent_change 0 5 = None.
Proof. repeat split; reflexivity. Qed.

(** * Further properties: labels and samples *)

(** ** Valid labels carry no surrounding blanks *)

Lemma lower_char_keeps_blank (c : ascii) :
  PyStr.isspace c = true -> PyStr.isspace (PyStr.lower_char c) = true.
Proof.
  destruct c as [[] [] [] [] [] [] [] []]; vm_compute; congruence.
Qed.

Lemma month_starts_with_letter (m : string) :
  In (PyStr.lower m) Strptime.f_month ->
  exists c m', m = String c m' /\ PyStr.isspace c = false.
Proof.
  intros Hin. destruct m as [|c m'].
  - exfalso. simpl in Hin.
    repeat destruct Hin as [Hin|Hin]; try discriminate Hin. exact Hin.
  - exists c, m'. split; [reflexivity|].
    destruct (PyStr.isspace c) eqn:Hc; [|reflexivity]. exfalso.
    apply lower_char_keeps_blank in Hc. simpl in Hin.
    repeat destruct Hin as [Hin|Hin];
      try (injection Hin as Hin _; rewrite <- Hin in Hc; discriminate Hc).
    exact Hin.
Qed.

Lemma rstrip_ends_with (a : string) (d : ascii) :
  PyStr.isspace d = false ->
  PyStr.rstrip (a +:+ String d "") = a +:+ String d "".
Proof.
  intros Hd. induction a as [|x a IH].
  - rewrite append_nil_l. simpl. now rewrite Hd.
  - rewrite append_cons. simpl. rewrite IH.
    destruct a; reflexivity.
Qed.

(** X20: a label [validate_month_year] accepts has no blank at either end,
    so trimming it, as the menu does with what is typed, leaves it
    unchanged; the keys an import stores are their own trimmed form. *)
Theorem valid_label_is_trimmed (s : string) :
  validate_month_year s = true -> PyStr.strip s = s.
Proof.
  intros H. apply validates_accepted_label in H
    as (m & ws & y & Hin & _ & _ & Hd & _ & ->).
  destruct (four_digits_inv _ Hd) as (d1 & d2 & d3 & d4 & ->).
  apply andb_prop in Hd as [_ Hd]. simpl in Hd.
  repeat (apply andb_prop in Hd as [? Hd]).
  destruct (month_starts_with_letter m Hin) as (c & m' & -> & Hc).
  unfold PyStr.strip. rewrite append_cons.
  cbn [PyStr.lstrip]. rewrite Hc, <- append_cons.
  replace (String c m' +:+ ws +:+ String d1 (String d2 (String d3 (String d4 ""))))
    with ((String c m' +:+ ws +:+ String d1 (String d2 (String d3 "")))
          +:+ String d4 "").
  - apply rstrip_ends_with. now apply digit_not_space.
  - rewrite !append_assoc. reflexivity.
Qed.

(** ** The further properties on the sample data *)

Local Abbreviation sample_init :=
  (init (gmap string (list entry)) sample_loads sample_world
        "portfolio_data.json").
Local Abbreviation sample_main_loop :=
  (main_loop sample_parse_numeric sample_str_of_float sample_format
             sample_format (gmap string (list entry)) sample_dumps sample_torn
             sample_world).

Lemma sample_entries_clean :
  clean_entry alpha_may /\ clean_entry alpha_june /\ clean_entry beta_june.
Proof. repeat split; try reflexivity; discriminate. Qed.

Lemma sample_data_imported : imported_snapshot sample_data.
Proof.
  destruct sample_entries_clean as (Ha & Hb & Hc). unfold sample_data.
  apply map_Forall_insert_2.
  { split; [reflexivity|]. split; [discriminate|]. repeat constructor; auto. }
  apply map_Forall_insert_2.
  { split; [reflexivity|]. split; [discriminate|]. repeat constructor; auto. }
  apply map_Forall_empty.
Qed.

(** X3: a manager constructed on the storage file that an import which
    returned [True] left behind holds the importing manager's dictionary,
    the new month included, whatever the state it is constructed in, and
    prints no warning. The numbers of the dictionary are required to read
    back from their text. *)
Theorem restart_after_import (parse_numeric : string -> option float)
  (str_of_float : float -> string) (W : World) (torn : string -> string)
  (storage_file excel_file month_year : string) (st st' new : State string) :
  can_read W = true ->
  process_excel_data parse_numeric str_of_float string Json.dumps torn W
                     excel_file month_year st = (Ok true, st') ->
  Json.storable (data st') ->
  storage new = storage st' ->
  init string Json.loads W storage_file new
  = (Ok tt, {| data := data st'; storage := storage new;
               stdout := stdout new |}).
Proof.
  intros Hr E Hs Hnew.
  apply import_fills_storage in E. rewrite E in Hnew.
  apply init_loads.
  apply (load_data_reads string Json.loads W storage_file new
           (Json.dumps (data st')) (data st') Hnew Hr).
  exact (JsonFacts.loads_dumps (data st') Hs).
Qed.

Local Abbreviation json_import :=
  (process_excel_data sample_parse_numeric sample_str_of_float string
     Json.dumps first_half sample_world "holdings.xlsx" "July 2024"
     sample_manager).

Lemma json_import_run : json_import = (Ok true, snd json_import).
Proof. vm_compute. reflexivity. Qed.

Lemma json_import_storable : Json.storable (data (snd json_import)).
Proof.
  apply map_Forall_to_list.
  remember (map_to_list (data (snd json_import))) as months eqn:E.
  vm_compute in E. subst months. repeat constructor.
Qed.

(** X3 on the sample sheet: a manager that starts empty on the file left
    by the import of July 2024 holds the three months. *)
Lemma restart_after_sample_import :
  can_read sample_world = true
  /\ fst json_import = Ok true
  /\ Json.storable (data (snd json_import))
  /\ init string Json.loads sample_world "portfolio_data.json"
          (fresh_manager (storage (snd json_import)))
     = (Ok tt, {| data := data (snd json_import);
                  storage := storage (snd json_import); stdout := [] |})
  /\ data (snd json_import) !! "July 2024"
     = Some [ sample_entry "Alpha Growth Fund" "INF001" "Equity" 120 66 0;
              sample_entry "Beta Bond Fund" "INF002" "Debt" 7 0 0.5 ].
Proof.
  split; [reflexivity|].
  split; [rewrite json_import_run; reflexivity|].
  split; [exact json_import_storable|].
  split; [|vm_compute; reflexivity].
  exact (restart_after_import sample_parse_numeric sample_str_of_float
           sample_world first_half "portfolio_data.json" "holdings.xlsx"
           "July 2024" sample_manager (snd json_import)
           (fresh_manager (storage (snd json_import)))
           eq_refl json_import_run json_import_storable eq_refl).
Defined.

(** X4 on the sample sheet: July then August, or August then July. *)
Lemma sample_imports_commute :
  "July 2024" <> "August 2024"
  /\ fst (sample_import sample_world "a.xlsx" "July 2024" sample_state)
     = fst (sample_import sample_world "a.xlsx" "July 2024"
              (snd (sample_import sample_world "b.xlsx" "August 2024"
                      sample_state)))
  /\ fst (sample_import sample_world "b.xlsx" "August 2024"
            (snd (sample_import sample_world "a.xlsx" "July 2024"
                    sample_state)))
     = fst (sample_import sample_world "b.xlsx" "August 2024" sample_state)
  /\ data (snd (sample_import sample_world "b.xlsx" "August 2024"
                  (snd (sample_import sample_world "a.xlsx" "July 2024"
                          sample_state))))
     = data (snd (sample_import sample_world "a.xlsx" "July 2024"
                    (snd (sample_import sample_world "b.xlsx" "August 2024"
                            sample_state)))).
Proof.
  assert (H : "July 2024" <> "August 2024") by discriminate.
  split; [exact H|].
  exact (imports_of_different_months_commute sample_parse_numeric
           sample_str_of_float (gmap string (list entry)) sample_dumps
           sample_torn sample_world "a.xlsx" "July 2024" "b.xlsx"
           "August 2024" sample_state H).
Defined.

(** X6 on the sample sheet. *)
Lemma sample_sheet_records_clean :
  sample_extract sample_sheet
  = Ok [ sample_entry "Alpha Growth Fund" "INF001" "Equity" 120 66 0;
         sample_entry "Beta Bond Fund" "INF002" "Debt" 7 0 0.5 ]
  /\ Forall clean_entry
       [ sample_entry "Alpha Growth Fund" "INF001" "Equity" 120 66 0;
         sample_entry "Beta Bond Fund" "INF002" "Debt" 7 0 0.5 ].
Proof.
  split; [reflexivity|].
  exact (proj2 (extract_gives_clean_records sample_parse_numeric
                  sample_str_of_float sample_sheet _ eq_refl)).
Defined.

(** X7 on the sample dictionary and sheet. *)
Lemma sample_import_keeps_shape :
  imported_snapshot (data sample_state)
  /\ imported_snapshot
       (data (snd (sample_import sample_world "holdings.xlsx" "July 2024"
                     sample_state))).
Proof.
  split; [exact sample_data_imported|].
  exact (import_keeps_snapshot_shape sample_parse_numeric sample_str_of_float
           (gmap string (list entry)) sample_dumps sample_torn sample_world
           "holdings.xlsx" "July 2024" sample_state sample_data_imported).
Defined.

(** X9 on a sheet that stops after its heading rows. *)
Lemma heading_only_sheet_has_no_data :
  8 <= length (columns heading_only_sheet)
  /\ length (rows heading_only_sheet) <= 6
  /\ sample_extract heading_only_sheet
     = Raise (ValueError "No valid data found in Excel file").
Proof.
  assert (Hc : 8 <= length (columns heading_only_sheet)) by (simpl; lia).
  assert (Hr : length (rows heading_only_sheet) <= 6) by (simpl; lia).
  split; [exact Hc|]. split; [exact Hr|].
  exact (proj2 (extract_needs_a_seventh_row sample_parse_numeric
                  sample_str_of_float heading_only_sheet) Hc Hr).
Defined.

(** X12 on the sample dictionary. *)
Lemma sample_results_have_two_shapes :
  exists results,
    fst (sample_search "fund" "May 2024" "June 2024" sample_state)
    = Ok (Some results)
    /\ Forall
         (fun r =>
            (Status r = "New Addition" /\ Changes r = [])
            \/ (Status r = "Existing"
                /\ map fst (Changes r)
                   = ["Quantity"; "MarketValueInLakhs"; "%ToNAV"]
                /\ Forall (fun kc =>
                             (PercentageChange (snd kc) = None
                              <-> (StartValue (snd kc) =? 0)%float = true))
                          (Changes r)))
         results.
Proof.
  eexists. split; [vm_compute; reflexivity|].
  apply (search_results_have_two_shapes sample_format sample_format
           (gmap string (list entry)) "fund" "May 2024" "June 2024"
           sample_state
           (snd (sample_search "fund" "May 2024" "June 2024" sample_state))).
  vm_compute. reflexivity.
Defined.

(** X13 on the sample dictionary: both funds of June, in list order. *)
Lemma sample_results_follow_list_order :
  data sample_state !! "June 2024" = Some [alpha_june; beta_june]
  /\ List.NoDup (map (fun item => ISIN (MutualFundDetails item))
                     [alpha_june; beta_june])
  /\ exists results,
       fst (sample_search "fund" "May 2024" "June 2024" sample_state)
       = Ok (Some results)
       /\ map FundDetails results
          = [MutualFundDetails alpha_june; MutualFundDetails beta_june].
Proof.
  assert (Hn : List.NoDup (map (fun item => ISIN (MutualFundDetails item))
                               [alpha_june; beta_june])).
  { constructor; [intros [H|[]]; discriminate H|].
    constructor; [intros []|constructor]. }
  split; [reflexivity|]. split; [exact Hn|].
  eexists. split; [vm_compute; reflexivity|].
  refine (proj1 (search_results_follow_list_order sample_format sample_format
                   (gmap string (list entry)) "fund" "May 2024" "June 2024"
                   sample_state
                   (snd (sample_search "fund" "May 2024" "June 2024"
                           sample_state))
                   _ [alpha_june; beta_june] _ eq_refl Hn)).
  vm_compute. reflexivity.
Defined.

(** X14 on the sample dictionary: the empty query reports Beta Bond Fund. *)
Lemma sample_empty_query_reports_all :
  data sample_state !! "June 2024" = Some [alpha_june; beta_june]
  /\ last_write_wins [alpha_june; beta_june] beta_june
  /\ exists results,
       fst (sample_search "" "May 2024" "June 2024" sample_state)
       = Ok (Some results)
       /\ In (MutualFundDetails beta_june) (map FundDetails results).
Proof.
  split; [reflexivity|]. split; [exact beta_june_survives|].
  eexists. split; [vm_compute; reflexivity|].
  refine (empty_query_reports_every_holding sample_format sample_format
            (gmap string (list entry)) "May 2024" "June 2024" sample_state
            (snd (sample_search "" "May 2024" "June 2024" sample_state))
            _ [alpha_june; beta_june] _ eq_refl beta_june beta_june_survives).
  vm_compute. reflexivity.
Defined.

(** X15 on the sample dictionary: [bond] against [Bond Fund]. *)
Lemma sample_wider_query_keeps_results :
  contains_ignoring_case "bond" "Bond Fund"
  /\ exists results2,
       fst (sample_search "Bond Fund" "May 2024" "June 2024" sample_state)
       = Ok (Some results2)
       /\ exists results1 st1,
            sample_search "bond" "May 2024" "June 2024" sample_state
            = (Ok (Some results1), st1)
            /\ forall r, In r results2 -> In r results1.
Proof.
  assert (Hq : contains_ignoring_case "bond" "Bond Fund").
  { exists "", "Bond", " Fund". split; reflexivity. }
  split; [exact Hq|].
  eexists. split; [vm_compute; reflexivity|].
  refine (wider_query_keeps_results sample_format sample_format
            (gmap string (list entry)) "Bond Fund" "bond" "May 2024"
            "June 2024" sample_state
            (snd (sample_search "Bond Fund" "May 2024" "June 2024"
                    sample_state))
            _ Hq _).
  vm_compute. reflexivity.
Defined.

(** X16 on the sample dictionary: June against June. *)
Lemma sample_same_month_only_existing :
  exists results,
    fst (sample_search "" "June 2024" "June 2024" sample_state)
    = Ok (Some results)
    /\ Forall
         (fun r =>
            Status r = "Existing"
            /\ Forall (fun kc => EndValue (snd kc) = StartValue (snd kc))
                      (Changes r))
         results.
Proof.
  eexists. split; [vm_compute; reflexivity|].
  apply (same_month_reports_only_existing sample_format sample_format
           (gmap string (list entry)) "" "June 2024" sample_state
           (snd (sample_search "" "June 2024" "June 2024" sample_state))).
  vm_compute. reflexivity.
Defined.

(** X18 at the end of the input: with nothing left to read the loop is
    still running after a hundred iterations. *)
Lemma loop_runs_at_end_of_input :
  forallb (fun k => negb (leaves k)) [Line "2"; Line "4"] = true
  /\ sample_main_loop 100 [Line "2"; Line "4"] sample_state = Running _.
Proof.
  split; [reflexivity|].
  apply (main_loop_runs_without_leaving_key sample_parse_numeric
           sample_str_of_float sample_format sample_format
           (gmap string (list entry)) sample_dumps sample_torn sample_world 100
           [Line "2"; Line "4"] sample_state).
  reflexivity.
Defined.

(** X19 on a session with one analysis: the loop leaves with the dictionary
    and the storage file it started with. *)
Lemma analysis_session_keeps_data :
  forallb (fun k => negb (asks_import k)) analysis_session = true
  /\ exists stdin' st',
       sample_main_loop 2 analysis_session sample_state = Exited _ stdin' st'
       /\ data st' = data sample_state
       /\ storage st' = storage sample_state.
Proof.
  split; [reflexivity|].
  eexists _, _. split; [vm_compute; reflexivity|].
  refine (main_loop_changes_data_only_by_import sample_parse_numeric
            sample_str_of_float sample_format sample_format
            (gmap string (list entry)) sample_dumps sample_torn sample_world 2
            analysis_session _ sample_state _ eq_refl _).
  vm_compute. reflexivity.
Defined.

(** X20 at a label of the sample dictionary. *)
Lemma sample_label_is_trimmed :
  validate_month_year "May 2024" = true /\ PyStr.strip "May 2024" = "May 2024".
Proof.
  split; [reflexivity|]. exact (valid_label_is_trimmed "May 2024" eq_refl).
Defined.
